(** * tempera-pulse: the seed-weather-data generator and the dashboard loaders

  A shallow embedding of
  - [supabase/functions/seed-weather-data/index.ts] (the revision with the
    climate profiles of the Indian cities), module [Seed];
  - the fetch functions of [src/components/WeatherDashboard.tsx],
    module [Dashboard].

  JavaScript numbers are modelled as real numbers: [Math.sin] is [sin],
  [Math.PI] is [PI], and the arithmetic is exact, where the program's is
  that of binary64, each operation rounding its result (a relative error
  below [2 ^ -53]).  A statement that ties a stored value to the rounding
  of a formula therefore takes the rounded value to be any within [10 ^ -9]
  of the formula's.  [Math.random()] and
  [Date.now()] read from a [world] that lists their successive results, and
  the replies of the data store are part of the same [world]. *)

From Stdlib Require Import Reals Lra Lia ZArith List String Ascii Bool DecimalString.
Import ListNotations.
Open Scope R_scope.

(** ** JavaScript number primitives *)

Module Js.

(** The integer [n] of [Number.prototype.toFixed(f)]: the one for which
    [n / 10^f - |x|] is closest to zero, the larger one on a tie.  (The
    exponent rendering of numbers from [1e21] on is outside the model.) *)
Definition fixed_digits (f : nat) (x : R) : Z :=
  Zfloor (Rabs x * 10 ^ f + / 2).

(** [Number(x.toFixed(f))]: the number the rendering reads back as. *)
Definition Number_toFixed (f : nat) (x : R) : R :=
  if Rlt_dec x 0
  then - (IZR (fixed_digits f x) / 10 ^ f)
  else IZR (fixed_digits f x) / 10 ^ f.

Definition string_of_N (n : N) : string :=
  NilZero.string_of_uint (N.to_uint n).

Fixpoint zeros (k : nat) : string :=
  match k with
  | O => EmptyString
  | S k' => String "0"%char (zeros k')
  end.

(** The fraction digits, padded with zeros on the left to [f] places. *)
Definition pad_left (f : nat) (s : string) : string :=
  (zeros (f - String.length s) ++ s)%string.

(** [x.toFixed(f)], the rendering itself. *)
Definition toFixed (f : nat) (x : R) : string :=
  let n := Z.to_N (fixed_digits f x) in
  let sign := if Rlt_dec x 0 then "-"%string else EmptyString in
  let whole := string_of_N (n / 10 ^ N.of_nat f) in
  match f with
  | O => (sign ++ whole)%string
  | _ => (sign ++ whole ++ "." ++
          pad_left f (string_of_N (n mod 10 ^ N.of_nat f)))%string
  end.

(** [`${x}`] for an integral [x]: its decimal digits.  (The digit
    generation of [ToString] for fractions is outside the model.) *)
Definition ToString (x : R) : string := toFixed 0 x.

Definition Math_max (a b : R) : R := Rmax a b.
Definition Math_min (a b : R) : R := Rmin a b.

End Js.

(** ** The seed function *)

Module Seed.

Import Js.

Definition uuid := string.

(** The value every bulk delete compares the [id] column with. *)
Definition nil_uuid : uuid := "00000000-0000-0000-0000-000000000000"%string.

(** *** Rows *)

(** An element of the [stations] literal. *)
Record station_input := {
  in_name : string;
  in_location : string;
  in_latitude : R;
  in_longitude : R
}.

(** A row of [weather_stations] as [insert(...).select()] returns it. *)
Module Station.
Record row := { id : uuid; name : string; location : string }.
End Station.

Inductive severity_level := low | medium | high | extreme.

(** A row pushed to [weatherData].  [timestamp] holds the time value (in
    milliseconds) of the [Date] whose [toISOString()] the code stores. *)
Module Observation.
Record row := {
  station_id : uuid;
  timestamp : Z;
  temperature : R;
  humidity : R;
  precipitation : R;
  wind_speed : R;
  pressure : R
}.
End Observation.

Module Prediction.
Record row := {
  station_id : uuid;
  prediction_date : Z;
  predicted_temp : R;
  predicted_humidity : R;
  predicted_precipitation : R;
  confidence : R
}.
End Prediction.

Module Alert.
Record row := {
  station_id : uuid;
  alert_type : string;
  severity : severity_level;
  message : string;
  is_active : bool
}.
End Alert.

(** *** Climate profiles *)

Record band := { min : R; max : R }.

Record profile := {
  baseTemp : R;
  tempRange : R;
  humidity : band;
  rainProbability : R;
  windSpeed : band
}.

Definition Mumbai : profile :=
  {| baseTemp := 30; tempRange := 5; humidity := {| min := 65; max := 85 |};
     rainProbability := 0.25; windSpeed := {| min := 10; max := 35 |} |}.
Definition Pune : profile :=
  {| baseTemp := 28; tempRange := 7; humidity := {| min := 45; max := 70 |};
     rainProbability := 0.15; windSpeed := {| min := 8; max := 25 |} |}.
Definition Alandi : profile :=
  {| baseTemp := 27; tempRange := 6; humidity := {| min := 50; max := 75 |};
     rainProbability := 0.18; windSpeed := {| min := 7; max := 22 |} |}.
Definition Sangamner : profile :=
  {| baseTemp := 29; tempRange := 8; humidity := {| min := 40; max := 65 |};
     rainProbability := 0.20; windSpeed := {| min := 12; max := 30 |} |}.
Definition Nagpur : profile :=
  {| baseTemp := 32; tempRange := 9; humidity := {| min := 35; max := 60 |};
     rainProbability := 0.12; windSpeed := {| min := 5; max := 20 |} |}.

(** [climateProfiles[key]] on the object literal; [None] is [undefined].
    (Keys inherited from [Object.prototype] are outside the model: station
    names come from the [stations] literal.) *)
Definition climateProfiles (key : string) : option profile :=
  if String.eqb key "Mumbai" then Some Mumbai
  else if String.eqb key "Pune" then Some Pune
  else if String.eqb key "Alandi" then Some Alandi
  else if String.eqb key "Sangamner" then Some Sangamner
  else if String.eqb key "Nagpur" then Some Nagpur
  else None.

(** [climateProfiles[station.name] || climateProfiles["Pune"]] *)
Definition profile_for (station_name : string) : profile :=
  match climateProfiles station_name with
  | Some p => p
  | None => Pune
  end.

(** The [stations] literal. *)
Definition stations : list station_input :=
  [ {| in_name := "Mumbai"; in_location := "Maharashtra, Western India";
       in_latitude := 19.0760; in_longitude := 72.8777 |};
    {| in_name := "Pune"; in_location := "Maharashtra, Western India";
       in_latitude := 18.5204; in_longitude := 73.8567 |};
    {| in_name := "Alandi"; in_location := "Maharashtra, Western India";
       in_latitude := 18.6776; in_longitude := 73.8987 |};
    {| in_name := "Sangamner"; in_location := "Maharashtra, Central India";
       in_latitude := 19.5673; in_longitude := 74.2058 |};
    {| in_name := "Nagpur"; in_location := "Maharashtra, Central India";
       in_latitude := 21.1458; in_longitude := 79.0882 |} ].

(** *** The environment of one invocation *)

(** An error value of the data store; [is_Error] is [error instanceof Error]. *)
Record store_error := { is_Error : bool; error_message : string }.

Record world := {
  random : nat -> R;                 (* k-th result of Math.random() *)
  now : nat -> Z;                    (* k-th result of Date.now() *)
  stations_reply : store_error + list Station.row;
  data_reply : option store_error;
  predictions_reply : option store_error;
  alerts_reply : option store_error
}.

(** *** The generator state: the three arrays and the two read positions *)

Record heap := {
  weatherData : list Observation.row;
  predictions : list Prediction.row;
  alerts : list Alert.row;
  draws : nat;
  ticks : nat
}.

Definition empty_heap : heap :=
  {| weatherData := []; predictions := []; alerts := [];
     draws := 0; ticks := 0 |}.

Definition M (A : Type) : Type := heap -> A * heap.

Definition ret {A} (a : A) : M A := fun h => (a, h).

Definition bind {A B} (m : M A) (f : A -> M B) : M B :=
  fun h => let (a, h') := m h in f a h'.

Declare Scope gen_scope.
Delimit Scope gen_scope with gen.
Notation "x <- m ;; k" := (bind m (fun x => k))
  (at level 61, m at next level, right associativity) : gen_scope.
Notation "m ;; k" := (bind m (fun _ => k))
  (at level 61, right associativity) : gen_scope.
Open Scope gen_scope.

Fixpoint for_each {A} (l : list A) (body : A -> M unit) : M unit :=
  match l with
  | [] => ret tt
  | x :: l' => body x ;; for_each l' body
  end.

(** [for (let day = 7; day >= 0; day--)] visits [countdown 7]. *)
Fixpoint countdown (n : nat) : list nat :=
  match n with
  | O => [O]
  | S k => n :: countdown k
  end.

(** [for (let hour = 0; hour < 24; hour += 6)] visits [every_6_hours]. *)
Definition every_6_hours : list nat := [0; 6; 12; 18]%nat.

Section Generator.

Variable w : world.

Definition Math_random : M R := fun h =>
  (random w (draws h),
   {| weatherData := weatherData h; predictions := predictions h;
      alerts := alerts h; draws := S (draws h); ticks := ticks h |}).

Definition Date_now : M Z := fun h =>
  (now w (ticks h),
   {| weatherData := weatherData h; predictions := predictions h;
      alerts := alerts h; draws := draws h; ticks := S (ticks h) |}).

Definition push_weatherData (r : Observation.row) : M unit := fun h =>
  (tt,
   {| weatherData := weatherData h ++ [r]; predictions := predictions h;
      alerts := alerts h; draws := draws h; ticks := ticks h |}).

Definition push_predictions (r : Prediction.row) : M unit := fun h =>
  (tt,
   {| weatherData := weatherData h; predictions := predictions h ++ [r];
      alerts := alerts h; draws := draws h; ticks := ticks h |}).

Definition push_alerts (r : Alert.row) : M unit := fun h =>
  (tt,
   {| weatherData := weatherData h; predictions := predictions h;
      alerts := alerts h ++ [r]; draws := draws h; ticks := ticks h |}).

(** [Math.sin((hour - 6) / 24 * Math.PI * 2)] *)
Definition hourFactor (hour : nat) : R :=
  sin ((INR hour - 6) / 24 * PI * 2).

(** [profile.humidity.min + (max - min) * (1 - (hourFactor + 1) / 2)] *)
Definition humidityBase (p : profile) (hour : nat) : R :=
  min (humidity p) +
  (max (humidity p) - min (humidity p)) * (1 - (hourFactor hour + 1) / 2).

(** The body of the historical loops, for one [day] and one [hour]. *)
Definition observation (station : Station.row) (p : profile)
    (day hour : nat) : M unit :=
  t <- Date_now ;;
  let timestamp :=
    (t - (Z.of_nat day * 24 + (23 - Z.of_nat hour)) * 3600000)%Z in
  r <- Math_random ;;
  let temp := baseTemp p + hourFactor hour * tempRange p + (r - 0.5) * 2 in
  r <- Math_random ;;
  let humidity := humidityBase p hour + (r - 0.5) * 10 in
  r <- Math_random ;;
  precipitation <-
    (if Rlt_dec r (rainProbability p)
     then r' <- Math_random ;; ret (r' * 15 + 2)
     else ret 0) ;;
  r <- Math_random ;;
  let windBase :=
    min (windSpeed p) + (max (windSpeed p) - min (windSpeed p)) * r in
  r <- Math_random ;;
  let windSpeed := Math_max (windBase + (r - 0.5) * 5) 0 in
  r <- Math_random ;;
  let pressure := 1010 + sin (INR day / 7 * PI) * 8 + (r - 0.5) * 5 in
  push_weatherData
    {| Observation.station_id := Station.id station;
       Observation.timestamp := timestamp;
       Observation.temperature := Number_toFixed 2 temp;
       Observation.humidity :=
         Number_toFixed 2 (Math_max 20 (Math_min 95 humidity));
       Observation.precipitation := Number_toFixed 2 precipitation;
       Observation.wind_speed := Number_toFixed 2 windSpeed;
       Observation.pressure := Number_toFixed 2 pressure |}.

(** The body of the prediction loops. *)
Definition prediction (station : Station.row) (p : profile)
    (day hour : nat) : M unit :=
  t <- Date_now ;;
  let predDate :=
    (t + (Z.of_nat day * 24 + Z.of_nat hour) * 3600000)%Z in
  let trendFactor := INR day * 0.5 in
  let predictedTemp :=
    baseTemp p + hourFactor hour * tempRange p + trendFactor in
  r <- Math_random ;;
  let predictedHumidity := humidityBase p hour + (r - 0.5) * 8 in
  r <- Math_random ;;
  predictedPrecipitation <-
    (if Rlt_dec r (rainProbability p * 0.8)
     then r' <- Math_random ;; ret (r' * 8 + 1)
     else ret 0) ;;
  r <- Math_random ;;
  let confidence := 95 - INR day * 3 + (r - 0.5) * 4 in
  push_predictions
    {| Prediction.station_id := Station.id station;
       Prediction.prediction_date := predDate;
       Prediction.predicted_temp := Number_toFixed 2 predictedTemp;
       Prediction.predicted_humidity :=
         Number_toFixed 2 (Math_max 20 (Math_min 95 predictedHumidity));
       Prediction.predicted_precipitation :=
         Number_toFixed 2 predictedPrecipitation;
       Prediction.confidence :=
         Number_toFixed 2 (Math_max 75 (Math_min 98 confidence)) |}.

Definition when (c : bool) (m : M unit) : M unit :=
  if c then m else ret tt.

Definition gt (a b : R) : bool := if Rlt_dec b a then true else false.

(** The template literal of the heat-wave message. *)
Definition heat_wave_message (avgTemp : R) : string :=
  ("Heat wave conditions expected. Temperature may reach " ++
   toFixed 1 (avgTemp + 3) ++
   "Â°C. Stay hydrated and avoid direct sunlight.")%string.

(** The alerts of one station. *)
Definition station_alerts (station : Station.row) (p : profile) : M unit :=
  let avgTemp := baseTemp p in
  let isHeatWave := gt avgTemp 38 in
  let isHeavyRain := gt (rainProbability p) 0.22 in
  let isHighWind := gt (max (windSpeed p)) 30 in
  when isHeatWave
    (push_alerts
       {| Alert.station_id := Station.id station;
          Alert.alert_type := "Heat Wave Warning";
          Alert.severity := if gt avgTemp 42 then extreme else high;
          Alert.message := heat_wave_message avgTemp;
          Alert.is_active := true |}) ;;
  when isHeavyRain
    (push_alerts
       {| Alert.station_id := Station.id station;
          Alert.alert_type := "Heavy Rainfall Alert";
          Alert.severity := medium;
          Alert.message := "Heavy rainfall expected. Possibility of waterlogging in low-lying areas. Take necessary precautions.";
          Alert.is_active := true |}) ;;
  when isHighWind
    (push_alerts
       {| Alert.station_id := Station.id station;
          Alert.alert_type := "Strong Wind Advisory";
          Alert.severity := medium;
          Alert.message :=
            ("Strong winds expected with speeds up to " ++
             ToString (max (windSpeed p)) ++
             " km/h. Secure loose objects.")%string;
          Alert.is_active := true |}) ;;
  (if gt (max (humidity p)) 75
   then r <- Math_random ;;
        when (gt r 0.5)
          (push_alerts
             {| Alert.station_id := Station.id station;
                Alert.alert_type := "High Humidity Alert";
                Alert.severity := low;
                Alert.message :=
                  ("High humidity levels expected (" ++
                   ToString (max (humidity p)) ++
                   "%). Uncomfortable weather conditions likely.")%string;
                Alert.is_active := true |})
   else ret tt).

(** The historical loops of one station. *)
Definition history (station : Station.row) (p : profile) : M unit :=
  for_each (countdown 7) (fun day =>
    for_each (seq 0 24) (fun hour => observation station p day hour)).

(** The prediction loops of one station. *)
Definition forecast (station : Station.row) (p : profile) : M unit :=
  for_each (seq 0 5) (fun day =>
    for_each every_6_hours (fun hour => prediction station p day hour)).

(** The body of [for (const station of stationsData)], its profile
    already looked up. *)
Definition process_station (station : Station.row) (p : profile) : M unit :=
  history station p ;;
  forecast station p ;;
  station_alerts station p.

Definition generate (stationsData : list Station.row) : M unit :=
  for_each stationsData (fun station =>
    process_station station (profile_for (Station.name station))).

End Generator.

(** *** The handler and what it asks of the data store *)

Inductive table :=
| weather_alerts | weather_predictions | weather_data | weather_stations.

(** What an invocation does to the outside, in order. *)
Inductive effect :=
| delete_neq_id (t : table) (v : uuid)
    (* supabase.from(t).delete().neq('id', v) *)
| insert_stations (rows : list station_input)
| insert_weather_data (rows : list Observation.row)
| insert_weather_predictions (rows : list Prediction.row)
| insert_weather_alerts (rows : list Alert.row)
| console_error (label : string) (e : store_error).

Record seed_stats := {
  stat_stations : nat;
  stat_dataPoints : nat;
  stat_predictions : nat;
  stat_alerts : nat
}.

Inductive response_body :=
| no_body
| seeded (stats : seed_stats)
| failed (error : string).

Record response := { status : nat; body : response_body }.

(** The four bulk deletes, in the order of the source. *)
Definition purge : list (table * uuid) :=
  [ (weather_alerts, nil_uuid); (weather_predictions, nil_uuid);
    (weather_data, nil_uuid); (weather_stations, nil_uuid) ].

(** The [catch] block. *)
Definition caught (log : list effect) (error : store_error)
    : response * list effect :=
  ({| status := 500;
      body := failed (if is_Error error then error_message error
                      else "Unknown error occurred") |},
   log ++ [console_error "Error seeding weather data:" error]).

Definition serve (w : world) (method : string) : response * list effect :=
  if String.eqb method "OPTIONS" then ({| status := 200; body := no_body |}, [])
  else
    let log := map (fun q => delete_neq_id (fst q) (snd q)) purge in
    let log := log ++ [insert_stations stations] in
    match stations_reply w with
    | inl stationsError => caught log stationsError
    | inr stationsData =>
      let h := snd (generate w stationsData empty_heap) in
      let success :=
        {| status := 200;
           body := seeded
             {| stat_stations := List.length stationsData;
                stat_dataPoints := List.length (weatherData h);
                stat_predictions := List.length (predictions h);
                stat_alerts := List.length (alerts h) |} |} in
      let log := log ++ [insert_weather_data (weatherData h)] in
      match data_reply w with
      | Some dataError => caught log dataError
      | None =>
        let log := log ++ [insert_weather_predictions (predictions h)] in
        match predictions_reply w with
        | Some predError => caught log predError
        | None =>
          if (0 <? List.length (alerts h))%nat then
            let log := log ++ [insert_weather_alerts (alerts h)] in
            match alerts_reply w with
            | Some alertError => caught log alertError
            | None => (success, log)
            end
          else (success, log)
        end
      end
    end.

(** *** The store's side of a bulk delete

    The tables of the migration: every row has an [id], and the rows of the
    three child tables reference their station [ON DELETE CASCADE]. *)

Record stored (A : Type) := { row_id : uuid; fields : A }.
Arguments row_id {A} _.
Arguments fields {A} _.

Record database := {
  tbl_stations : list Station.row;
  tbl_data : list (stored Observation.row);
  tbl_predictions : list (stored Prediction.row);
  tbl_alerts : list (stored Alert.row)
}.

(** [.neq('id', v)] selects the rows to delete; the others are kept. *)
Definition kept (v i : uuid) : bool := String.eqb i v.

Definition references {A} (station_id : A -> uuid) (gone : list Station.row)
    (c : stored A) : bool :=
  existsb (fun s => String.eqb (Station.id s) (station_id (fields c))) gone.

Definition cascade {A} (station_id : A -> uuid) (gone : list Station.row)
    (l : list (stored A)) : list (stored A) :=
  filter (fun c => negb (references station_id gone c)) l.

Definition run_delete (t : table) (v : uuid) (db : database) : database :=
  match t with
  | weather_alerts =>
    {| tbl_stations := tbl_stations db; tbl_data := tbl_data db;
       tbl_predictions := tbl_predictions db;
       tbl_alerts := filter (fun r => kept v (row_id r)) (tbl_alerts db) |}
  | weather_predictions =>
    {| tbl_stations := tbl_stations db; tbl_data := tbl_data db;
       tbl_predictions :=
         filter (fun r => kept v (row_id r)) (tbl_predictions db);
       tbl_alerts := tbl_alerts db |}
  | weather_data =>
    {| tbl_stations := tbl_stations db;
       tbl_data := filter (fun r => kept v (row_id r)) (tbl_data db);
       tbl_predictions := tbl_predictions db; tbl_alerts := tbl_alerts db |}
  | weather_stations =>
    let gone :=
      filter (fun s => negb (kept v (Station.id s))) (tbl_stations db) in
    {| tbl_stations :=
         filter (fun s => kept v (Station.id s)) (tbl_stations db);
       tbl_data := cascade Observation.station_id gone (tbl_data db);
       tbl_predictions :=
         cascade Prediction.station_id gone (tbl_predictions db);
       tbl_alerts := cascade Alert.station_id gone (tbl_alerts db) |}
  end.

(** The store after the deletes of [purge], carried out in order. *)
Definition run_purge (db : database) : database :=
  fold_left (fun d q => run_delete (fst q) (snd q) d) purge db.

End Seed.

(** ** The dashboard's fetch functions *)

Module Dashboard.

Record Station := { id : string; name : string; location : string }.

Record CurrentWeather := {
  temperature : R;
  humidity : R;
  precipitation : R;
  wind_speed : R;
  pressure : R;
  timestamp : string
}.

(** The component state, one field per [useState]. *)
Record state := {
  stations : list Station;
  selectedStation : string;
  currentWeather : option CurrentWeather;
  loading : bool;
  seeding : bool
}.

Definition setStations (v : list Station) (s : state) : state :=
  {| stations := v; selectedStation := selectedStation s;
     currentWeather := currentWeather s; loading := loading s;
     seeding := seeding s |}.
Definition setSelectedStation (v : string) (s : state) : state :=
  {| stations := stations s; selectedStation := v;
     currentWeather := currentWeather s; loading := loading s;
     seeding := seeding s |}.
Definition setCurrentWeather (v : option CurrentWeather) (s : state) : state :=
  {| stations := stations s; selectedStation := selectedStation s;
     currentWeather := v; loading := loading s; seeding := seeding s |}.
Definition setLoading (v : bool) (s : state) : state :=
  {| stations := stations s; selectedStation := selectedStation s;
     currentWeather := currentWeather s; loading := v;
     seeding := seeding s |}.
Definition setSeeding (v : bool) (s : state) : state :=
  {| stations := stations s; selectedStation := selectedStation s;
     currentWeather := currentWeather s; loading := loading s;
     seeding := v |}.

(** What the user or the console gets to see. *)
Inductive effect :=
| console_error (label : string)
| toast_error (text : string)
| toast_success (text : string).

(** The [{ data, error }] of a query; [None] is [null]. *)
Record reply (A : Type) := { data : option A; error : option string }.
Arguments data {A} _.
Arguments error {A} _.

Definition loadStations (r : reply (list Station)) (s : state)
    : state * list effect :=
  let (s, log) :=
    match error r with
    | Some _ =>
      (* catch *)
      (s, [console_error "Error loading stations:";
           toast_error "Failed to load weather stations"])
    | None =>
      let s := setStations (match data r with Some d => d | None => [] end) s in
      match data r with
      | Some (first :: _) => (setSelectedStation (id first) s, [])
      | _ => (s, [])
      end
    end in
  (* finally *)
  (setLoading false s, log).

Definition loadCurrentWeather (r : reply CurrentWeather) (s : state)
    : state * list effect :=
  match error r with
  | Some _ =>
    (* catch *)
    (s, [console_error "Error loading current weather:"])
  | None => (setCurrentWeather (data r) s, [])
  end.

(** [seedData]: [invoked] is the error of the function invocation, [r] the
    reply to the [loadStations] that follows a success. *)
Definition seedData (invoked : option string) (r : reply (list Station))
    (s : state) : state * list effect :=
  let s := setSeeding true s in
  let (s, log) :=
    match invoked with
    | Some _ =>
      (s, [console_error "Error seeding data:";
           toast_error "Failed to seed weather data"])
    | None =>
      let (s, log) := loadStations r s in
      (s, toast_success "Weather data seeded successfully!" :: log)
    end in
  (setSeeding false s, log).

End Dashboard.

(** ** The formulas of the specification

  Written from the words of the specification, to be compared with what
  [Seed.observation] and [Seed.prediction] compute. *)

Module Spec.

Import Seed.

Definition clamp (x lo hi : R) : R := Rmax lo (Rmin hi x).

(** "temperature = baseTemp + sin(2 pi (hour - 6) / 24) tempRange + u" *)
Definition temperature (p : profile) (hour : nat) (u : R) : R :=
  baseTemp p + sin (2 * PI * (INR hour - 6) / 24) * tempRange p + u.

(** "predictedTemp = baseTemp + hourFactor tempRange + 0.5 dayIndex" *)
Definition predicted_temp (p : profile) (day hour : nat) : R :=
  baseTemp p + sin (2 * PI * (INR hour - 6) / 24) * tempRange p
  + 0.5 * INR day.

(** "confidence = clamp(95 - 3 dayIndex + u, 75, 98)" *)
Definition confidence (day : nat) (u : R) : R :=
  clamp (95 - 3 * INR day + u) 75 98.

End Spec.

(** ** Predicates and sample inputs the statements below use *)

Module Props.

Import Seed.

Definition observation_in_range (r : Observation.row) : Prop :=
  20 <= Observation.humidity r <= 95 /\
  0 <= Observation.wind_speed r /\
  0 <= Observation.precipitation r.

Definition prediction_in_range (r : Prediction.row) : Prop :=
  75 <= Prediction.confidence r <= 98.

Definition is_heat_wave (a : Alert.row) : Prop :=
  Alert.alert_type a = "Heat Wave Warning"%string.

(** [new Date(Date.now() - (day * 24 + (23 - hour)) * 3600000)] when
    [Date.now()] is read for the [i]-th time. *)
Definition stamp (w : world) (i : nat) (slot : nat * nat) : Z :=
  (now w i
   - (Z.of_nat (fst slot) * 24 + (23 - Z.of_nat (snd slot))) * 3600000)%Z.

(** The (day, hour) pairs of the historical loops, in the order visited. *)
Definition history_slots : list (nat * nat) :=
  list_prod (countdown 7) (seq 0 24).

Definition forecast_slots : list (nat * nat) :=
  list_prod (seq 0 5) every_6_hours.

(** The rows of [insert(rows).select()] when the store assigns [ids]. *)
Definition combine_ids (ids : list uuid) (rows : list station_input)
    : list Station.row :=
  map (fun q => {| Station.id := fst q; Station.name := in_name (snd q);
                   Station.location := in_location (snd q) |})
      (combine ids rows).

(** A station row and worlds to run the generator on. *)
Definition mumbai_row : Station.row :=
  {| Station.id := "3b241101-e2bb-4255-8caf-4136c566a962"%string;
     Station.name := "Mumbai";
     Station.location := "Maharashtra, Western India" |}.

(** The five rows the store returns for the [stations] literal, with ids of
    its making. *)
Definition five_rows : list Station.row :=
  combine_ids
    [ "3b241101-e2bb-4255-8caf-4136c566a962";
      "9c5b94b1-35ad-49bb-b118-8e8fc24abf80";
      "1e4a89f1-efc0-4b5a-a3c5-e09f3c0a1d8b";
      "d0f6c6f2-7d2c-4c33-9a54-2f8f9c6b7e11";
      "7a1d3f55-0c4e-4b8e-8a66-5b1f0e2c9d34" ]%string
    stations.

(** Every [Math.random()] gives [r]; the clock advances a millisecond per
    reading; the store accepts everything. *)
Definition steady (r : R) : world :=
  {| random := fun _ => r;
     now := fun k => (1760000000000 + Z.of_nat k)%Z;
     stations_reply := inr five_rows;
     data_reply := None;
     predictions_reply := None;
     alerts_reply := None |}.



End Props.
(** ** Sample inputs for the dashboard *)

Module DashboardProps.

Import Dashboard.

(** A dashboard that shows Pune and its latest reading. *)
Definition showing_pune : state :=
  {| stations :=
       [ {| id := "a2"%string; name := "Pune"%string;
            location := "Maharashtra, Western India"%string |} ];
     selectedStation := "a2"%string;
     currentWeather :=
       Some {| temperature := 29.4; humidity := 51.2; precipitation := 0;
               wind_speed := 12.8; pressure := 1011.6;
               timestamp := "2025-10-06T05:00:00.000Z"%string |};
     loading := false;
     seeding := false |}.

(** A query the store answers with an error. *)
Definition failed_query {A : Type} : reply A :=
  {| data := None; error := Some "JWT expired"%string |}.

Definition is_toast (e : effect) : bool :=
  match e with
  | toast_error _ | toast_success _ => true
  | console_error _ => false
  end.

End DashboardProps.
(** ** The alerts panel ([AlertsPanel]) *)

Module AlertsPanel.

Record WeatherAlert := {
  id : string;
  alert_type : string;
  severity : string;
  message : string;
  is_active : bool;
  created_at : string
}.

(** The component state, one field per [useState]. *)
Record state := { alerts : list WeatherAlert; loading : bool }.

Definition setAlerts (v : list WeatherAlert) (s : state) : state :=
  {| alerts := v; loading := loading s |}.
Definition setLoading (v : bool) (s : state) : state :=
  {| alerts := alerts s; loading := v |}.

(** [toast.error(text, { description, duration })]; [None] where the call
    passes no options. *)
Inductive effect :=
| console_error (label : string)
| toast_error (text : string) (description : option string)
    (duration : option Z).

(** A change of [weather_alerts] as the subscription delivers it: its
    [eventType] and, for an insert or an update, [payload.new]. *)
Inductive payload :=
| INSERT (new : WeatherAlert)
| UPDATE (new : WeatherAlert)
| DELETE.

(** The callback of the subscription. *)
Definition on_postgres_changes (p : payload) (s : state)
    : state * list effect :=
  match p with
  | INSERT newAlert =>
    (setAlerts (newAlert :: alerts s) s,
     if is_active newAlert
     then [toast_error (message newAlert)
             (Some ("Severity: " ++ severity newAlert)%string) (Some 5000%Z)]
     else [])
  | UPDATE new =>
    (setAlerts
       (map (fun alert => if String.eqb (id alert) (id new) then new else alert)
            (alerts s)) s,
     [])
  | DELETE => (s, [])
  end.

Definition loadAlerts (r : Dashboard.reply (list WeatherAlert)) (s : state)
    : state * list effect :=
  let (s, log) :=
    match Dashboard.error r with
    | Some _ =>
      (* catch *)
      (s, [console_error "Error loading alerts:";
           toast_error "Failed to load weather alerts" None None])
    | None =>
      (setAlerts (match Dashboard.data r with Some d => d | None => [] end) s,
       [])
    end in
  (* finally *)
  (setLoading false s, log).

(** The icon component and its class names. *)
Definition getSeverityIcon (severity : string) : string * string :=
  if String.eqb severity "extreme"
  then ("AlertTriangle", "h-5 w-5 text-red-500")%string
  else if String.eqb severity "high"
  then ("AlertCircle", "h-5 w-5 text-orange-500")%string
  else if String.eqb severity "medium"
  then ("Info", "h-5 w-5 text-yellow-500")%string
  else ("CheckCircle", "h-5 w-5 text-blue-500")%string.

Definition getSeverityColor (severity : string) : string :=
  if String.eqb severity "extreme"
  then "border-l-4 border-red-500 bg-red-50 dark:bg-red-950/20"
  else if String.eqb severity "high"
  then "border-l-4 border-orange-500 bg-orange-50 dark:bg-orange-950/20"
  else if String.eqb severity "medium"
  then "border-l-4 border-yellow-500 bg-yellow-50 dark:bg-yellow-950/20"
  else "border-l-4 border-blue-500 bg-blue-50 dark:bg-blue-950/20".

End AlertsPanel.

(** ** The charts ([WeatherCharts]) *)

Module WeatherCharts.

(** The columns of [weather_predictions] and [weather_data] the loaders
    read. *)
Record prediction_item := {
  prediction_date : string;
  predicted_temp : R;
  predicted_humidity : R;
  predicted_precipitation : R;
  confidence : R
}.

Record data_item := {
  timestamp : string;
  temperature : R;
  humidity : R;
  precipitation : R;
  wind_speed : R;
  pressure : R
}.

(** A number that may be [NaN]. *)
Inductive number := num (x : R) | NaN.

(** The three shapes of the elements of [chartData]. *)
Inductive point :=
| forecast_point (time : string)
    (temperature humidity precipitation confidence : R)
| historical_point (time : string)
    (temperature humidity precipitation windSpeed pressure : R)
| analytics_point (time : string) (actual : R) (predicted : option R)
    (accuracy : number).

Record state := { chartData : list point; loading : bool }.

Definition setChartData (v : list point) (s : state) : state :=
  {| chartData := v; loading := loading s |}.
Definition setLoading (v : bool) (s : state) : state :=
  {| chartData := chartData s; loading := v |}.

Inductive effect := console_error (label : string).

(** [array.map((item, idx) => f(item, idx))], from index [i] on. *)
Fixpoint map_idx {A B} (f : A -> nat -> B) (i : nat) (l : list A) : list B :=
  match l with
  | [] => []
  | x :: l' => f x i :: map_idx f (S i) l'
  end.

Section Loaders.

(** [format(new Date(iso), pattern)] of date-fns. *)
Variable format : string -> string -> string.

Definition loadForecastData (r : Dashboard.reply (list prediction_item))
    (s : state) : state * list effect :=
  let (s, log) :=
    match Dashboard.error r with
    | Some _ => (s, [console_error "Error loading forecast data:"])
    | None =>
      let formatted :=
        match Dashboard.data r with
        | Some data =>
          map (fun item =>
                 forecast_point
                   (format (prediction_date item) "MMM dd HH:mm")
                   (predicted_temp item) (predicted_humidity item)
                   (predicted_precipitation item) (confidence item))
              data
        | None => []
        end in
      (setChartData formatted s, [])
    end in
  (setLoading false s, log).

Definition loadHistoricalData (r : Dashboard.reply (list data_item))
    (s : state) : state * list effect :=
  let (s, log) :=
    match Dashboard.error r with
    | Some _ => (s, [console_error "Error loading historical data:"])
    | None =>
      let formatted :=
        match Dashboard.data r with
        | Some data =>
          map (fun item =>
                 historical_point
                   (format (timestamp item) "MMM dd HH:mm")
                   (temperature item) (humidity item) (precipitation item)
                   (wind_speed item) (pressure item))
              (rev data)
        | None => []
        end in
      (setChartData formatted s, [])
    end in
  (setLoading false s, log).

(** [predictions?.reduce((acc, pred) => acc + Number(pred.confidence), 0)
     / (predictions?.length || 1)] *)
Definition avgAccuracy (predictions : option (list prediction_item)) : number :=
  match predictions with
  | Some ps =>
    num (fold_left (fun acc pred => acc + confidence pred) ps 0
         / INR (if (List.length ps =? 0)%nat then 1 else List.length ps))
  | None => NaN
  end.

(** [predictions?.[idx]] *)
Definition at_idx (predictions : option (list prediction_item)) (idx : nat)
    : option prediction_item :=
  match predictions with
  | Some ps => nth_error ps idx
  | None => None
  end.

Definition loadAnalyticsData (rh : Dashboard.reply (list data_item))
    (rp : Dashboard.reply (list prediction_item)) (s : state)
    : state * list effect :=
  let (s, log) :=
    match Dashboard.error rh, Dashboard.error rp with
    | None, None =>
      let predictions := Dashboard.data rp in
      let avg := avgAccuracy predictions in
      let formatted :=
        match Dashboard.data rh with
        | Some historical =>
          map_idx
            (fun item idx =>
               analytics_point
                 (format (timestamp item) "MMM dd")
                 (temperature item)
                 (match at_idx predictions idx with
                  | Some pred => Some (predicted_temp pred)
                  | None => None
                  end)
                 (match at_idx predictions idx with
                  | Some pred => num (confidence pred)
                  | None => avg
                  end))
            0 (rev historical)
        | None => []
        end in
      (setChartData formatted s, [])
    | _, _ => (s, [console_error "Error loading analytics data:"])
    end in
  (setLoading false s, log).

End Loaders.

(** [item.accuracy || 0] *)
Definition accuracy_or_0 (item : point) : R :=
  match item with
  | analytics_point _ _ _ (num x) => x
  | _ => 0
  end.

(** The number the analytics view shows as "Average Model Accuracy",
    before its [toFixed(2)]:
    [chartData.reduce((acc, item) => acc + (item.accuracy || 0), 0)
     / chartData.length]. *)
Definition average_model_accuracy (chartData : list point) : number :=
  match chartData with
  | [] => NaN
  | _ =>
    num (fold_left (fun acc item => acc + accuracy_or_0 item) chartData 0
         / INR (List.length chartData))
  end.

End WeatherCharts.
(** ** Further predicates on the seed function *)

Module MoreProps.

Import Seed.

(** [x] is a result of [Math.random()] in world [w]. *)
Definition drawn (w : world) (x : R) : Prop := exists k, x = random w k.

(** [new Date(Date.now() + (day * 24 + hour) * 3600000)] when [Date.now()]
    is read for the [i]-th time. *)
Definition pred_stamp (w : world) (i : nat) (slot : nat * nat) : Z :=
  (now w i + (Z.of_nat (fst slot) * 24 + Z.of_nat (snd slot)) * 3600000)%Z.

(** The four alert types of the seed function. *)
Definition alert_types : list string :=
  [ "Heat Wave Warning"; "Heavy Rainfall Alert"; "Strong Wind Advisory";
    "High Humidity Alert" ]%string.

(** Every child row references a station of the store. *)
Definition references_live {A} (station_id : A -> uuid) (db : database)
    (l : list (stored A)) : Prop :=
  Forall (fun c => In (station_id (fields c)) (map Station.id (tbl_stations db))) l.

Definition foreign_keys_hold (db : database) : Prop :=
  references_live Observation.station_id db (tbl_data db) /\
  references_live Prediction.station_id db (tbl_predictions db) /\
  references_live Alert.station_id db (tbl_alerts db).

(** A world whose store rejects the insert of the stations. *)
Definition stations_rejected : world :=
  {| random := fun _ => 0.5;
     now := fun k => (1760000000000 + Z.of_nat k)%Z;
     stations_reply :=
       inl {| is_Error := true; error_message := "permission denied" |};
     data_reply := None; predictions_reply := None; alerts_reply := None |}.
(** The rows [station_alerts] pushes, as a list; [coin] is the outcome of
    [Math.random() > 0.5], looked at only when [humidity.max > 75]. *)
Definition pushed_alerts (s : Station.row) (p : profile) (coin : bool)
    : list Alert.row :=
  (if gt (baseTemp p) 38
   then [ {| Alert.station_id := Station.id s;
             Alert.alert_type := "Heat Wave Warning";
             Alert.severity := if gt (baseTemp p) 42 then extreme else high;
             Alert.message := heat_wave_message (baseTemp p);
             Alert.is_active := true |} ]
   else [])
  ++ (if gt (rainProbability p) 0.22
      then [ {| Alert.station_id := Station.id s;
                Alert.alert_type := "Heavy Rainfall Alert";
                Alert.severity := medium;
                Alert.message := "Heavy rainfall expected. Possibility of waterlogging in low-lying areas. Take necessary precautions.";
                Alert.is_active := true |} ]
      else [])
  ++ (if gt (max (windSpeed p)) 30
      then [ {| Alert.station_id := Station.id s;
                Alert.alert_type := "Strong Wind Advisory";
                Alert.severity := medium;
                Alert.message :=
                  ("Strong winds expected with speeds up to " ++
                   Js.ToString (max (windSpeed p)) ++
                   " km/h. Secure loose objects.")%string;
                Alert.is_active := true |} ]
      else [])
  ++ (if gt (max (humidity p)) 75 && coin
      then [ {| Alert.station_id := Station.id s;
                Alert.alert_type := "High Humidity Alert";
                Alert.severity := low;
                Alert.message :=
                  ("High humidity levels expected (" ++
                   Js.ToString (max (humidity p)) ++
                   "%). Uncomfortable weather conditions likely.")%string;
                Alert.is_active := true |} ]
      else []).
Definition is_console_error (e : effect) : bool :=
  match e with
  | console_error _ _ => true
  | _ => false
  end.

(** The text of the [error] property of a 500 reply. *)
Definition error_text (e : store_error) : string :=
  if is_Error e then error_message e else "Unknown error occurred".

(** The reply of each insert the handler gets to, in the order asked:
    [None] for an insert the store accepts. *)
Definition first_rejection (w : world) : option store_error :=
  match stations_reply w with
  | inl e => Some e
  | inr stationsData =>
    match data_reply w with
    | Some e => Some e
    | None =>
      match predictions_reply w with
      | Some e => Some e
      | None =>
        if (0 <? List.length (alerts (snd (generate w stationsData empty_heap))))%nat
        then alerts_reply w
        else None
      end
    end
  end.
Definition is_delete (e : effect) : bool :=
  match e with
  | delete_neq_id _ _ => true
  | _ => false
  end.
(** The ranges of the values generated from the profiles of the table. *)
Definition observation_in_table_range (r : Observation.row) : Prop :=
  20 <= Observation.temperature r <= 42 /\
  30 <= Observation.humidity r <= 90 /\
  (Observation.precipitation r = 0 \/ 2 <= Observation.precipitation r <= 17) /\
  2.5 <= Observation.wind_speed r <= 37.5 /\
  1007.5 <= Observation.pressure r <= 1020.5.

Definition prediction_in_table_range (r : Prediction.row) : Prop :=
  21 <= Prediction.predicted_temp r <= 43 /\
  31 <= Prediction.predicted_humidity r <= 89 /\
  (Prediction.predicted_precipitation r = 0 \/
   1 <= Prediction.predicted_precipitation r <= 9) /\
  81 <= Prediction.confidence r <= 97.
Definition mumbai_row_of_store : Station.row :=
  {| Station.id := "3b241101-e2bb-4255-8caf-4136c566a962"%string;
     Station.name := "Mumbai";
     Station.location := "Maharashtra, Western India" |}.

(** A store with one station and one alert of that station. *)
Definition one_alert_store : database :=
  {| tbl_stations := [ mumbai_row_of_store ];
     tbl_data := [];
     tbl_predictions := [];
     tbl_alerts :=
       [ {| row_id := "5d0c7a7e-1b1f-4a53-9a43-7c6f2f1f8d10"%string;
            fields :=
              {| Alert.station_id := Station.id mumbai_row_of_store;
                 Alert.alert_type := "Heavy Rainfall Alert";
                 Alert.severity := medium;
                 Alert.message := "Heavy rainfall expected. Possibility of waterlogging in low-lying areas. Take necessary precautions.";
                 Alert.is_active := true |} |} ] |}.

End MoreProps.
(** ** Sample inputs for the alerts panel and the charts *)

Module PanelProps.

Import AlertsPanel.

Definition rain_alert : WeatherAlert :=
  {| id := "5d0c7a7e-1b1f-4a53-9a43-7c6f2f1f8d10";
     alert_type := "Heavy Rainfall Alert";
     severity := "medium";
     message := "Heavy rainfall expected. Possibility of waterlogging in low-lying areas. Take necessary precautions.";
     is_active := true;
     created_at := "2025-10-06T05:48:31.000Z" |}.

(** The same alert after it was switched off. *)
Definition rain_alert_off : WeatherAlert :=
  {| id := "5d0c7a7e-1b1f-4a53-9a43-7c6f2f1f8d10";
     alert_type := "Heavy Rainfall Alert";
     severity := "medium";
     message := "Heavy rainfall expected. Possibility of waterlogging in low-lying areas. Take necessary precautions.";
     is_active := false;
     created_at := "2025-10-06T05:48:31.000Z" |}.

Definition empty_panel : state := {| alerts := []; loading := true |}.

(** The four severities the schema admits. *)
Definition severities : list string :=
  [ "low"; "medium"; "high"; "extreme" ]%string.

End PanelProps.
(** ** Sample inputs for the charts *)

Module ChartProps.

Import WeatherCharts.

Definition blank_chart : state := {| chartData := []; loading := true |}.

(** Two observations, the newer first, and two predictions. *)
Definition two_readings : list data_item :=
  [ {| timestamp := "2025-10-06T06:00:00.000Z"; temperature := 24.1;
       humidity := 66.2; precipitation := 0; wind_speed := 14.5;
       pressure := 1011.2 |};
    {| timestamp := "2025-10-06T05:00:00.000Z"; temperature := 23.7;
       humidity := 68; precipitation := 2.4; wind_speed := 12;
       pressure := 1010.9 |} ].

Definition two_predictions : list prediction_item :=
  [ {| prediction_date := "2025-10-06T06:00:00.000Z"; predicted_temp := 30;
       predicted_humidity := 75; predicted_precipitation := 0;
       confidence := 94.5 |};
    {| prediction_date := "2025-10-06T12:00:00.000Z"; predicted_temp := 35;
       predicted_humidity := 65; predicted_precipitation := 1.5;
       confidence := 96 |} ].

Definition answered {A : Type} (rows : list A) : Dashboard.reply (list A) :=
  {| Dashboard.data := Some rows; Dashboard.error := None |}.

(** A stand-in for the date formatter: the ISO text itself. *)
Definition iso_label (iso pattern : string) : string := iso.

(** The item a chart point of the historical view was made from. *)
Definition historical_point_of (format : string -> string -> string)
    (item : data_item) : point :=
  historical_point (format (timestamp item) "MMM dd HH:mm"%string)
    (temperature item) (humidity item) (precipitation item)
    (wind_speed item) (pressure item).

Definition forecast_point_of (format : string -> string -> string)
    (item : prediction_item) : point :=
  forecast_point (format (prediction_date item) "MMM dd HH:mm"%string)
    (predicted_temp item) (predicted_humidity item)
    (predicted_precipitation item) (confidence item).

End ChartProps.
(** ** The seed function, first revision

    The generator of the revision of [seed-weather-data/index.ts] that draws
    a base temperature per station (the first 153 lines of the file).  Rows,
    world and state are the ones of [Seed]. *)

Module SeedV1.

Import Js Seed.

Section Generator.

Variable w : world.

Definition lt (a b : R) : bool := if Rlt_dec a b then true else false.

(** The body of the historical loops. *)
Definition observation (station : Station.row) (baseTemp : R)
    (day hour : nat) : M unit :=
  t <- Date_now w ;;
  let timestamp :=
    (t - (Z.of_nat day * 24 + (23 - Z.of_nat hour)) * 3600000)%Z in
  r <- Math_random w ;;
  let temp := baseTemp + sin (INR hour / 24 * PI * 2) * 5 + (r - 0.5) * 3 in
  r <- Math_random w ;;
  let humidity := 40 + r * 40 in
  r <- Math_random w ;;
  precipitation <-
    (if Rlt_dec r 0.15
     then r' <- Math_random w ;; ret (r' * 10)
     else ret 0) ;;
  r_wind <- Math_random w ;;
  r_pressure <- Math_random w ;;
  push_weatherData
    {| Observation.station_id := Station.id station;
       Observation.timestamp := timestamp;
       Observation.temperature := Number_toFixed 2 temp;
       Observation.humidity := Number_toFixed 2 humidity;
       Observation.precipitation := Number_toFixed 2 precipitation;
       Observation.wind_speed := Number_toFixed 2 (r_wind * 30);
       Observation.pressure := Number_toFixed 2 (1000 + r_pressure * 30) |}.

(** The body of the prediction loops. *)
Definition prediction (station : Station.row) (baseTemp : R)
    (day hour : nat) : M unit :=
  t <- Date_now w ;;
  let predDate :=
    (t + (Z.of_nat day * 24 + Z.of_nat hour) * 3600000)%Z in
  r <- Math_random w ;;
  let trend := (r - 0.5) * 2 in
  let predictedTemp :=
    baseTemp + trend + sin (INR hour / 24 * PI * 2) * 5 in
  r_humidity <- Math_random w ;;
  r_precipitation <- Math_random w ;;
  r_confidence <- Math_random w ;;
  push_predictions
    {| Prediction.station_id := Station.id station;
       Prediction.prediction_date := predDate;
       Prediction.predicted_temp := Number_toFixed 2 predictedTemp;
       Prediction.predicted_humidity := Number_toFixed 2 (45 + r_humidity * 30);
       Prediction.predicted_precipitation :=
         Number_toFixed 2 (r_precipitation * 5);
       Prediction.confidence := Number_toFixed 2 (82 + r_confidence * 15) |}.

(** The alerts of one station. *)
Definition station_alerts (station : Station.row) (baseTemp : R) : M unit :=
  let extremeTemp := gt baseTemp 28 || lt baseTemp 5 in
  r <- Math_random w ;;
  let highWind := gt r 0.7 in
  when extremeTemp
    (push_alerts
       {| Alert.station_id := Station.id station;
          Alert.alert_type :=
            if gt baseTemp 28 then "Heat Warning" else "Cold Warning";
          Alert.severity :=
            if gt baseTemp 32 || lt baseTemp 0 then extreme else high;
          Alert.message :=
            if gt baseTemp 28
            then ("High temperature warning: " ++ toFixed 1 baseTemp ++
                  "°C expected")%string
            else ("Low temperature warning: " ++ toFixed 1 baseTemp ++
                  "°C expected")%string;
          Alert.is_active := true |}) ;;
  when highWind
    (push_alerts
       {| Alert.station_id := Station.id station;
          Alert.alert_type := "Wind Advisory";
          Alert.severity := medium;
          Alert.message := "Strong winds expected, up to 45 km/h";
          Alert.is_active := true |}).

(** The body of [for (const station of stationsData)]. *)
Definition process_station (station : Station.row) : M unit :=
  r <- Math_random w ;;
  let baseTemp := 15 + r * 15 in
  for_each (countdown 7) (fun day =>
    for_each (seq 0 24) (fun hour => observation station baseTemp day hour)) ;;
  for_each (seq 0 5) (fun day =>
    for_each every_6_hours (fun hour => prediction station baseTemp day hour)) ;;
  station_alerts station baseTemp.

Definition generate (stationsData : list Station.row) : M unit :=
  for_each stationsData process_station.

End Generator.

(** The ranges of the values of this revision. *)
Definition observation_in_range (r : Observation.row) : Prop :=
  8.5 <= Observation.temperature r <= 36.5 /\
  40 <= Observation.humidity r <= 80 /\
  0 <= Observation.precipitation r <= 10 /\
  0 <= Observation.wind_speed r <= 30 /\
  1000 <= Observation.pressure r <= 1030.

Definition prediction_in_range (r : Prediction.row) : Prop :=
  9 <= Prediction.predicted_temp r <= 36 /\
  45 <= Prediction.predicted_humidity r <= 75 /\
  0 <= Prediction.predicted_precipitation r <= 5 /\
  82 <= Prediction.confidence r <= 97.

Definition alert_as_generated (a : Alert.row) : Prop :=
  Alert.is_active a = true /\
  ((Alert.alert_type a = "Heat Warning"%string /\ Alert.severity a = high) \/
   (Alert.alert_type a = "Wind Advisory"%string /\ Alert.severity a = medium)).

End SeedV1.

(** ** Facts about the number primitives *)

Module JsFacts.

Import Js.

Lemma pow10_pos (f : nat) : 0 < 10 ^ f.
Proof. apply pow_lt; lra. Qed.

Lemma Number_toFixed_nonneg (f : nat) (x : R) :
  0 <= x -> Number_toFixed f x = IZR (Zfloor (x * 10 ^ f + / 2)) / 10 ^ f.
Proof.
  intros Hx. unfold Number_toFixed, fixed_digits.
  destruct (Rlt_dec x 0) as [Hneg | _]; [lra |].
  now rewrite Rabs_pos_eq.
Qed.

(** A value that already has [f] decimals is rendered as it is. *)
Lemma Number_toFixed_exact (f : nat) (z : Z) :
  (0 <= z)%Z -> Number_toFixed f (IZR z / 10 ^ f) = IZR z / 10 ^ f.
Proof.
  intros Hz. pose proof (pow10_pos f) as Hp.
  assert (H0 : 0 <= IZR z / 10 ^ f).
  { apply Rmult_le_pos; [now apply IZR_le | left; now apply Rinv_0_lt_compat]. }
  rewrite Number_toFixed_nonneg by exact H0.
  replace (IZR z / 10 ^ f * 10 ^ f) with (IZR z) by (field; lra).
  rewrite (Zfloor_eq z); [reflexivity | lra].
Qed.

(** Rounding never crosses a lower bound that has [f] decimals itself. *)
Lemma Number_toFixed_lower (f : nat) (z : Z) (x : R) :
  (0 <= z)%Z -> IZR z / 10 ^ f <= x -> IZR z / 10 ^ f <= Number_toFixed f x.
Proof.
  intros Hz Hx. pose proof (pow10_pos f) as Hp.
  assert (H0 : 0 <= IZR z / 10 ^ f).
  { apply Rmult_le_pos; [now apply IZR_le | left; now apply Rinv_0_lt_compat]. }
  rewrite Number_toFixed_nonneg by lra.
  apply Rmult_le_compat_r; [left; now apply Rinv_0_lt_compat |].
  apply IZR_le, Zfloor_lub.
  apply (Rmult_le_compat_r (10 ^ f)) in Hx; [| lra].
  replace (IZR z / 10 ^ f * 10 ^ f) with (IZR z) in Hx by (field; lra).
  lra.
Qed.

(** ... nor an upper bound that has. *)
Lemma Number_toFixed_upper (f : nat) (z : Z) (x : R) :
  0 <= x -> x <= IZR z / 10 ^ f -> Number_toFixed f x <= IZR z / 10 ^ f.
Proof.
  intros H0 Hx. pose proof (pow10_pos f) as Hp.
  rewrite Number_toFixed_nonneg by lra.
  apply Rmult_le_compat_r; [left; now apply Rinv_0_lt_compat |].
  apply IZR_le.
  apply (Rmult_le_compat_r (10 ^ f)) in Hx; [| lra].
  replace (IZR z / 10 ^ f * 10 ^ f) with (IZR z) in Hx by (field; lra).
  assert (Hle : (Zfloor (x * 10 ^ f + / 2) <= Zfloor (IZR z + / 2))%Z)
    by (apply Zfloor_le; lra).
  rewrite (Zfloor_eq z (IZR z + / 2)) in Hle by lra.
  exact Hle.
Qed.


Lemma Number_toFixed_2_int (z : Z) :
  (0 <= z)%Z -> Number_toFixed 2 (IZR z) = IZR z.
Proof.
  intros Hz.
  replace (IZR z) with (IZR (z * 100) / 10 ^ 2) by (rewrite mult_IZR; simpl; field).
  apply Number_toFixed_exact. lia.
Qed.

Lemma Number_toFixed_2_ge (z : Z) (x : R) :
  (0 <= z)%Z -> IZR z <= x -> IZR z <= Number_toFixed 2 x.
Proof.
  intros Hz Hx.
  replace (IZR z) with (IZR (z * 100) / 10 ^ 2) in * by (rewrite mult_IZR; simpl; field).
  apply Number_toFixed_lower; [lia | exact Hx].
Qed.

Lemma Number_toFixed_2_le (z : Z) (x : R) :
  0 <= x -> x <= IZR z -> Number_toFixed 2 x <= IZR z.
Proof.
  intros H0 Hx.
  replace (IZR z) with (IZR (z * 100) / 10 ^ 2) in * by (rewrite mult_IZR; simpl; field).
  now apply Number_toFixed_upper.
Qed.

(** The rendering on two values: one decimal, and a tie that goes up. *)
Example toFixed_1_46 : toFixed 1 46 = "46.0"%string.
Proof.
  unfold toFixed, fixed_digits.
  rewrite (Zfloor_eq 460) by (rewrite Rabs_pos_eq by lra; simpl; lra).
  destruct (Rlt_dec 46 0); [lra | reflexivity].
Qed.

Example toFixed_2_tie : toFixed 2 (- 0.125) = "-0.13"%string.
Proof.
  unfold toFixed, fixed_digits.
  rewrite (Zfloor_eq 13)
    by (rewrite Rabs_left by lra; simpl; lra).
  destruct (Rlt_dec (- 0.125) 0); [reflexivity | lra].
Qed.

Example Number_toFixed_2_tie : Number_toFixed 2 (- 0.125) = - 0.13.
Proof.
  unfold Number_toFixed, fixed_digits.
  rewrite (Zfloor_eq 13)
    by (rewrite Rabs_left by lra; simpl; lra).
  destruct (Rlt_dec (- 0.125) 0); [simpl; lra | lra].
Qed.

(** [toFixed(f)] moves a value by at most half a unit of its last digit. *)
Lemma Number_toFixed_error (f : nat) (x : R) :
  Rabs (Number_toFixed f x - x) <= / 2 / 10 ^ f.
Proof.
  pose proof (pow10_pos f) as Hp.
  assert (Hinv : 0 < / 10 ^ f) by now apply Rinv_0_lt_compat.
  unfold Number_toFixed, fixed_digits.
  pose proof (Zfloor_bound (Rabs x * 10 ^ f + / 2)) as [Hlo Hhi].
  set (n := IZR (Zfloor (Rabs x * 10 ^ f + / 2))) in *.
  assert (Hn : Rabs (n / 10 ^ f - Rabs x) <= / 2 / 10 ^ f).
  { replace (n / 10 ^ f - Rabs x) with ((n - Rabs x * 10 ^ f) / 10 ^ f)
      by (field; lra).
    unfold Rdiv. rewrite Rabs_mult, (Rabs_pos_eq (/ 10 ^ f)) by lra.
    apply Rmult_le_compat_r; [lra |].
    apply Rabs_le. lra. }
  destruct (Rlt_dec x 0) as [Hneg | Hpos].
  - rewrite (Rabs_left x) in Hn by exact Hneg.
    replace (- (n / 10 ^ f) - x) with (- (n / 10 ^ f - - x)) by lra.
    now rewrite Rabs_Ropp.
  - rewrite (Rabs_pos_eq x) in Hn by lra. exact Hn.
Qed.

End JsFacts.

(** ** Facts about the generator *)

Module SeedFacts.

Import Js Seed Props JsFacts.

(** *** Running the monad *)

Lemma snd_bind {A B} (m : M A) (f : A -> M B) (h : heap) :
  snd (bind m f h) = snd (f (fst (m h)) (snd (m h))).
Proof. unfold bind. now destruct (m h). Qed.

Lemma for_each_cons {A} (x : A) (l : list A) (body : A -> M unit) (h : heap) :
  snd (for_each (x :: l) body h) = snd (for_each l body (snd (body x h))).
Proof. simpl. now rewrite snd_bind. Qed.

Lemma for_each_app {A} (l l' : list A) (body : A -> M unit) (h : heap) :
  snd (for_each (l ++ l') body h)
  = snd (for_each l' body (snd (for_each l body h))).
Proof.
  revert h. induction l as [| x l IH]; intros h; [reflexivity |].
  rewrite <- app_comm_cons, !for_each_cons. apply IH.
Qed.

Lemma for_each_map {A B} (f : A -> B) (l : list A) (body : B -> M unit)
    (h : heap) :
  snd (for_each (map f l) body h) = snd (for_each l (fun a => body (f a)) h).
Proof.
  revert h. induction l as [| x l IH]; intros h; [reflexivity |].
  simpl map. rewrite !for_each_cons. apply IH.
Qed.

(** Two nested loops visit the pairs of [list_prod], in its order. *)
Lemma for_each_nested {A B} (l : list A) (l' : list B)
    (body : A -> B -> M unit) (h : heap) :
  snd (for_each l (fun a => for_each l' (body a)) h)
  = snd (for_each (list_prod l l') (fun q => body (fst q) (snd q)) h).
Proof.
  revert h. induction l as [| x l IH]; intros h; [reflexivity |].
  simpl list_prod. rewrite for_each_cons, for_each_app, for_each_map.
  simpl. apply IH.
Qed.

(** A property every round keeps holds after the loop. *)
Lemma for_each_inv {A} (I : heap -> Prop) (l : list A) (body : A -> M unit) :
  (forall x h, In x l -> I h -> I (snd (body x h))) ->
  forall h, I h -> I (snd (for_each l body h)).
Proof.
  induction l as [| x l IH]; intros Hbody h Hh; [exact Hh |].
  rewrite for_each_cons. apply IH.
  - intros y h' Hy. apply Hbody. now right.
  - apply Hbody; [now left | exact Hh].
Qed.

(** What a loop appends when every round appends [e x]. *)
Lemma for_each_emit {A B} (out : heap -> list B) (e : A -> list B)
    (l : list A) (body : A -> M unit) :
  (forall x h, out (snd (body x h)) = out h ++ e x) ->
  forall h, out (snd (for_each l body h)) = out h ++ flat_map e l.
Proof.
  intros Hbody. induction l as [| x l IH]; intros h.
  - simpl. now rewrite app_nil_r.
  - rewrite for_each_cons, IH, Hbody. simpl. now rewrite app_assoc.
Qed.

(** *** One round of each loop *)

Lemma observation_run (w : world) (s : Station.row) (p : profile)
    (day hour : nat) (h : heap) :
  exists row d',
    snd (observation w s p day hour h)
    = {| weatherData := weatherData h ++ [row];
         predictions := predictions h; alerts := alerts h;
         draws := d'; ticks := S (ticks h) |}
    /\ Observation.station_id row = Station.id s
    /\ Observation.timestamp row = stamp w (ticks h) (day, hour)
    /\ Observation.temperature row
       = Number_toFixed 2 (baseTemp p + hourFactor hour * tempRange p
                           + (random w (draws h) - 0.5) * 2)
    /\ (exists x, Observation.humidity row
                  = Number_toFixed 2 (Math_max 20 (Math_min 95 x)))
    /\ (Observation.precipitation row = Number_toFixed 2 0 \/
        exists k, Observation.precipitation row
                  = Number_toFixed 2 (random w k * 15 + 2))
    /\ (exists x, Observation.wind_speed row
                  = Number_toFixed 2 (Math_max x 0)).
Proof.
  unfold observation, bind, Date_now, Math_random, push_weatherData, ret.
  simpl.
  destruct (Rlt_dec (random w (S (S (draws h)))) (rainProbability p));
    simpl; do 2 eexists; (split; [reflexivity |]); simpl;
    repeat split; eauto.
Qed.

Lemma prediction_run (w : world) (s : Station.row) (p : profile)
    (day hour : nat) (h : heap) :
  exists row d',
    snd (prediction w s p day hour h)
    = {| weatherData := weatherData h;
         predictions := predictions h ++ [row]; alerts := alerts h;
         draws := d'; ticks := S (ticks h) |}
    /\ Prediction.station_id row = Station.id s
    /\ Prediction.predicted_temp row
       = Number_toFixed 2 (baseTemp p + hourFactor hour * tempRange p
                           + INR day * 0.5)
    /\ (exists k, Prediction.confidence row
          = Number_toFixed 2
              (Math_max 75 (Math_min 98
                 (95 - INR day * 3 + (random w k - 0.5) * 4)))).
Proof.
  unfold prediction, bind, Date_now, Math_random, push_predictions, ret.
  simpl.
  destruct (Rlt_dec (random w (S (draws h))) (rainProbability p * 0.8));
    simpl; do 2 eexists; (split; [reflexivity |]); simpl;
    repeat split; eauto.
Qed.

Lemma gt_true (a b : R) : gt a b = true <-> a > b.
Proof.
  unfold gt. destruct (Rlt_dec b a); split; intros; try easy; lra.
Qed.

Lemma gt_false (a b : R) : gt a b = false <-> ~ a > b.
Proof.
  unfold gt. destruct (Rlt_dec b a); split; intros; try easy; lra.
Qed.

(** A guarded [alerts.push] appends one row or none, and touches nothing
    else. *)
Lemma when_push_alerts (c : bool) (a : Alert.row) (h : heap) :
  snd (when c (push_alerts a) h)
  = {| weatherData := weatherData h; predictions := predictions h;
       alerts := alerts h ++ (if c then [a] else []);
       draws := draws h; ticks := ticks h |}.
Proof.
  destruct c; simpl; [reflexivity |].
  rewrite app_nil_r. now destruct h.
Qed.

Lemma station_alerts_run (w : world) (s : Station.row) (p : profile) (h : heap) :
  exists new d',
    snd (station_alerts w s p h)
    = {| weatherData := weatherData h; predictions := predictions h;
         alerts := alerts h ++ new; draws := d'; ticks := ticks h |}
    /\ ((exists a, In a new /\ is_heat_wave a) <-> baseTemp p > 38)
    /\ (forall a, In a new -> is_heat_wave a ->
          Alert.station_id a = Station.id s /\
          (Alert.severity a = extreme <-> baseTemp p > 42) /\
          (Alert.severity a = high <-> ~ baseTemp p > 42) /\
          Alert.message a = heat_wave_message (baseTemp p)).
Proof.
  unfold station_alerts. cbv zeta.
  rewrite !snd_bind, !when_push_alerts. cbn [alerts weatherData predictions draws ticks].
  set (a1 := {| Alert.alert_type := "Heat Wave Warning" |}).
  set (a2 := {| Alert.alert_type := "Heavy Rainfall Alert" |}).
  set (a3 := {| Alert.alert_type := "Strong Wind Advisory" |}).
  set (l1 := if gt (baseTemp p) 38 then [a1] else []).
  set (l2 := if gt (rainProbability p) 0.22 then [a2] else []).
  set (l3 := if gt (max (windSpeed p)) 30 then [a3] else []).
  assert (Hlast : exists l4 d',
    snd ((if gt (max (humidity p)) 75
          then bind (Math_random w) (fun r =>
                 when (gt r 0.5)
                   (push_alerts
                      {| Alert.station_id := Station.id s;
                         Alert.alert_type := "High Humidity Alert";
                         Alert.severity := low;
                         Alert.message :=
                           ("High humidity levels expected (" ++
                            ToString (max (humidity p)) ++
                            "%). Uncomfortable weather conditions likely.")%string;
                         Alert.is_active := true |}))
          else ret tt)
         {| weatherData := weatherData h; predictions := predictions h;
            alerts := ((alerts h ++ l1) ++ l2) ++ l3;
            draws := draws h; ticks := ticks h |})
    = {| weatherData := weatherData h; predictions := predictions h;
         alerts := (((alerts h ++ l1) ++ l2) ++ l3) ++ l4;
         draws := d'; ticks := ticks h |}
    /\ Forall (fun a => Alert.alert_type a = "High Humidity Alert"%string) l4).
  { destruct (gt (max (humidity p)) 75).
    - rewrite snd_bind, when_push_alerts. cbn [Math_random fst snd alerts weatherData predictions draws ticks].
      destruct (gt _ 0.5); do 2 eexists; (split; [reflexivity |]); repeat constructor.
    - exists [], (draws h). cbn [ret snd]. rewrite app_nil_r. split; constructor. }
  destruct Hlast as (l4 & d' & Hrun & Hl4).
  exists (l1 ++ l2 ++ l3 ++ l4), d'.
  split; [rewrite Hrun; apply f_equal3; try reflexivity; now rewrite <- !app_assoc |].
  assert (Hother : forall a, In a (l2 ++ l3 ++ l4) -> ~ is_heat_wave a).
  { intros a Ha Hw. unfold is_heat_wave in Hw.
    rewrite !in_app_iff in Ha. destruct Ha as [Ha | [Ha | Ha]].
    - unfold l2 in Ha. destruct (gt (rainProbability p) 0.22); [| easy].
      destruct Ha as [<- | []]. discriminate Hw.
    - unfold l3 in Ha. destruct (gt (max (windSpeed p)) 30); [| easy].
      destruct Ha as [<- | []]. discriminate Hw.
    - rewrite Forall_forall in Hl4. rewrite (Hl4 a Ha) in Hw. discriminate Hw. }
  split.
  - split.
    + intros (a & Ha & Hw). apply in_app_or in Ha. destruct Ha as [Ha | Ha].
      * unfold l1 in Ha. destruct (gt (baseTemp p) 38) eqn:E; [| easy].
        now apply gt_true.
      * now apply Hother in Ha.
    + intros H38. exists a1. split; [| reflexivity].
      apply in_or_app. left. unfold l1.
      apply gt_true in H38. rewrite H38. now left.
  - intros a Ha Hw. apply in_app_or in Ha. destruct Ha as [Ha | Ha];
      [| now apply Hother in Ha].
    unfold l1 in Ha. destruct (gt (baseTemp p) 38); [| easy].
    destruct Ha as [<- | []]. unfold a1. cbn [Alert.station_id Alert.severity Alert.message].
    repeat split; try reflexivity.
    + destruct (gt (baseTemp p) 42) eqn:E; [intros _; now apply gt_true | discriminate].
    + intros H42. apply gt_true in H42. now rewrite H42.
    + destruct (gt (baseTemp p) 42) eqn:E; [discriminate | intros _; now apply gt_false].
    + intros H42. apply gt_false in H42. now rewrite H42.
Qed.

(** *** What each loop leaves alone *)

Lemma observation_frame (w : world) (s : Station.row) (p : profile)
    (day hour : nat) (h : heap) :
  predictions (snd (observation w s p day hour h)) = predictions h /\
  alerts (snd (observation w s p day hour h)) = alerts h.
Proof.
  destruct (observation_run w s p day hour h) as (row & d' & -> & _).
  now split.
Qed.

Lemma prediction_frame (w : world) (s : Station.row) (p : profile)
    (day hour : nat) (h : heap) :
  weatherData (snd (prediction w s p day hour h)) = weatherData h /\
  alerts (snd (prediction w s p day hour h)) = alerts h.
Proof.
  destruct (prediction_run w s p day hour h) as (row & d' & -> & _).
  now split.
Qed.

Lemma history_frame (w : world) (s : Station.row) (p : profile) (h : heap) :
  predictions (snd (history w s p h)) = predictions h /\
  alerts (snd (history w s p h)) = alerts h.
Proof.
  unfold history.
  apply (for_each_inv
           (fun h' => predictions h' = predictions h /\ alerts h' = alerts h));
    [| now split].
  intros day h1 _ H1.
  apply (for_each_inv
           (fun h' => predictions h' = predictions h /\ alerts h' = alerts h));
    [| exact H1].
  intros hour h2 _ [Hp Ha].
  destruct (observation_frame w s p day hour h2) as [-> ->]. now split.
Qed.

Lemma forecast_frame (w : world) (s : Station.row) (p : profile) (h : heap) :
  weatherData (snd (forecast w s p h)) = weatherData h /\
  alerts (snd (forecast w s p h)) = alerts h.
Proof.
  unfold forecast.
  apply (for_each_inv
           (fun h' => weatherData h' = weatherData h /\ alerts h' = alerts h));
    [| now split].
  intros day h1 _ H1.
  apply (for_each_inv
           (fun h' => weatherData h' = weatherData h /\ alerts h' = alerts h));
    [| exact H1].
  intros hour h2 _ [Hp Ha].
  destruct (prediction_frame w s p day hour h2) as [-> ->]. now split.
Qed.

Lemma station_alerts_frame (w : world) (s : Station.row) (p : profile)
    (h : heap) :
  weatherData (snd (station_alerts w s p h)) = weatherData h /\
  predictions (snd (station_alerts w s p h)) = predictions h.
Proof.
  destruct (station_alerts_run w s p h) as (new & d' & -> & _).
  now split.
Qed.

Lemma process_station_unfold (w : world) (s : Station.row) (p : profile)
    (h : heap) :
  snd (process_station w s p h)
  = snd (station_alerts w s p (snd (forecast w s p (snd (history w s p h))))).
Proof. unfold process_station. now rewrite !snd_bind. Qed.

(** A property that every round of the three parts keeps holds after a
    station, and after all of them. *)
Lemma process_station_inv (I : heap -> Prop) (w : world) (s : Station.row)
    (p : profile) :
  (forall day hour h, I h -> I (snd (observation w s p day hour h))) ->
  (forall day hour h, I h -> I (snd (prediction w s p day hour h))) ->
  (forall h, I h -> I (snd (station_alerts w s p h))) ->
  forall h, I h -> I (snd (process_station w s p h)).
Proof.
  intros Ho Hp Ha h Hh. rewrite process_station_unfold.
  apply Ha. unfold forecast, history.
  apply for_each_inv; [intros day h1 _ H1; apply for_each_inv; auto |].
  apply for_each_inv; [intros day h1 _ H1; apply for_each_inv; auto | exact Hh].
Qed.

Lemma generate_inv (I : heap -> Prop) (w : world) (stationsData : list Station.row) :
  (forall s p day hour h, I h -> I (snd (observation w s p day hour h))) ->
  (forall s p day hour h, I h -> I (snd (prediction w s p day hour h))) ->
  (forall s p h, I h -> I (snd (station_alerts w s p h))) ->
  forall h, I h -> I (snd (generate w stationsData h)).
Proof.
  intros Ho Hp Ha. unfold generate. apply for_each_inv.
  intros s h _. apply process_station_inv; auto.
Qed.

(** *** Heat-wave alerts *)

(** The message of a station at 43 degrees. *)
Example heat_wave_message_43 :
  heat_wave_message 43
  = "Heat wave conditions expected. Temperature may reach 46.0Â°C. Stay hydrated and avoid direct sunlight."%string.
Proof.
  unfold heat_wave_message. replace (43 + 3) with 46 by lra.
  now rewrite toFixed_1_46.
Qed.

(** C1: processing a station with profile [p] appends a "Heat Wave Warning"
    to [alerts] if and only if [baseTemp p > 38]; that alert carries the
    station's id, its severity is [extreme] if and only if [baseTemp p > 42]
    and [high] otherwise, and its message is the template with
    [(baseTemp p + 3).toFixed(1)] as the temperature that may be reached. *)
Theorem C1_heat_wave_alert (w : world) (s : Station.row) (p : profile) (h : heap) :
  exists new,
    alerts (snd (process_station w s p h)) = alerts h ++ new
    /\ ((exists a, In a new /\ Alert.alert_type a = "Heat Wave Warning"%string)
        <-> baseTemp p > 38)
    /\ (forall a, In a new -> Alert.alert_type a = "Heat Wave Warning"%string ->
          Alert.station_id a = Station.id s /\
          (Alert.severity a = extreme <-> baseTemp p > 42) /\
          (Alert.severity a = high <-> ~ baseTemp p > 42) /\
          Alert.message a
          = ("Heat wave conditions expected. Temperature may reach " ++
             toFixed 1 (baseTemp p + 3) ++
             "Â°C. Stay hydrated and avoid direct sunlight.")%string).
Proof.
  rewrite process_station_unfold.
  destruct (station_alerts_run w s p (snd (forecast w s p (snd (history w s p h)))))
    as (new & d' & -> & Hiff & Hrow).
  exists new. cbn [alerts].
  destruct (forecast_frame w s p (snd (history w s p h))) as [_ ->].
  destruct (history_frame w s p h) as [_ ->].
  split; [reflexivity | split; [exact Hiff | exact Hrow]].
Qed.

(** The only alerts an invocation asks the store to insert are the ones
    generated for the stations the store returned. *)
Lemma serve_inserted_alerts (w : world) (method : string)
    (rows : list Alert.row) :
  In (insert_weather_alerts rows) (snd (serve w method)) ->
  exists stationsData,
    stations_reply w = inr stationsData /\
    rows = alerts (snd (generate w stationsData empty_heap)).
Proof.
  unfold serve, caught. cbv zeta.
  destruct (String.eqb method "OPTIONS"); [intros [] |].
  destruct (stations_reply w) as [e | stationsData];
    [| destruct (data_reply w);
       [| destruct (predictions_reply w);
          [| destruct (0 <? _)%nat; [destruct (alerts_reply w) |]]]];
    cbn [snd map purge fst app]; intros Hin;
    repeat (apply in_app_or in Hin; destruct Hin as [Hin | Hin]);
    cbn [In] in Hin;
    repeat match goal with
           | H : _ \/ _ |- _ => destruct H as [H | H]
           | H : False |- _ => destruct H
           | H : insert_weather_alerts _ = insert_weather_alerts _ |- _ =>
               injection H as <-
           | H : _ = insert_weather_alerts _ |- _ => discriminate H
           end;
    exists stationsData; split; reflexivity.
Qed.

(** C9: no profile of the table has a [baseTemp] above 32, Nagpur's; so also
    not the profile a station gets, whatever its name; the [alerts] of a run
    of the generator hold no "Heat Wave Warning", and no invocation asks the
    store to insert one. *)
Theorem C9_no_heat_wave (w : world) (stationsData : list Station.row) :
  (forall key p, climateProfiles key = Some p -> baseTemp p <= 32)
  /\ baseTemp Nagpur = 32
  /\ (forall station_name, baseTemp (profile_for station_name) <= 32)
  /\ Forall (fun a => Alert.alert_type a <> "Heat Wave Warning"%string)
       (alerts (snd (generate w stationsData empty_heap)))
  /\ (forall method rows,
        In (insert_weather_alerts rows) (snd (serve w method)) ->
        Forall (fun a => Alert.alert_type a <> "Heat Wave Warning"%string) rows).
Proof.
  assert (Htable : forall key p, climateProfiles key = Some p -> baseTemp p <= 32).
  { intros key p. unfold climateProfiles.
    repeat (destruct (String.eqb key _);
            [intros [= <-]; simpl; lra |]).
    discriminate. }
  assert (Hfor : forall station_name, baseTemp (profile_for station_name) <= 32).
  { intros n. unfold profile_for.
    destruct (climateProfiles n) as [p |] eqn:E; [now apply (Htable n) | simpl; lra]. }
  assert (Hgen : forall sd,
            Forall (fun a => Alert.alert_type a <> "Heat Wave Warning"%string)
                   (alerts (snd (generate w sd empty_heap)))).
  2: { repeat split; auto.
       intros method rows Hin.
       destruct (serve_inserted_alerts w method rows Hin) as (sd & _ & ->).
       apply Hgen. }
  intros sd. unfold generate.
  apply (for_each_inv
           (fun h => Forall (fun a => Alert.alert_type a <> "Heat Wave Warning"%string)
                            (alerts h))); [| constructor].
  intros s h _ Hh. rewrite process_station_unfold.
  set (p := profile_for (Station.name s)).
  destruct (station_alerts_run w s p (snd (forecast w s p (snd (history w s p h)))))
    as (new & d' & -> & Hiff & _).
  cbn [alerts].
  destruct (forecast_frame w s p (snd (history w s p h))) as [_ ->].
  destruct (history_frame w s p h) as [_ ->].
  apply Forall_app. split; [exact Hh |].
  apply Forall_forall. intros a Ha Hw.
  assert (H38 : baseTemp p > 38) by (apply Hiff; now exists a).
  specialize (Hfor (Station.name s)). fold p in Hfor. lra.
Qed.
(** *** Ranges *)

Lemma clamp_bounds (lo hi x : R) :
  lo <= hi -> lo <= Math_max lo (Math_min hi x) <= hi.
Proof.
  intros Hle. unfold Math_max, Math_min. split; [apply Rmax_l |].
  apply Rmax_lub; [exact Hle | apply Rmin_l].
Qed.

Lemma observation_keeps_range (w : world) (s : Station.row) (p : profile)
    (day hour : nat) (h : heap) :
  (forall k, 0 <= random w k < 1) ->
  Forall observation_in_range (weatherData h) ->
  Forall observation_in_range (weatherData (snd (observation w s p day hour h))).
Proof.
  intros Hrandom Hh.
  destruct (observation_run w s p day hour h)
    as (row & d' & -> & _ & _ & _ & [x Hhum] & Hprec & [y Hwind]).
  cbn [weatherData]. apply Forall_app. split; [exact Hh |].
  constructor; [| constructor]. unfold observation_in_range.
  rewrite Hhum, Hwind.
  destruct (clamp_bounds 20 95 x) as [Hlo Hhi]; [lra |].
  repeat split.
  - apply (Number_toFixed_2_ge 20); [lia | exact Hlo].
  - apply (Number_toFixed_2_le 95); [lra | exact Hhi].
  - apply (Number_toFixed_2_ge 0); [lia |]. unfold Math_max. apply Rmax_r.
  - destruct Hprec as [-> | [k ->]].
    + rewrite (Number_toFixed_2_int 0); [lra | lia].
    + apply (Number_toFixed_2_ge 0); [lia |]. specialize (Hrandom k). lra.
Qed.

Lemma prediction_keeps_range (w : world) (s : Station.row) (p : profile)
    (day hour : nat) (h : heap) :
  Forall prediction_in_range (predictions h) ->
  Forall prediction_in_range (predictions (snd (prediction w s p day hour h))).
Proof.
  intros Hh.
  destruct (prediction_run w s p day hour h) as (row & d' & -> & _ & _ & [k Hc]).
  cbn [predictions]. apply Forall_app. split; [exact Hh |].
  constructor; [| constructor]. unfold prediction_in_range. rewrite Hc.
  destruct (clamp_bounds 75 98 (95 - INR day * 3 + (random w k - 0.5) * 4))
    as [Hlo Hhi]; [lra |].
  split.
  - apply (Number_toFixed_2_ge 75); [lia | exact Hlo].
  - apply (Number_toFixed_2_le 98); [lra | exact Hhi].
Qed.

(** C2: when every [Math.random()] lies in [0, 1), each observation row of
    a run has humidity in [20, 95], wind speed at least 0 and precipitation
    at least 0, and each prediction row has confidence in [75, 98]; for any
    stations, clock and store replies. *)
Theorem C2_generated_ranges (w : world) (stationsData : list Station.row)
    (Hrandom : forall k, 0 <= random w k < 1) :
  Forall (fun r => 20 <= Observation.humidity r <= 95 /\
                   0 <= Observation.wind_speed r /\
                   0 <= Observation.precipitation r)
         (weatherData (snd (generate w stationsData empty_heap)))
  /\ Forall (fun r => 75 <= Prediction.confidence r <= 98)
            (predictions (snd (generate w stationsData empty_heap))).
Proof.
  apply (generate_inv
           (fun h => Forall observation_in_range (weatherData h) /\
                     Forall prediction_in_range (predictions h))).
  - intros s p day hour h [Ho Hp]. split.
    + now apply observation_keeps_range.
    + now destruct (observation_frame w s p day hour h) as [-> _].
  - intros s p day hour h [Ho Hp]. split.
    + now destruct (prediction_frame w s p day hour h) as [-> _].
    + now apply prediction_keeps_range.
  - intros s p h [Ho Hp].
    now destruct (station_alerts_frame w s p h) as [-> ->].
  - split; constructor.
Qed.

Lemma C2_generated_ranges_witness :
  (forall k, 0 <= random (steady 0.5) k < 1)
  /\ Forall (fun r => 20 <= Observation.humidity r <= 95 /\
                      0 <= Observation.wind_speed r /\
                      0 <= Observation.precipitation r)
            (weatherData (snd (generate (steady 0.5) five_rows empty_heap)))
  /\ Forall (fun r => 75 <= Prediction.confidence r <= 98)
            (predictions (snd (generate (steady 0.5) five_rows empty_heap))).
Proof.
  assert (H : forall k, 0 <= random (steady 0.5) k < 1) by (intros k; simpl; lra).
  split; [exact H | exact (C2_generated_ranges (steady 0.5) five_rows H)].
Defined.

(** *** Row counts *)

Lemma for_each_count {A} (f : heap -> nat) (k : nat) (l : list A)
    (body : A -> M unit) :
  (forall x h, f (snd (body x h)) = (f h + k)%nat) ->
  forall h, f (snd (for_each l body h)) = (f h + k * List.length l)%nat.
Proof.
  intros Hbody. induction l as [| x l IH]; intros h.
  - simpl. lia.
  - rewrite for_each_cons, IH, Hbody. simpl. lia.
Qed.

Lemma process_station_count (w : world) (s : Station.row) (p : profile)
    (h : heap) :
  List.length (weatherData (snd (process_station w s p h)))
  = (List.length (weatherData h) + 192)%nat.
Proof.
  rewrite process_station_unfold.
  destruct (station_alerts_frame w s p (snd (forecast w s p (snd (history w s p h)))))
    as [-> _].
  destruct (forecast_frame w s p (snd (history w s p h))) as [-> _].
  unfold history.
  rewrite (for_each_count (fun h' => List.length (weatherData h')) 24).
  - reflexivity.
  - intros day h1.
    rewrite (for_each_count (fun h' => List.length (weatherData h')) 1).
    + reflexivity.
    + intros hour h2.
      destruct (observation_run w s p day hour h2) as (row & d' & -> & _).
      cbn [weatherData]. now rewrite length_app.
Qed.

(** C4: the day loop visits the eight indices 7, 6, ..., 0; a station adds
    exactly 8 * 24 = 192 rows to [weatherData]; and a run over five stations
    leaves exactly 5 * 8 * 24 = 960 rows there, the number the reply reports
    as [dataPoints]. *)
Theorem C4_observation_count (w : world) (stationsData : list Station.row)
    (method : string)
    (Hfive : List.length stationsData = 5%nat) :
  countdown 7 = [7; 6; 5; 4; 3; 2; 1; 0]%nat
  /\ (forall s p h,
        List.length (weatherData (snd (process_station w s p h)))
        = (List.length (weatherData h) + 8 * 24)%nat)
  /\ List.length (weatherData (snd (generate w stationsData empty_heap)))
     = (5 * 8 * 24)%nat
  /\ (String.eqb method "OPTIONS" = false ->
      stations_reply w = inr stationsData -> data_reply w = None ->
      predictions_reply w = None -> alerts_reply w = None ->
      exists stats, body (fst (serve w method)) = seeded stats /\
                    stat_dataPoints stats = 960%nat).
Proof.
  assert (Hgen : List.length (weatherData (snd (generate w stationsData empty_heap)))
                 = 960%nat).
  { unfold generate.
    rewrite (for_each_count (fun h' => List.length (weatherData h')) 192).
    - rewrite Hfive. reflexivity.
    - intros s h. apply process_station_count. }
  split; [reflexivity |]. split; [intros; apply process_station_count |].
  split; [exact Hgen |].
  intros Hm Hs Hd Hp Ha. unfold serve.
  rewrite Hm, Hs, Hd, Hp, Ha.
  destruct (0 <? _)%nat; cbn [fst body]; eexists; (split; [reflexivity |]);
    cbn [stat_dataPoints]; exact Hgen.
Qed.

Lemma C4_observation_count_witness :
  List.length five_rows = 5%nat
  /\ List.length (weatherData (snd (generate (steady 0.5) five_rows empty_heap)))
     = 960%nat
  /\ exists stats, body (fst (serve (steady 0.5) "POST")) = seeded stats /\
                   stat_dataPoints stats = 960%nat.
Proof.
  split; [reflexivity |].
  destruct (C4_observation_count (steady 0.5) five_rows "POST" eq_refl)
    as (_ & _ & Hgen & Hserve).
  split; [exact Hgen |].
  exact (Hserve eq_refl eq_refl eq_refl eq_refl eq_refl).
Defined.
(** *** The rows of a loop, one by one *)

(** When every round appends one row [b] with [R i x b], [i] the read
    position at which the round starts, and moves the position on by one,
    the loop appends one row per element, related to it in the same way. *)
Lemma for_each_rows {A B} (out : heap -> list B) (ix : heap -> nat)
    (R : nat -> A -> B -> Prop) (l : list A) (body : A -> M unit) :
  (forall x h, exists b, out (snd (body x h)) = out h ++ [b] /\
                         ix (snd (body x h)) = S (ix h) /\ R (ix h) x b) ->
  forall h, exists bs,
    out (snd (for_each l body h)) = out h ++ bs /\
    ix (snd (for_each l body h)) = (ix h + List.length l)%nat /\
    Forall2 (fun q b => R (fst q) (snd q) b)
            (combine (seq (ix h) (List.length l)) l) bs.
Proof.
  intros Hbody. induction l as [| x l IH]; intros h.
  - exists []. simpl. rewrite app_nil_r. repeat split; [lia | constructor].
  - destruct (Hbody x h) as (b & Ho & Hi & Hr).
    destruct (IH (snd (body x h))) as (bs & Ho' & Hi' & Hrs).
    exists (b :: bs). rewrite for_each_cons, Ho', Hi', Ho, Hi.
    rewrite <- app_assoc. simpl. repeat split; [lia |].
    constructor; [exact Hr |]. rewrite Hi in Hrs. exact Hrs.
Qed.

Lemma Forall2_nth_rel {A B} (P : A -> B -> Prop) (l : list A) (l' : list B)
    (a : A) (b : B) :
  Forall2 P l l' ->
  forall i, (i < List.length l)%nat -> P (nth i l a) (nth i l' b).
Proof.
  induction 1 as [| x y l l' Hxy _ IH]; intros i Hi; simpl in Hi; [lia |].
  destruct i as [| i]; [exact Hxy |]. simpl. apply IH. lia.
Qed.

Lemma combine_seq_nth {A} (l : list A) (t i : nat) (a : A) :
  (i < List.length l)%nat ->
  nth i (combine (seq t (List.length l)) l) (O, a) = ((t + i)%nat, nth i l a).
Proof.
  revert t i. induction l as [| x l IH]; intros t i Hi; simpl in Hi; [lia |].
  destruct i as [| i]; simpl; [now rewrite Nat.add_0_r |].
  rewrite IH by lia. f_equal. lia.
Qed.

(** The rows of the historical loops of one station: the [i]-th is the one
    of the [i]-th (day, hour) pair and of the [i]-th reading of the clock. *)
Lemma history_rows (w : world) (s : Station.row) (p : profile) (h : heap) :
  exists rows,
    weatherData (snd (history w s p h)) = weatherData h ++ rows /\
    Forall2
      (fun q row =>
         Observation.station_id row = Station.id s /\
         Observation.timestamp row = stamp w (fst q) (snd q) /\
         exists k, Observation.temperature row
                   = Number_toFixed 2
                       (baseTemp p + hourFactor (snd (snd q)) * tempRange p
                        + (random w k - 0.5) * 2))
      (combine (seq (ticks h) (List.length history_slots)) history_slots) rows.
Proof.
  unfold history. rewrite for_each_nested. fold history_slots.
  destruct (for_each_rows weatherData ticks
              (fun i q row =>
                 Observation.station_id row = Station.id s /\
                 Observation.timestamp row = stamp w i q /\
                 exists k, Observation.temperature row
                           = Number_toFixed 2
                               (baseTemp p + hourFactor (snd q) * tempRange p
                                + (random w k - 0.5) * 2))
              history_slots
              (fun q => observation w s p (fst q) (snd q)) ) with (h := h)
    as (rows & Hout & _ & Hrows).
  - intros [day hour] h'. cbn [fst snd].
    destruct (observation_run w s p day hour h')
      as (row & d' & -> & Hid & Hts & Htemp & _).
    exists row. cbn [weatherData ticks fst snd]. repeat split; eauto.
  - exists rows. split; [exact Hout | exact Hrows].
Qed.

Lemma process_station_weatherData (w : world) (s : Station.row) (p : profile)
    (h : heap) :
  weatherData (snd (process_station w s p h))
  = weatherData (snd (history w s p h)).
Proof.
  rewrite process_station_unfold.
  destruct (station_alerts_frame w s p (snd (forecast w s p (snd (history w s p h)))))
    as [-> _].
  now destruct (forecast_frame w s p (snd (history w s p h))) as [-> _].
Qed.
(** *** Timestamps *)

Lemma history_slots_length : List.length history_slots = 192%nat.
Proof. reflexivity. Qed.

(** The [i]-th pair visited lies [191 - i] hours back. *)
Lemma history_slots_offset (i : nat) :
  (i < 192)%nat ->
  (Z.of_nat (fst (nth i history_slots (O, O))) * 24
   + (23 - Z.of_nat (snd (nth i history_slots (O, O)))) = 191 - Z.of_nat i)%Z.
Proof.
  intros Hi.
  assert (Hall : Forall (fun i => (Z.of_nat (fst (nth i history_slots (O, O))) * 24
                           + (23 - Z.of_nat (snd (nth i history_slots (O, O))))
                           = 191 - Z.of_nat i)%Z) (seq 0 192)).
  { repeat (constructor; [reflexivity |]). constructor. }
  rewrite Forall_forall in Hall. apply Hall. apply in_seq. lia.
Qed.
(** C5: when the clock never runs backwards, the observations a station adds
    to [weatherData] carry strictly increasing timestamps: the [i]-th of the
    192 is the [i]-th reading of [Date.now()] minus [191 - i] hours, and an
    earlier-emitted row is strictly older than any later one, in particular
    than its successor. *)
Theorem C5_history_oldest_first (w : world) (s : Station.row) (p : profile)
    (h : heap)
    (Hclock : forall i j, (i <= j)%nat -> (now w i <= now w j)%Z) :
  exists rows,
    weatherData (snd (process_station w s p h)) = weatherData h ++ rows
    /\ List.length rows = 192%nat
    /\ Forall (fun r => Observation.station_id r = Station.id s) rows
    /\ (forall d i, (i < 192)%nat ->
          Observation.timestamp (nth i rows d)
          = (now w (ticks h + i) - (191 - Z.of_nat i) * 3600000)%Z)
    /\ (forall d i j, (i < j < 192)%nat ->
          (Observation.timestamp (nth i rows d)
           < Observation.timestamp (nth j rows d))%Z).
Proof.
  rewrite process_station_weatherData.
  destruct (history_rows w s p h) as (rows & Hout & Hrows).
  exists rows.
  assert (Hlen : List.length rows = 192%nat).
  { apply Forall2_length in Hrows. rewrite <- Hrows, length_combine, length_seq.
    rewrite history_slots_length. reflexivity. }
  assert (Hnth : forall d i, (i < 192)%nat ->
            Observation.station_id (nth i rows d) = Station.id s /\
            Observation.timestamp (nth i rows d)
            = (now w (ticks h + i) - (191 - Z.of_nat i) * 3600000)%Z).
  { intros d i Hi.
    pose proof (Forall2_nth_rel _ _ _ (O, (O, O)) d Hrows i) as Hr.
    assert (Hlt : (i < List.length
                      (combine (seq (ticks h) (List.length history_slots))
                               history_slots))%nat)
      by (rewrite length_combine, length_seq, history_slots_length; simpl; lia).
    specialize (Hr Hlt).
    rewrite combine_seq_nth in Hr by (rewrite history_slots_length; lia).
    cbn [fst snd] in Hr. destruct Hr as (Hid & Hts & _).
    split; [exact Hid |]. rewrite Hts. unfold stamp.
    now rewrite history_slots_offset. }
  split; [exact Hout |]. split; [exact Hlen |]. split; [| split].
  - apply Forall_forall. intros r Hr.
    destruct (In_nth _ _ r Hr) as (i & Hi & <-). apply Hnth. lia.
  - intros d i Hi. now apply Hnth.
  - intros d i j Hij.
    destruct (Hnth d i ltac:(lia)) as [_ ->].
    destruct (Hnth d j ltac:(lia)) as [_ ->].
    specialize (Hclock (ticks h + i)%nat (ticks h + j)%nat ltac:(lia)). lia.
Qed.
Lemma C5_history_oldest_first_witness :
  (forall i j, (i <= j)%nat -> (now (steady 0.5) i <= now (steady 0.5) j)%Z)
  /\ exists rows,
       weatherData (snd (process_station (steady 0.5) mumbai_row Mumbai empty_heap))
       = weatherData empty_heap ++ rows
       /\ List.length rows = 192%nat
       /\ Forall (fun r => Observation.station_id r = Station.id mumbai_row) rows
       /\ (forall d i, (i < 192)%nat ->
             Observation.timestamp (nth i rows d)
             = (now (steady 0.5) (ticks empty_heap + i)
                - (191 - Z.of_nat i) * 3600000)%Z)
       /\ (forall d i j, (i < j < 192)%nat ->
             (Observation.timestamp (nth i rows d)
              < Observation.timestamp (nth j rows d))%Z).
Proof.
  assert (H : forall i j, (i <= j)%nat ->
                (now (steady 0.5) i <= now (steady 0.5) j)%Z).
  { intros i j Hij. unfold steady. cbn [now]. lia. }
  split; [exact H |].
  exact (C5_history_oldest_first (steady 0.5) mumbai_row Mumbai empty_heap H).
Defined.
(** *** The temperature of an observation *)

Lemma hourFactor_spec (hour : nat) :
  hourFactor hour = sin (2 * PI * (INR hour - 6) / 24).
Proof. unfold hourFactor. f_equal. field. Qed.

Lemma noise_bounds (r a : R) :
  0 < a -> 0 <= r < 1 -> - a <= (r - 0.5) * (2 * a) < a.
Proof. intros Ha Hr. split; nra. Qed.

Lemma countdown_In (n d : nat) : In d (countdown n) <-> (d <= n)%nat.
Proof.
  induction n as [| n IH]; simpl.
  - split; [intros [<- | []]; lia | intros; left; lia].
  - rewrite IH. split; [intros [<- | H]; lia | intros H].
    destruct (Nat.eq_dec d (S n)) as [-> | Hne]; [now left | right; lia].
Qed.

Lemma history_slots_In (day hour : nat) :
  In (day, hour) history_slots <-> (day <= 7 /\ hour < 24)%nat.
Proof.
  unfold history_slots. rewrite in_prod_iff, countdown_In, in_seq. lia.
Qed.

(** What [toFixed(2)] stores is the rounding of a value next to [x], and
    lies within half a hundredth of it. *)
Lemma rounded_near (x : R) :
  exists t,
    Rabs (t - x) <= 1 / 10 ^ 9
    /\ Number_toFixed 2 x = Number_toFixed 2 t
    /\ Rabs (Number_toFixed 2 x - x) <= 0.005 + 1 / 10 ^ 9.
Proof.
  exists x. split; [| split; [reflexivity |]].
  - replace (x - x) with 0 by ring. rewrite Rabs_R0. simpl pow. lra.
  - pose proof (Number_toFixed_error 2 x) as He. simpl pow in *. lra.
Qed.

(** C3, as the code has it: for a station with its profile of the table, the
    round of the historical loops for [day] and an [hour] below 24 appends
    one row whose temperature is what [toFixed(2)] makes of the value [t]
    computed for [baseTemp + sin(2 pi (hour - 6) / 24) * tempRange + u],
    where [u = (r - 0.5) * 2] for the round's first draw [r], so that
    [-1 <= u < 1].  The arithmetic of this development is exact and [t] is
    that sum; the statement asks no more of [t] than to lie within
    [10 ^ -9] of it, as the sum computed in floating point does, so that it
    does not depend on which way a value next to a tie is rounded.  The
    temperature stored is thus within [0.005 + 10 ^ -9] of the sum.  The
    loops run that round for exactly the pairs with [day <= 7] and
    [hour < 24], and so each of the 192 rows of a station has this form for
    its own pair. *)
Theorem C3_observation_temperature (w : world) (s : Station.row)
    (day hour : nat) (h : heap)
    (Hrandom : forall k, 0 <= random w k < 1)
    (Hhour : (hour < 24)%nat) :
  (exists row t,
     weatherData (snd (observation w s (profile_for (Station.name s)) day hour h))
     = weatherData h ++ [row]
     /\ - 1 <= (random w (draws h) - 0.5) * 2 < 1
     /\ Rabs (t - Spec.temperature (profile_for (Station.name s)) hour
                    ((random w (draws h) - 0.5) * 2)) <= 1 / 10 ^ 9
     /\ Observation.temperature row = Number_toFixed 2 t
     /\ Rabs (Observation.temperature row
              - Spec.temperature (profile_for (Station.name s)) hour
                  ((random w (draws h) - 0.5) * 2)) <= 0.005 + 1 / 10 ^ 9)
  /\ (forall d hr, In (d, hr) history_slots <-> (d <= 7 /\ hr < 24)%nat)
  /\ (exists rows,
        weatherData (snd (process_station w s (profile_for (Station.name s)) h))
        = weatherData h ++ rows
        /\ forall dflt i, (i < 192)%nat ->
             exists t u, - 1 <= u < 1 /\
               Rabs (t - Spec.temperature (profile_for (Station.name s))
                           (snd (nth i history_slots (O, O))) u) <= 1 / 10 ^ 9 /\
               Observation.temperature (nth i rows dflt) = Number_toFixed 2 t /\
               Rabs (Observation.temperature (nth i rows dflt)
                     - Spec.temperature (profile_for (Station.name s))
                         (snd (nth i history_slots (O, O))) u)
               <= 0.005 + 1 / 10 ^ 9).
Proof.
  set (p := profile_for (Station.name s)).
  split; [| split; [exact history_slots_In |]].
  - destruct (observation_run w s p day hour h)
      as (row & d' & -> & _ & _ & Htemp & _).
    destruct (rounded_near (Spec.temperature p hour
                              ((random w (draws h) - 0.5) * 2)))
      as (t & Ht & Hsame & Herr).
    assert (Hrow : Observation.temperature row
                   = Number_toFixed 2
                       (Spec.temperature p hour ((random w (draws h) - 0.5) * 2))).
    { rewrite Htemp. unfold Spec.temperature. now rewrite hourFactor_spec. }
    exists row, t. cbn [weatherData]. split; [reflexivity |].
    split.
    { pose proof (noise_bounds (random w (draws h)) 1 ltac:(lra) (Hrandom _)). lra. }
    split; [exact Ht |]. split; [now rewrite Hrow |]. now rewrite Hrow.
  - rewrite process_station_weatherData.
    destruct (history_rows w s p h) as (rows & Hout & Hrows).
    exists rows. split; [exact Hout |]. intros dflt i Hi.
    pose proof (Forall2_nth_rel _ _ _ (O, (O, O)) dflt Hrows i) as Hr.
    assert (Hlt : (i < List.length
                      (combine (seq (ticks h) (List.length history_slots))
                               history_slots))%nat)
      by (rewrite length_combine, length_seq, history_slots_length; simpl; lia).
    specialize (Hr Hlt).
    rewrite combine_seq_nth in Hr by (rewrite history_slots_length; lia).
    cbn [fst snd] in Hr. destruct Hr as (_ & _ & k & Htemp).
    set (hr := snd (nth i history_slots (O, O))) in *.
    destruct (rounded_near (Spec.temperature p hr ((random w k - 0.5) * 2)))
      as (t & Ht & Hsame & Herr).
    assert (Hrow : Observation.temperature (nth i rows dflt)
                   = Number_toFixed 2
                       (Spec.temperature p hr ((random w k - 0.5) * 2))).
    { rewrite Htemp. unfold Spec.temperature. now rewrite hourFactor_spec. }
    exists t, ((random w k - 0.5) * 2). split.
    { pose proof (noise_bounds (random w k) 1 ltac:(lra) (Hrandom _)). lra. }
    split; [exact Ht |]. split; [now rewrite Hrow |]. now rewrite Hrow.
Qed.

Lemma C3_observation_temperature_witness :
  (forall k, 0 <= random (steady 0.5) k < 1)
  /\ (0 < 24)%nat
  /\ exists row t,
       weatherData
         (snd (observation (steady 0.5) mumbai_row
                 (profile_for (Station.name mumbai_row)) 7 0 empty_heap))
       = weatherData empty_heap ++ [row]
       /\ - 1 <= (random (steady 0.5) (draws empty_heap) - 0.5) * 2 < 1
       /\ Rabs (t - Spec.temperature (profile_for (Station.name mumbai_row)) 0
                      ((random (steady 0.5) (draws empty_heap) - 0.5) * 2))
          <= 1 / 10 ^ 9
       /\ Observation.temperature row = Number_toFixed 2 t
       /\ Rabs (Observation.temperature row
                - Spec.temperature (profile_for (Station.name mumbai_row)) 0
                    ((random (steady 0.5) (draws empty_heap) - 0.5) * 2))
          <= 0.005 + 1 / 10 ^ 9.
Proof.
  assert (H : forall k, 0 <= random (steady 0.5) k < 1).
  { intros k. unfold steady. cbn [random]. lra. }
  assert (Hh : (0 < 24)%nat) by lia.
  split; [exact H |]. split; [exact Hh |].
  exact (proj1 (C3_observation_temperature
                  (steady 0.5) mumbai_row 7 0 empty_heap H Hh)).
Defined.

(** [sin (pi / 12)], the hour factor at 7 o'clock, to three decimals. *)
Lemma sin_PI12_bounds : 0.258 < sin (PI / 12) < 0.2589.
Proof.
  pose proof PI_RGT_0 as Hpi.
  assert (Hpos : 0 < sin (PI / 12)) by (apply sin_gt_0; lra).
  pose proof (cos_2a_sin (PI / 12)) as Hcos.
  replace (2 * (PI / 12)) with (PI / 6) in Hcos by lra.
  rewrite cos_PI6 in Hcos.
  pose proof (sqrt_pos 3) as H3.
  pose proof (sqrt_sqrt 3 ltac:(lra)) as Hsq.
  assert (Hlo : 1.7318 < sqrt 3) by nra.
  assert (Hhi : sqrt 3 < 1.7337) by nra.
  split; nra.
Qed.

Lemma hourFactor_7 : hourFactor 7 = sin (PI / 12).
Proof. unfold hourFactor. f_equal. simpl. lra. Qed.

(** C3, as stated, fails: when [Math.random()] returns 0 at 7 o'clock for
    Mumbai, the row's temperature is 30.29, which is
    [baseTemp + sin(2 pi (hour - 6) / 24) * tempRange + u] for no [u] in
    [-1, 1] (it takes [u] below -1.004, the rounding having taken the value
    below its unrounded minimum), and in particular not for the [u = -1]
    that was drawn. *)
Lemma C3_observation_temperature_counterexample :
  exists row,
    weatherData (snd (observation (steady 0) mumbai_row Mumbai 7 7 empty_heap))
    = [row]
    /\ Observation.temperature row = 30.29
    /\ forall u, - 1 <= u <= 1 ->
         Observation.temperature row <> Spec.temperature Mumbai 7 u.
Proof.
  destruct (observation_run (steady 0) mumbai_row Mumbai 7 7 empty_heap)
    as (row & d' & Hrun & _ & _ & Htemp & _).
  exists row. rewrite Hrun. cbn [weatherData empty_heap app].
  split; [reflexivity |].
  pose proof sin_PI12_bounds as Hs.
  assert (Hval : Observation.temperature row = 30.29).
  { rewrite Htemp, hourFactor_7. unfold steady. cbn [random baseTemp tempRange Mumbai].
    rewrite Number_toFixed_nonneg by lra.
    rewrite (Zfloor_eq 3029); [simpl; lra |]. simpl. lra. }
  split; [exact Hval |].
  intros u Hu. rewrite Hval. unfold Spec.temperature.
  replace (2 * PI * (INR 7 - 6) / 24) with (PI / 12) by (simpl; lra).
  cbn [baseTemp tempRange Mumbai]. lra.
Qed.
(** *** The confidence of a prediction *)








(** *** The predicted temperature *)

Lemma hourFactor_0 : hourFactor 0 = - 1.
Proof.
  unfold hourFactor.
  replace ((INR 0 - 6) / 24 * PI * 2) with (- (PI / 2)) by (simpl; lra).
  rewrite sin_neg, sin_PI2. reflexivity.
Qed.

Lemma hourFactor_6 : hourFactor 6 = 0.
Proof.
  unfold hourFactor.
  replace ((INR 6 - 6) / 24 * PI * 2) with 0 by (simpl; lra).
  apply sin_0.
Qed.

Lemma hourFactor_12 : hourFactor 12 = 1.
Proof.
  unfold hourFactor.
  replace ((INR 12 - 6) / 24 * PI * 2) with (PI / 2) by (simpl; lra).
  apply sin_PI2.
Qed.

Lemma hourFactor_18 : hourFactor 18 = 0.
Proof.
  unfold hourFactor.
  replace ((INR 18 - 6) / 24 * PI * 2) with PI by (simpl; lra).
  apply sin_PI.
Qed.

(** At the hours of the prediction loop the hour factor is -1, 0 or 1. *)
Lemma hourFactor_every_6_hours (hour : nat) :
  In hour every_6_hours ->
  exists f : Z, hourFactor hour = IZR f /\ (- 1 <= f <= 1)%Z.
Proof.
  intros [<- | [<- | [<- | [<- | []]]]].
  - exists (- 1)%Z. rewrite hourFactor_0. split; [lra | lia].
  - exists 0%Z. rewrite hourFactor_6. split; [reflexivity | lia].
  - exists 1%Z. rewrite hourFactor_12. split; [reflexivity | lia].
  - exists 0%Z. rewrite hourFactor_18. split; [reflexivity | lia].
Qed.

(** The table's base temperatures and ranges are whole degrees, the range
    below the base. *)
Lemma profile_for_whole (station_name : string) :
  exists b r : Z,
    baseTemp (profile_for station_name) = IZR b /\
    tempRange (profile_for station_name) = IZR r /\ (0 <= r <= b)%Z.
Proof.
  unfold profile_for, climateProfiles.
  repeat (destruct (String.eqb station_name _);
          [do 2 eexists; cbn [baseTemp tempRange Mumbai Pune Alandi Sangamner Nagpur];
           repeat split; lia |]).
  do 2 eexists; cbn [baseTemp tempRange Pune]; repeat split; lia.
Qed.

(** For the profiles of the table, at the four hours of the prediction loop,
    the predicted temperature is a whole number of halves: [toFixed(2)]
    leaves it as it is. *)
Lemma predicted_temp_exact (station_name : string) (day hour : nat) :
  In hour every_6_hours ->
  Number_toFixed 2
    (baseTemp (profile_for station_name)
     + hourFactor hour * tempRange (profile_for station_name) + INR day * 0.5)
  = baseTemp (profile_for station_name)
    + hourFactor hour * tempRange (profile_for station_name) + INR day * 0.5.
Proof.
  intros Hhour.
  destruct (hourFactor_every_6_hours hour Hhour) as (f & -> & Hf).
  destruct (profile_for_whole station_name) as (b & r & -> & -> & Hbr).
  replace (IZR b + IZR f * IZR r + INR day * 0.5)
    with (IZR (100 * (b + f * r) + 50 * Z.of_nat day) / 10 ^ 2).
  - apply Number_toFixed_exact. nia.
  - rewrite plus_IZR, !mult_IZR, plus_IZR, mult_IZR, <- INR_IZR_INZ.
    simpl pow. lra.
Qed.
(** The [predicted_temp] column a station adds: a function of its profile
    alone. *)
Lemma process_station_predicted_temp (w : world) (s : Station.row)
    (p : profile) (h : heap) :
  map Prediction.predicted_temp (predictions (snd (process_station w s p h)))
  = map Prediction.predicted_temp (predictions h)
    ++ flat_map
         (fun q => [Number_toFixed 2
                      (baseTemp p + hourFactor (snd q) * tempRange p
                       + INR (fst q) * 0.5)])
         forecast_slots.
Proof.
  rewrite process_station_unfold.
  destruct (station_alerts_frame w s p (snd (forecast w s p (snd (history w s p h)))))
    as [_ ->].
  unfold forecast. rewrite for_each_nested. fold forecast_slots.
  rewrite (for_each_emit
             (fun h' => map Prediction.predicted_temp (predictions h'))
             (fun q => [Number_toFixed 2
                          (baseTemp p + hourFactor (snd q) * tempRange p
                           + INR (fst q) * 0.5)])).
  - now destruct (history_frame w s p h) as [-> _].
  - intros [day hour] h'. cbn [fst snd].
    destruct (prediction_run w s p day hour h') as (row & d' & -> & _ & Ht & _).
    cbn [predictions]. now rewrite map_app, <- Ht.
Qed.

Lemma generate_predicted_temp (w : world) (stationsData : list Station.row) :
  map Prediction.predicted_temp
      (predictions (snd (generate w stationsData empty_heap)))
  = flat_map
      (fun s =>
         flat_map
           (fun q => [Number_toFixed 2
                        (baseTemp (profile_for (Station.name s))
                         + hourFactor (snd q)
                           * tempRange (profile_for (Station.name s))
                         + INR (fst q) * 0.5)])
           forecast_slots)
      stationsData.
Proof.
  unfold generate.
  rewrite (for_each_emit
             (fun h' => map Prediction.predicted_temp (predictions h'))
             (fun s =>
                flat_map
                  (fun q => [Number_toFixed 2
                               (baseTemp (profile_for (Station.name s))
                                + hourFactor (snd q)
                                  * tempRange (profile_for (Station.name s))
                                + INR (fst q) * 0.5)])
                  forecast_slots)).
  - reflexivity.
  - intros s h. apply process_station_predicted_temp.
Qed.

(** C10: the round of the prediction loops for [day] and an [hour] of the
    loop (0, 6, 12, 18) appends a row whose [predicted_temp] is exactly
    [baseTemp + sin(2 pi (hour - 6) / 24) * tempRange + 0.5 * day] for the
    profile the station's name selects, whatever the random source; and two
    runs over the same stations, in worlds [w] and [w'] that may differ in
    every draw, clock reading and reply, produce the same [predicted_temp],
    row by row. *)
Theorem C10_predicted_temp_deterministic (w w' : world)
    (stationsData : list Station.row) (s : Station.row) (station_name : string)
    (day hour : nat) (h : heap)
    (Hhour : In hour every_6_hours) :
  (exists row,
     predictions (snd (prediction w s (profile_for station_name) day hour h))
     = predictions h ++ [row]
     /\ Prediction.predicted_temp row
        = Spec.predicted_temp (profile_for station_name) day hour)
  /\ map Prediction.predicted_temp
         (predictions (snd (generate w stationsData empty_heap)))
     = map Prediction.predicted_temp
           (predictions (snd (generate w' stationsData empty_heap)))
  /\ List.length (predictions (snd (generate w stationsData empty_heap)))
     = List.length (predictions (snd (generate w' stationsData empty_heap))).
Proof.
  assert (Hsame : map Prediction.predicted_temp
                      (predictions (snd (generate w stationsData empty_heap)))
                  = map Prediction.predicted_temp
                        (predictions (snd (generate w' stationsData empty_heap))))
    by now rewrite !generate_predicted_temp.
  split; [| split; [exact Hsame |]].
  - destruct (prediction_run w s (profile_for station_name) day hour h)
      as (row & d' & -> & _ & Ht & _).
    exists row. cbn [predictions]. split; [reflexivity |].
    rewrite Ht, predicted_temp_exact by exact Hhour.
    unfold Spec.predicted_temp. rewrite hourFactor_spec. ring.
  - apply (f_equal (@List.length R)) in Hsame.
    now rewrite !length_map in Hsame.
Qed.

Lemma C10_predicted_temp_deterministic_witness :
  In 18%nat every_6_hours
  /\ exists row,
       predictions
         (snd (prediction (steady 0.5) mumbai_row (profile_for "Nagpur") 4 18
                          empty_heap))
       = predictions empty_heap ++ [row]
       /\ Prediction.predicted_temp row
          = Spec.predicted_temp (profile_for "Nagpur") 4 18.
Proof.
  assert (H : In 18%nat every_6_hours) by (simpl; tauto).
  split; [exact H |].
  exact (proj1 (C10_predicted_temp_deterministic
                  (steady 0.5) (steady 0) five_rows mumbai_row "Nagpur" 4 18
                  empty_heap H)).
Defined.
(** *** The bulk deletes *)

Lemma filter_kept_only {A} (f : A -> uuid) (v : uuid) (l : list A) :
  Forall (fun r => f r = v) (filter (fun r => kept v (f r)) l).
Proof.
  apply Forall_forall. intros r Hr. apply filter_In in Hr.
  destruct Hr as [_ Hr]. now apply String.eqb_eq in Hr.
Qed.


Lemma cascade_Forall {A} (P : stored A -> Prop) (station_id : A -> uuid)
    (gone : list Station.row) (l : list (stored A)) :
  Forall P l -> Forall P (cascade station_id gone l).
Proof.
  intros Hl. apply Forall_forall. intros r Hr. apply filter_In in Hr.
  rewrite Forall_forall in Hl. now apply Hl.
Qed.



End SeedFacts.

(** ** Facts about the dashboard's fetch functions *)

Module DashboardFacts.

Import Dashboard DashboardProps.

(** A failed station-list fetch is logged and shown as a toast; the list and
    the selection stay as they were. *)
Lemma loadStations_failure (r : reply (list Station)) (s : state) (e : string) :
  error r = Some e ->
  snd (loadStations r s)
  = [console_error "Error loading stations:";
     toast_error "Failed to load weather stations"]
  /\ stations (fst (loadStations r s)) = stations s
  /\ selectedStation (fst (loadStations r s)) = selectedStation s
  /\ currentWeather (fst (loadStations r s)) = currentWeather s.
Proof. intros He. unfold loadStations. rewrite He. repeat split. Qed.

(** A failed current-weather fetch is logged, and nothing else: the state is
    the one before, and no toast is shown. *)
Lemma loadCurrentWeather_failure (r : reply CurrentWeather) (s : state)
    (e : string) :
  error r = Some e ->
  loadCurrentWeather r s = (s, [console_error "Error loading current weather:"]).
Proof. intros He. unfold loadCurrentWeather. now rewrite He. Qed.

(** C7: on the dashboard that shows Pune, a failing station-list fetch is
    logged and surfaced as a toast, the list and selection left as they were;
    a failing current-weather fetch leaves the reading as it was and is
    logged, but no toast is shown for it. *)
Theorem C7_current_weather_failure_silent :
  (snd (loadStations failed_query showing_pune)
   = [console_error "Error loading stations:";
      toast_error "Failed to load weather stations"]
   /\ stations (fst (loadStations failed_query showing_pune))
      = stations showing_pune
   /\ selectedStation (fst (loadStations failed_query showing_pune))
      = selectedStation showing_pune)
  /\ fst (loadCurrentWeather failed_query showing_pune) = showing_pune
  /\ snd (loadCurrentWeather failed_query showing_pune)
     = [console_error "Error loading current weather:"]
  /\ existsb is_toast (snd (loadCurrentWeather failed_query showing_pune))
     = false.
Proof.
  destruct (loadStations_failure failed_query showing_pune "JWT expired" eq_refl)
    as (Hlog & Hst & Hsel & _).
  rewrite (loadCurrentWeather_failure failed_query showing_pune "JWT expired" eq_refl).
  repeat split; assumption.
Qed.

End DashboardFacts.

(** ** Further facts about the seed function *)

Module SeedExtra.

Import Js Seed Props MoreProps JsFacts SeedFacts.

Lemma observation_fields (w : world) (s : Station.row) (p : profile)
    (day hour : nat) (h : heap) :
  exists row d',
    snd (observation w s p day hour h)
    = {| weatherData := weatherData h ++ [row];
         predictions := predictions h; alerts := alerts h;
         draws := d'; ticks := S (ticks h) |}
    /\ Observation.station_id row = Station.id s
    /\ (exists r, drawn w r /\
          Observation.temperature row
          = Number_toFixed 2 (baseTemp p + hourFactor hour * tempRange p
                              + (r - 0.5) * 2))
    /\ (exists r, drawn w r /\
          Observation.humidity row
          = Number_toFixed 2
              (Math_max 20 (Math_min 95 (humidityBase p hour + (r - 0.5) * 10))))
    /\ (Observation.precipitation row = Number_toFixed 2 0 \/
        exists r, drawn w r /\
          Observation.precipitation row = Number_toFixed 2 (r * 15 + 2))
    /\ (exists r1 r2, drawn w r1 /\ drawn w r2 /\
          Observation.wind_speed row
          = Number_toFixed 2
              (Math_max (min (windSpeed p)
                         + (max (windSpeed p) - min (windSpeed p)) * r1
                         + (r2 - 0.5) * 5) 0))
    /\ (exists r, drawn w r /\
          Observation.pressure row
          = Number_toFixed 2 (1010 + sin (INR day / 7 * PI) * 8 + (r - 0.5) * 5)).
Proof.
  unfold observation, bind, Date_now, Math_random, push_weatherData, ret, drawn.
  simpl.
  destruct (Rlt_dec (random w (S (S (draws h)))) (rainProbability p));
    simpl; do 2 eexists; (split; [reflexivity |]); simpl;
    repeat split; eauto 8.
Qed.

Lemma prediction_fields (w : world) (s : Station.row) (p : profile)
    (day hour : nat) (h : heap) :
  exists row d',
    snd (prediction w s p day hour h)
    = {| weatherData := weatherData h;
         predictions := predictions h ++ [row]; alerts := alerts h;
         draws := d'; ticks := S (ticks h) |}
    /\ Prediction.station_id row = Station.id s
    /\ Prediction.prediction_date row = pred_stamp w (ticks h) (day, hour)
    /\ Prediction.predicted_temp row
       = Number_toFixed 2 (baseTemp p + hourFactor hour * tempRange p
                           + INR day * 0.5)
    /\ (exists r, drawn w r /\
          Prediction.predicted_humidity row
          = Number_toFixed 2
              (Math_max 20 (Math_min 95 (humidityBase p hour + (r - 0.5) * 8))))
    /\ (Prediction.predicted_precipitation row = Number_toFixed 2 0 \/
        exists r, drawn w r /\
          Prediction.predicted_precipitation row = Number_toFixed 2 (r * 8 + 1))
    /\ (exists r, drawn w r /\
          Prediction.confidence row
          = Number_toFixed 2
              (Math_max 75 (Math_min 98 (95 - INR day * 3 + (r - 0.5) * 4)))).
Proof.
  unfold prediction, bind, Date_now, Math_random, push_predictions, ret, drawn.
  simpl.
  destruct (Rlt_dec (random w (S (draws h))) (rainProbability p * 0.8));
    simpl; do 2 eexists; (split; [reflexivity |]); simpl;
    repeat split; eauto 8.
Qed.
(** *** Row counts and the grouping by station *)

Lemma flat_map_singleton_const {A B} (b : B) (l : list A) :
  flat_map (fun _ => [b]) l = repeat b (List.length l).
Proof. induction l as [| x l IH]; simpl; [reflexivity | now rewrite IH]. Qed.

Lemma process_station_predictions (w : world) (s : Station.row) (p : profile)
    (h : heap) :
  predictions (snd (process_station w s p h))
  = predictions (snd (forecast w s p (snd (history w s p h)))).
Proof.
  rewrite process_station_unfold.
  now destruct (station_alerts_frame w s p
                  (snd (forecast w s p (snd (history w s p h))))) as [_ ->].
Qed.

(** The [station_id] column a station adds to [weatherData]. *)
Lemma process_station_data_ids (w : world) (s : Station.row) (p : profile)
    (h : heap) :
  map Observation.station_id (weatherData (snd (process_station w s p h)))
  = map Observation.station_id (weatherData h) ++ repeat (Station.id s) 192.
Proof.
  rewrite process_station_weatherData. unfold history.
  rewrite for_each_nested. fold history_slots.
  rewrite (for_each_emit
             (fun h' => map Observation.station_id (weatherData h'))
             (fun _ => [Station.id s])).
  - now rewrite flat_map_singleton_const.
  - intros [day hour] h'. cbn [fst snd].
    destruct (observation_fields w s p day hour h') as (row & d' & -> & Hid & _).
    cbn [weatherData]. now rewrite map_app, <- Hid.
Qed.

(** The [station_id] column a station adds to [predictions]. *)
Lemma process_station_prediction_ids (w : world) (s : Station.row)
    (p : profile) (h : heap) :
  map Prediction.station_id (predictions (snd (process_station w s p h)))
  = map Prediction.station_id (predictions h) ++ repeat (Station.id s) 20.
Proof.
  rewrite process_station_predictions. unfold forecast.
  rewrite for_each_nested. fold forecast_slots.
  rewrite (for_each_emit
             (fun h' => map Prediction.station_id (predictions h'))
             (fun _ => [Station.id s])).
  - rewrite flat_map_singleton_const.
    now destruct (history_frame w s p h) as [-> _].
  - intros [day hour] h'. cbn [fst snd].
    destruct (prediction_fields w s p day hour h') as (row & d' & -> & Hid & _).
    cbn [predictions]. now rewrite map_app, <- Hid.
Qed.

Lemma length_flat_map_repeat {A B} (f : A -> B) (k : nat) (l : list A) :
  List.length (flat_map (fun x => repeat (f x) k) l) = (k * List.length l)%nat.
Proof.
  induction l as [| x l IH]; simpl; [lia |].
  rewrite length_app, repeat_length, IH. lia.
Qed.

(** X1: in a run over any list of stations the rows come grouped by station,
    in the order of the list: the [station_id] column of [weatherData] is 192
    times the id of the first station, then 192 times that of the second, and
    so on, and the one of [predictions] likewise with 20 (5 days times 4
    hours) per station; so there are [192 n] observations and [20 n]
    predictions for [n] stations, each referring to a station of the list. *)
Theorem X1_rows_grouped_by_station (w : world) (stationsData : list Station.row) :
  map Observation.station_id
      (weatherData (snd (generate w stationsData empty_heap)))
  = flat_map (fun s => repeat (Station.id s) 192) stationsData
  /\ map Prediction.station_id
         (predictions (snd (generate w stationsData empty_heap)))
     = flat_map (fun s => repeat (Station.id s) 20) stationsData
  /\ List.length (weatherData (snd (generate w stationsData empty_heap)))
     = (192 * List.length stationsData)%nat
  /\ List.length (predictions (snd (generate w stationsData empty_heap)))
     = (20 * List.length stationsData)%nat
  /\ Forall (fun r => In (Observation.station_id r) (map Station.id stationsData))
            (weatherData (snd (generate w stationsData empty_heap)))
  /\ Forall (fun r => In (Prediction.station_id r) (map Station.id stationsData))
            (predictions (snd (generate w stationsData empty_heap))).
Proof.
  assert (Hd : map Observation.station_id
                 (weatherData (snd (generate w stationsData empty_heap)))
               = flat_map (fun s => repeat (Station.id s) 192) stationsData).
  { unfold generate.
    rewrite (for_each_emit
               (fun h' => map Observation.station_id (weatherData h'))
               (fun s => repeat (Station.id s) 192)); [reflexivity |].
    intros s h. apply process_station_data_ids. }
  assert (Hp : map Prediction.station_id
                 (predictions (snd (generate w stationsData empty_heap)))
               = flat_map (fun s => repeat (Station.id s) 20) stationsData).
  { unfold generate.
    rewrite (for_each_emit
               (fun h' => map Prediction.station_id (predictions h'))
               (fun s => repeat (Station.id s) 20)); [reflexivity |].
    intros s h. apply process_station_prediction_ids. }
  assert (Hin : forall k i,
            In i (flat_map (fun s => repeat (Station.id s) k) stationsData) ->
            In i (map Station.id stationsData)).
  { intros k i Hi. apply in_flat_map in Hi. destruct Hi as (s & Hs & Hi).
    apply repeat_spec in Hi. subst i. now apply in_map. }
  split; [exact Hd |]. split; [exact Hp |].
  split; [| split; [| split]].
  - rewrite <- (length_map Observation.station_id), Hd.
    apply length_flat_map_repeat.
  - rewrite <- (length_map Prediction.station_id), Hp.
    apply length_flat_map_repeat.
  - apply Forall_forall. intros r Hr. apply (Hin 192%nat). rewrite <- Hd.
    now apply in_map.
  - apply Forall_forall. intros r Hr. apply (Hin 20%nat). rewrite <- Hp.
    now apply in_map.
Qed.
(** *** The alerts of a station *)

(** [station_alerts] pushes [pushed_alerts], the coin being the draw at the
    read position it starts from, and touches nothing else but that
    position. *)
Lemma station_alerts_pushed (w : world) (s : Station.row) (p : profile)
    (h : heap) :
  exists d',
    snd (station_alerts w s p h)
    = {| weatherData := weatherData h; predictions := predictions h;
         alerts := alerts h
                   ++ pushed_alerts s p (gt (random w (draws h)) 0.5);
         draws := d'; ticks := ticks h |}.
Proof.
  unfold station_alerts, pushed_alerts. cbv zeta.
  rewrite !snd_bind, !when_push_alerts.
  cbn [alerts weatherData predictions draws ticks].
  destruct (gt (max (humidity p)) 75).
  - rewrite snd_bind, when_push_alerts.
    cbn [Math_random fst snd alerts weatherData predictions draws ticks andb].
    eexists. apply f_equal3; try reflexivity. now rewrite <- !app_assoc.
  - cbn [ret snd andb]. exists (draws h).
    apply f_equal3; try reflexivity. now rewrite <- !app_assoc, app_nil_r.
Qed.

Lemma process_station_pushed (w : world) (s : Station.row) (p : profile)
    (h : heap) :
  exists k,
    alerts (snd (process_station w s p h))
    = alerts h ++ pushed_alerts s p (gt (random w k) 0.5).
Proof.
  rewrite process_station_unfold.
  destruct (station_alerts_pushed w s p
              (snd (forecast w s p (snd (history w s p h))))) as (d' & ->).
  eexists. cbn [alerts].
  destruct (forecast_frame w s p (snd (history w s p h))) as [_ ->].
  destruct (history_frame w s p h) as [_ ->]. reflexivity.
Qed.

(** The same with the position of the coin: [station_alerts] starts where the
    station's prediction loops left the read position. *)
Lemma process_station_pushed_at (w : world) (s : Station.row) (p : profile)
    (h : heap) :
  alerts (snd (process_station w s p h))
  = alerts h
    ++ pushed_alerts s p
         (gt (random w (draws (snd (forecast w s p (snd (history w s p h))))))
             0.5).
Proof.
  rewrite process_station_unfold.
  destruct (station_alerts_pushed w s p
              (snd (forecast w s p (snd (history w s p h))))) as (d' & ->).
  cbn [alerts].
  destruct (forecast_frame w s p (snd (history w s p h))) as [_ ->].
  destruct (history_frame w s p h) as [_ ->]. reflexivity.
Qed.

Ltac no_such_alert :=
  let a := fresh "a" in
  let Ha := fresh "Ha" in
  let Ht := fresh "Ht" in
  intros (a & Ha & Ht); cbn [In] in Ha;
  repeat (destruct Ha as [<- | Ha]); try discriminate Ht; destruct Ha.

Ltac has_alert :=
  first
    [ solve [eexists; split; [cbn [In]; left; reflexivity | reflexivity]]
    | solve [eexists; split; [cbn [In]; right; left; reflexivity | reflexivity]]
    | solve [eexists; split;
             [cbn [In]; right; right; left; reflexivity | reflexivity]]
    | solve [eexists; split;
             [cbn [In]; right; right; right; left; reflexivity | reflexivity]] ].

(** X2: whatever the profile, the alerts a station adds all carry its id, are
    active, and are of the four types, each at most once (so at most four);
    a "Heavy Rainfall Alert" is among them if and only if
    [rainProbability > 0.22], a "Strong Wind Advisory" if and only if
    [windSpeed.max > 30], and a "High Humidity Alert" if and only if
    [humidity.max > 75] and the coin exceeds 0.5, the coin being the
    [Math.random()] read right after the station's predictions, at the read
    position the prediction loops leave; the first two have severity
    medium, the last severity low. *)
Theorem X2_station_alerts (w : world) (s : Station.row) (p : profile) (h : heap) :
  exists new,
    alerts (snd (process_station w s p h)) = alerts h ++ new
    /\ Forall (fun a => Alert.station_id a = Station.id s /\
                        Alert.is_active a = true /\
                        In (Alert.alert_type a) alert_types) new
    /\ NoDup (map Alert.alert_type new)
    /\ (List.length new <= 4)%nat
    /\ ((exists a, In a new /\ Alert.alert_type a = "Heavy Rainfall Alert"%string)
        <-> rainProbability p > 0.22)
    /\ ((exists a, In a new /\ Alert.alert_type a = "Strong Wind Advisory"%string)
        <-> max (windSpeed p) > 30)
    /\ ((exists a, In a new /\ Alert.alert_type a = "High Humidity Alert"%string)
        <-> max (humidity p) > 75 /\
            random w (draws (snd (forecast w s p (snd (history w s p h)))))
            > 0.5)
    /\ Forall (fun a =>
                 (Alert.alert_type a = "Heavy Rainfall Alert"%string ->
                  Alert.severity a = medium) /\
                 (Alert.alert_type a = "Strong Wind Advisory"%string ->
                  Alert.severity a = medium) /\
                 (Alert.alert_type a = "High Humidity Alert"%string ->
                  Alert.severity a = low)) new.
Proof.
  pose proof (process_station_pushed_at w s p h) as Hrun.
  set (k := draws (snd (forecast w s p (snd (history w s p h))))) in *.
  exists (pushed_alerts s p (gt (random w k) 0.5)).
  split; [exact Hrun |]. clear Hrun.
  unfold pushed_alerts, alert_types.
  destruct (gt (baseTemp p) 38) eqn:Eheat;
  destruct (gt (rainProbability p) 0.22) eqn:Erain;
  destruct (gt (max (windSpeed p)) 30) eqn:Ewind;
  destruct (gt (max (humidity p)) 75) eqn:Ehum;
  destruct (gt (random w k) 0.5) eqn:Ecoin;
  cbn [app andb].
  all: rewrite ?gt_true, ?gt_false in *.
  all: (split;
        [solve [repeat (apply Forall_cons;
                        [split; [reflexivity
                                | split; [reflexivity
                                         | cbv [In Alert.alert_type]; auto 8]] |]);
                apply Forall_nil] |]).
  all: (split;
        [solve [cbv [map Alert.alert_type];
                repeat (apply NoDup_cons;
                        [cbn [In]; intros Hin;
                         repeat (destruct Hin as [Hin | Hin]; [discriminate Hin |]);
                         exact Hin |]); apply NoDup_nil] |]).
  all: (split; [solve [cbn [List.length]; lia] |]).
  all: (split; [split; [first [intros _; assumption | no_such_alert]
                       | first [intros _; has_alert | intros Hc; contradiction]] |]).
  all: (split; [split; [first [intros _; assumption | no_such_alert]
                       | first [intros _; has_alert | intros Hc; contradiction]] |]).
  all: (split; [split; [first [intros _; split; assumption | no_such_alert]
                       | first [intros _; has_alert
                               | intros [Hc1 Hc2]; contradiction]] |]).
  all: repeat (apply Forall_cons;
               [cbn [Alert.alert_type Alert.severity];
                repeat split; intros Ht; first [reflexivity | discriminate Ht] |]).
  all: apply Forall_nil.
Qed.
(** *** The alerts the table's profiles give rise to *)

Lemma gt_eval_true (a b : R) : a > b -> gt a b = true.
Proof. apply gt_true. Qed.

Lemma gt_eval_false (a b : R) : ~ a > b -> gt a b = false.
Proof. apply gt_false. Qed.

Ltac eval_gt :=
  repeat first
    [ rewrite gt_eval_true by (cbn [baseTemp rainProbability windSpeed humidity max]; lra)
    | rewrite gt_eval_false by (cbn [baseTemp rainProbability windSpeed humidity max]; lra) ].

Lemma pushed_alerts_types (s : Station.row) (coin : bool) :
  map Alert.alert_type (pushed_alerts s (profile_for (Station.name s)) coin)
  = if String.eqb (Station.name s) "Mumbai"
    then ["Heavy Rainfall Alert"; "Strong Wind Advisory"]%string
         ++ (if coin then ["High Humidity Alert"%string] else [])
    else [].
Proof.
  unfold profile_for, climateProfiles.
  destruct (String.eqb (Station.name s) "Mumbai").
  - unfold pushed_alerts, Mumbai. eval_gt. now destruct coin.
  - repeat (destruct (String.eqb (Station.name s) _));
      unfold pushed_alerts, Pune, Alandi, Sangamner, Nagpur; eval_gt;
      reflexivity.
Qed.

(** X3: with the profiles of the table a station gets alerts only if its
    name is "Mumbai": then a "Heavy Rainfall Alert" and a "Strong Wind
    Advisory", in this order, followed by a "High Humidity Alert" when the
    coin exceeds 0.5, the coin being the [Math.random()] read right after
    the station's predictions; a station of any other name, the
    unrecognized ones included, gets none. *)
Theorem X3_only_mumbai_alerts (w : world) (s : Station.row) (h : heap) :
  exists new,
    alerts (snd (process_station w s (profile_for (Station.name s)) h))
    = alerts h ++ new
    /\ map Alert.alert_type new
       = (if String.eqb (Station.name s) "Mumbai"
          then ["Heavy Rainfall Alert"; "Strong Wind Advisory"]%string
               ++ (if gt (random w
                            (draws
                               (snd (forecast w s (profile_for (Station.name s))
                                       (snd (history w s
                                               (profile_for (Station.name s))
                                               h))))))
                         0.5
                   then ["High Humidity Alert"%string] else [])
          else [])
    /\ (Station.name s <> "Mumbai"%string -> new = []).
Proof.
  pose proof (process_station_pushed_at w s (profile_for (Station.name s)) h)
    as Hrun.
  set (k := draws (snd (forecast w s (profile_for (Station.name s))
                          (snd (history w s (profile_for (Station.name s)) h)))))
    in *.
  eexists. split; [exact Hrun |].
  split; [apply pushed_alerts_types |].
  intros Hname. apply String.eqb_neq in Hname.
  pose proof (pushed_alerts_types s (gt (random w k) 0.5)) as Ht.
  rewrite Hname in Ht. now apply map_eq_nil in Ht.
Qed.
Lemma process_station_other_name (w : world) (s : Station.row) (h : heap) :
  Station.name s <> "Mumbai"%string ->
  alerts (snd (process_station w s (profile_for (Station.name s)) h)) = alerts h.
Proof.
  intros Hname.
  destruct (process_station_pushed w s (profile_for (Station.name s)) h)
    as (k & ->).
  pose proof (pushed_alerts_types s (gt (random w k) 0.5)) as Ht.
  apply String.eqb_neq in Hname. rewrite Hname in Ht.
  apply map_eq_nil in Ht. rewrite Ht. apply app_nil_r.
Qed.

Lemma pushed_alerts_station (s : Station.row) (p : profile) (coin : bool) :
  Forall (fun a => Alert.station_id a = Station.id s) (pushed_alerts s p coin).
Proof.
  unfold pushed_alerts.
  repeat (apply Forall_app; split);
    match goal with
    | |- Forall _ (if ?c then _ else _) => destruct c
    end; repeat constructor.
Qed.

(** X4: when the store returns the five stations under the names of the
    [stations] literal, a run raises alerts for the first of them, Mumbai,
    only: two or three, the first a "Heavy Rainfall Alert", the second a
    "Strong Wind Advisory"; [alerts] is therefore never empty, and when the
    inserts of the observations and of the predictions succeed the handler
    goes on to ask for the insert of the alerts. *)
Theorem X4_seeded_alerts (w : world) (method : string)
    (stationsData : list Station.row)
    (Hmethod : String.eqb method "OPTIONS" = false)
    (Hnames : map Station.name stationsData = map in_name stations)
    (Hstations : stations_reply w = inr stationsData)
    (Hdata : data_reply w = None)
    (Hpredictions : predictions_reply w = None) :
  (exists first rest k,
     stationsData = first :: rest
     /\ map Alert.alert_type (alerts (snd (generate w stationsData empty_heap)))
        = ["Heavy Rainfall Alert"; "Strong Wind Advisory"]%string
          ++ (if gt (random w k) 0.5 then ["High Humidity Alert"%string] else [])
     /\ Forall (fun a => Alert.station_id a = Station.id first)
               (alerts (snd (generate w stationsData empty_heap))))
  /\ (2 <= List.length (alerts (snd (generate w stationsData empty_heap))) <= 3)%nat
  /\ In (insert_weather_alerts (alerts (snd (generate w stationsData empty_heap))))
        (snd (serve w method)).
Proof.
  assert (Hshape : exists first rest k,
     stationsData = first :: rest
     /\ map Alert.alert_type (alerts (snd (generate w stationsData empty_heap)))
        = ["Heavy Rainfall Alert"; "Strong Wind Advisory"]%string
          ++ (if gt (random w k) 0.5 then ["High Humidity Alert"%string] else [])
     /\ Forall (fun a => Alert.station_id a = Station.id first)
               (alerts (snd (generate w stationsData empty_heap)))).
  { destruct stationsData as [| s1 [| s2 [| s3 [| s4 [| s5 [| s6 rest]]]]]];
      try discriminate Hnames.
    cbn [map stations in_name] in Hnames.
    injection Hnames as H1 H2 H3 H4 H5.
    exists s1, [s2; s3; s4; s5].
    unfold generate. rewrite !for_each_cons. cbn [for_each ret snd].
    rewrite (process_station_other_name w s5) by (rewrite H5; discriminate).
    rewrite (process_station_other_name w s4) by (rewrite H4; discriminate).
    rewrite (process_station_other_name w s3) by (rewrite H3; discriminate).
    rewrite (process_station_other_name w s2) by (rewrite H2; discriminate).
    destruct (process_station_pushed w s1 (profile_for (Station.name s1)) empty_heap)
      as (k & ->).
    exists k. cbn [alerts empty_heap app]. split; [reflexivity |]. split.
    - rewrite pushed_alerts_types, H1. reflexivity.
    - apply pushed_alerts_station. }
  assert (Hlen : (2 <= List.length (alerts (snd (generate w stationsData empty_heap)))
                  <= 3)%nat).
  { destruct Hshape as (first & rest & k & _ & Ht & _).
    apply (f_equal (@List.length string)) in Ht. rewrite length_map in Ht.
    rewrite Ht. destruct (gt (random w k) 0.5); cbn [app List.length]; lia. }
  split; [exact Hshape |]. split; [exact Hlen |].
  unfold serve. rewrite Hmethod, Hstations, Hdata, Hpredictions. cbv zeta.
  replace (0 <? List.length (alerts (snd (generate w stationsData empty_heap))))%nat
    with true by (symmetry; apply Nat.ltb_lt; lia).
  destruct (alerts_reply w); unfold caught; cbn [snd];
    rewrite !in_app_iff; cbn [In]; tauto.
Qed.

Lemma X4_seeded_alerts_witness :
  String.eqb "POST" "OPTIONS" = false
  /\ map Station.name five_rows = map in_name stations
  /\ stations_reply (steady 0.5) = inr five_rows
  /\ data_reply (steady 0.5) = None
  /\ predictions_reply (steady 0.5) = None
  /\ (2 <= List.length (alerts (snd (generate (steady 0.5) five_rows empty_heap)))
      <= 3)%nat.
Proof.
  repeat (split; [reflexivity |]).
  exact (proj1 (proj2 (X4_seeded_alerts (steady 0.5) "POST" five_rows
                         eq_refl eq_refl eq_refl eq_refl eq_refl))).
Defined.
(** *** Replies and rejected inserts *)

(** X5: an invocation other than the preflight answers 200 exactly when the
    store accepts every insert the handler gets to (the one of the alerts
    counting only when there are alerts), and then with these counts: the
    number of station rows the store returned and the lengths of
    [weatherData], [predictions] and [alerts] as generated for them;
    otherwise it answers
    500 with the message of the first rejection (or "Unknown error occurred"
    when that is not an [Error]), logs that rejection once, as its last
    effect, and asks nothing more of the store. *)
Theorem X5_reply (w : world) (method : string)
    (Hmethod : String.eqb method "OPTIONS" = false) :
  match first_rejection w with
  | None =>
    (exists stationsData,
       stations_reply w = inr stationsData
       /\ fst (serve w method)
          = {| status := 200;
               body := seeded
                 {| stat_stations := List.length stationsData;
                    stat_dataPoints :=
                      List.length
                        (weatherData (snd (generate w stationsData empty_heap)));
                    stat_predictions :=
                      List.length
                        (predictions (snd (generate w stationsData empty_heap)));
                    stat_alerts :=
                      List.length
                        (alerts (snd (generate w stationsData empty_heap))) |} |})
    /\ existsb is_console_error (snd (serve w method)) = false
  | Some e =>
    fst (serve w method) = {| status := 500; body := failed (error_text e) |}
    /\ exists log,
         snd (serve w method)
         = log ++ [console_error "Error seeding weather data:" e]
         /\ existsb is_console_error log = false
  end.
Proof.
  unfold first_rejection, serve, caught, error_text. rewrite Hmethod. cbv zeta.
  destruct (stations_reply w) as [e | stationsData];
    [| destruct (data_reply w);
       [| destruct (predictions_reply w);
          [| destruct (0 <? _)%nat; [destruct (alerts_reply w) |]]]];
    cbn [fst snd status body];
    try (split; [reflexivity |]; eexists; split; [reflexivity |]);
    try (split; [eexists; split; reflexivity |]);
    rewrite ?existsb_app; cbn [map purge fst snd existsb is_console_error orb];
    reflexivity.
Qed.

Lemma X5_reply_witness :
  String.eqb "POST" "OPTIONS" = false
  /\ fst (serve stations_rejected "POST")
     = {| status := 500; body := failed "permission denied" |}.
Proof.
  split; [reflexivity |].
  exact (proj1 (X5_reply stations_rejected "POST" eq_refl)).
Defined.
Ltac effect_cases Hin :=
  repeat (apply in_app_or in Hin; destruct Hin as [Hin | Hin]);
  cbn [In] in Hin;
  repeat match goal with
         | H : _ \/ _ |- _ => destruct H as [H | H]
         | H : False |- _ => destruct H
         | H : insert_weather_data _ = insert_weather_data _ |- _ =>
             injection H as <-
         | H : insert_weather_predictions _ = insert_weather_predictions _ |- _ =>
             injection H as <-
         | H : insert_weather_alerts _ = insert_weather_alerts _ |- _ =>
             injection H as <-
         | H : _ = insert_weather_data _ |- _ => discriminate H
         | H : _ = insert_weather_predictions _ |- _ => discriminate H
         | H : _ = insert_weather_alerts _ |- _ => discriminate H
         end.

(** X6: the handler sends what it generated for the stations the store
    returned, and each insert only after the ones before it were accepted:
    the observations only when the stations were inserted, the predictions
    only when the observations were accepted too, the alerts only when both
    were and there is at least one alert.  Nothing is undone when a later
    insert is rejected: after the first four effects no delete is asked. *)
Theorem X6_inserts_in_sequence (w : world) (method : string) :
  (forall rows, In (insert_weather_data rows) (snd (serve w method)) ->
     exists stationsData,
       stations_reply w = inr stationsData /\
       rows = weatherData (snd (generate w stationsData empty_heap)))
  /\ (forall rows, In (insert_weather_predictions rows) (snd (serve w method)) ->
        data_reply w = None /\
        exists stationsData,
          stations_reply w = inr stationsData /\
          rows = predictions (snd (generate w stationsData empty_heap)))
  /\ (forall rows, In (insert_weather_alerts rows) (snd (serve w method)) ->
        data_reply w = None /\ predictions_reply w = None /\ rows <> [])
  /\ existsb is_delete (skipn 4 (snd (serve w method))) = false.
Proof.
  unfold serve, caught. cbv zeta.
  destruct (String.eqb method "OPTIONS").
  { cbn [snd In skipn existsb].
    split; [intros rows [] | split; [intros rows [] | split; [intros rows [] | reflexivity]]]. }
  destruct (stations_reply w) as [e | stationsData];
    [| destruct (data_reply w);
       [| destruct (predictions_reply w);
          [| destruct (0 <? List.length
                              (alerts (snd (generate w stationsData empty_heap))))%nat
               eqn:Hlen;
             [destruct (alerts_reply w) |]]]];
    cbn [snd map purge fst app].
  all: split; [intros rows Hin; effect_cases Hin; eauto |].
  all: split; [intros rows Hin; effect_cases Hin; eauto |].
  all: split;
    [intros rows Hin; effect_cases Hin;
     repeat split; try reflexivity;
     intros Hnil; rewrite Hnil in Hlen; discriminate Hlen |].
  all: cbn [skipn]; rewrite ?existsb_app;
    cbn [existsb is_delete orb]; reflexivity.
Qed.
(** *** The dates of the predictions *)

Lemma history_ticks (w : world) (s : Station.row) (p : profile) (h : heap) :
  ticks (snd (history w s p h)) = (ticks h + 192)%nat.
Proof.
  unfold history. rewrite (for_each_count ticks 24); [reflexivity |].
  intros day h1. rewrite (for_each_count ticks 1); [reflexivity |].
  intros hour h2.
  destruct (observation_fields w s p day hour h2) as (row & d' & -> & _).
  cbn [ticks]. lia.
Qed.

Lemma forecast_slots_length : List.length forecast_slots = 20%nat.
Proof. reflexivity. Qed.

(** The [i]-th pair of the prediction loops lies [6 i] hours ahead. *)
Lemma forecast_slots_offset (i : nat) :
  (i < 20)%nat ->
  (Z.of_nat (fst (nth i forecast_slots (O, O))) * 24
   + Z.of_nat (snd (nth i forecast_slots (O, O))) = 6 * Z.of_nat i)%Z.
Proof.
  intros Hi.
  assert (Hall : Forall (fun i => (Z.of_nat (fst (nth i forecast_slots (O, O))) * 24
                           + Z.of_nat (snd (nth i forecast_slots (O, O)))
                           = 6 * Z.of_nat i)%Z) (seq 0 20)).
  { repeat (constructor; [reflexivity |]). constructor. }
  rewrite Forall_forall in Hall. apply Hall. apply in_seq. lia.
Qed.

Lemma forecast_rows (w : world) (s : Station.row) (p : profile) (h : heap) :
  exists rows,
    predictions (snd (forecast w s p h)) = predictions h ++ rows /\
    Forall2
      (fun q row => Prediction.prediction_date row = pred_stamp w (fst q) (snd q))
      (combine (seq (ticks h) (List.length forecast_slots)) forecast_slots) rows.
Proof.
  unfold forecast. rewrite for_each_nested. fold forecast_slots.
  destruct (for_each_rows predictions ticks
              (fun i q row => Prediction.prediction_date row = pred_stamp w i q)
              forecast_slots
              (fun q => prediction w s p (fst q) (snd q))) with (h := h)
    as (rows & Hout & _ & Hrows).
  - intros [day hour] h'. cbn [fst snd].
    destruct (prediction_fields w s p day hour h')
      as (row & d' & -> & _ & Hdate & _).
    exists row. cbn [predictions ticks]. repeat split. exact Hdate.
  - exists rows. split; [exact Hout | exact Hrows].
Qed.

(** X7: the 20 predictions of a station are dated six hours apart from the
    moment they are generated: the [i]-th carries the reading of
    [Date.now()] taken for it (the 192 readings of the station's history
    come first) plus [6 i] hours, from 0 to 114 hours ahead; no date lies
    before its reading, and when the clock never runs backwards the dates
    strictly increase. *)
Theorem X7_prediction_dates (w : world) (s : Station.row) (p : profile)
    (h : heap)
    (Hclock : forall i j, (i <= j)%nat -> (now w i <= now w j)%Z) :
  exists rows,
    predictions (snd (process_station w s p h)) = predictions h ++ rows
    /\ List.length rows = 20%nat
    /\ (forall d i, (i < 20)%nat ->
          Prediction.prediction_date (nth i rows d)
          = (now w (ticks h + 192 + i) + 6 * Z.of_nat i * 3600000)%Z)
    /\ (forall d i, (i < 20)%nat ->
          (now w (ticks h + 192 + i)
           <= Prediction.prediction_date (nth i rows d))%Z)
    /\ (forall d i j, (i < j < 20)%nat ->
          (Prediction.prediction_date (nth i rows d)
           < Prediction.prediction_date (nth j rows d))%Z).
Proof.
  rewrite process_station_predictions.
  destruct (forecast_rows w s p (snd (history w s p h))) as (rows & Hout & Hrows).
  rewrite history_ticks in Hrows.
  destruct (history_frame w s p h) as [Hp _]. rewrite Hp in Hout.
  exists rows.
  assert (Hlen : List.length rows = 20%nat).
  { apply Forall2_length in Hrows.
    rewrite <- Hrows, length_combine, length_seq, forecast_slots_length.
    reflexivity. }
  assert (Hnth : forall d i, (i < 20)%nat ->
            Prediction.prediction_date (nth i rows d)
            = (now w (ticks h + 192 + i) + 6 * Z.of_nat i * 3600000)%Z).
  { intros d i Hi.
    pose proof (Forall2_nth_rel _ _ _ (O, (O, O)) d Hrows i) as Hr.
    assert (Hlt : (i < List.length
                      (combine (seq (ticks h + 192) (List.length forecast_slots))
                               forecast_slots))%nat)
      by (rewrite length_combine, length_seq, forecast_slots_length; simpl; lia).
    specialize (Hr Hlt).
    rewrite combine_seq_nth in Hr by (rewrite forecast_slots_length; lia).
    cbn [fst snd] in Hr. rewrite Hr. unfold pred_stamp.
    now rewrite forecast_slots_offset. }
  split; [exact Hout |]. split; [exact Hlen |]. split; [exact Hnth |]. split.
  - intros d i Hi. rewrite Hnth by exact Hi. lia.
  - intros d i j Hij. rewrite !Hnth by lia.
    specialize (Hclock (ticks h + 192 + i)%nat (ticks h + 192 + j)%nat ltac:(lia)).
    lia.
Qed.

Lemma X7_prediction_dates_witness :
  (forall i j, (i <= j)%nat -> (now (steady 0.5) i <= now (steady 0.5) j)%Z)
  /\ exists rows,
       predictions (snd (process_station (steady 0.5) mumbai_row Mumbai empty_heap))
       = predictions empty_heap ++ rows
       /\ List.length rows = 20%nat
       /\ (forall d i, (i < 20)%nat ->
             Prediction.prediction_date (nth i rows d)
             = (now (steady 0.5) (ticks empty_heap + 192 + i)
                + 6 * Z.of_nat i * 3600000)%Z)
       /\ (forall d i, (i < 20)%nat ->
             (now (steady 0.5) (ticks empty_heap + 192 + i)
              <= Prediction.prediction_date (nth i rows d))%Z)
       /\ (forall d i j, (i < j < 20)%nat ->
             (Prediction.prediction_date (nth i rows d)
              < Prediction.prediction_date (nth j rows d))%Z).
Proof.
  assert (H : forall i j, (i <= j)%nat ->
                (now (steady 0.5) i <= now (steady 0.5) j)%Z).
  { intros i j Hij. unfold steady. cbn [now]. lia. }
  split; [exact H |].
  exact (X7_prediction_dates (steady 0.5) mumbai_row Mumbai empty_heap H).
Defined.
(** *** The ranges of the values generated from the table *)

Lemma Number_toFixed_2_between (a b : Z) (x : R) :
  (0 <= a)%Z -> IZR a / 100 <= x <= IZR b / 100 ->
  IZR a / 100 <= Number_toFixed 2 x <= IZR b / 100.
Proof.
  intros Ha [Hlo Hhi].
  assert (H0 : 0 <= IZR a / 100).
  { apply IZR_le in Ha. lra. }
  replace 100 with (10 ^ 2) in * by (simpl; lra).
  split.
  - now apply Number_toFixed_lower.
  - apply Number_toFixed_upper; lra.
Qed.

Lemma profile_for_bounds (station_name : string) :
  21 <= baseTemp (profile_for station_name) - tempRange (profile_for station_name)
  /\ baseTemp (profile_for station_name) + tempRange (profile_for station_name) <= 41
  /\ 0 <= tempRange (profile_for station_name)
  /\ 35 <= min (humidity (profile_for station_name))
  /\ min (humidity (profile_for station_name))
     <= max (humidity (profile_for station_name)) <= 85
  /\ 5 <= min (windSpeed (profile_for station_name))
  /\ min (windSpeed (profile_for station_name))
     <= max (windSpeed (profile_for station_name)) <= 35.
Proof.
  unfold profile_for, climateProfiles.
  repeat (destruct (String.eqb station_name _);
          [cbn [baseTemp tempRange humidity windSpeed min max
                Mumbai Pune Alandi Sangamner Nagpur]; lra |]).
  cbn [baseTemp tempRange humidity windSpeed min max Pune]; lra.
Qed.

Lemma hourFactor_bounds (hour : nat) : - 1 <= hourFactor hour <= 1.
Proof. unfold hourFactor. apply SIN_bound. Qed.

Lemma humidityBase_bounds (p : profile) (hour : nat) :
  min (humidity p) <= max (humidity p) ->
  min (humidity p) <= humidityBase p hour <= max (humidity p).
Proof.
  intros Hle. unfold humidityBase.
  pose proof (hourFactor_bounds hour) as Hf. split; nra.
Qed.

Lemma clamp_inactive (lo hi x : R) :
  lo <= x <= hi -> Math_max lo (Math_min hi x) = x.
Proof.
  intros [Hlo Hhi]. unfold Math_max, Math_min.
  rewrite Rmin_right by lra. now rewrite Rmax_right by lra.
Qed.

(** The pressure wave of the eight days stays between 0 and 1. *)
Lemma pressure_wave_bounds (day : nat) :
  (day <= 7)%nat -> 0 <= sin (INR day / 7 * PI) <= 1.
Proof.
  intros Hday. apply le_INR in Hday.
  replace (INR 7) with 7 in Hday by (simpl; lra).
  pose proof (pos_INR day) as H0. pose proof PI_RGT_0 as Hpi.
  split; [| apply SIN_bound].
  apply sin_ge_0; nra.
Qed.

Lemma observation_table_range (w : world) (s : Station.row) (day hour : nat)
    (h : heap) :
  (forall k, 0 <= random w k < 1) -> (day <= 7)%nat ->
  Forall observation_in_table_range (weatherData h) ->
  Forall observation_in_table_range
    (weatherData
       (snd (observation w s (profile_for (Station.name s)) day hour h))).
Proof.
  intros Hrandom Hday Hh.
  destruct (observation_fields w s (profile_for (Station.name s)) day hour h)
    as (row & d' & -> & _ & (rt & [kt ->] & Ht) & (rh & [kh ->] & Hhum)
        & Hprec & (r1 & r2 & [k1 ->] & [k2 ->] & Hwind) & (rp & [kp ->] & Hpres)).
  cbn [weatherData]. apply Forall_app. split; [exact Hh |].
  constructor; [| constructor].
  destruct (profile_for_bounds (Station.name s))
    as (Hb1 & Hb2 & Hr0 & Hh1 & Hh2 & Hw1 & Hw2).
  set (p := profile_for (Station.name s)) in *.
  pose proof (hourFactor_bounds hour) as Hf.
  pose proof (humidityBase_bounds p hour ltac:(lra)) as Hhb.
  pose proof (pressure_wave_bounds day Hday) as Hsin.
  pose proof (Hrandom kt) as Hkt. pose proof (Hrandom kh) as Hkh.
  pose proof (Hrandom k1) as Hk1. pose proof (Hrandom k2) as Hk2.
  pose proof (Hrandom kp) as Hkp.
  unfold observation_in_table_range.
  rewrite Ht, Hhum, Hwind, Hpres.
  rewrite clamp_inactive by lra.
  replace (Math_max (min (windSpeed p)
                     + (max (windSpeed p) - min (windSpeed p)) * random w k1
                     + (random w k2 - 0.5) * 5) 0)
    with (min (windSpeed p)
          + (max (windSpeed p) - min (windSpeed p)) * random w k1
          + (random w k2 - 0.5) * 5)
    by (unfold Math_max; rewrite Rmax_left by nra; reflexivity).
  split; [| split; [| split; [| split]]].
  - replace 20 with (IZR 2000 / 100) by lra.
    replace 42 with (IZR 4200 / 100) by lra.
    apply Number_toFixed_2_between; [lia | split; nra].
  - replace 30 with (IZR 3000 / 100) by lra.
    replace 90 with (IZR 9000 / 100) by lra.
    apply Number_toFixed_2_between; [lia | split; nra].
  - destruct Hprec as [-> | (r & [k ->] & ->)].
    + left. apply (Number_toFixed_2_int 0). lia.
    + right. pose proof (Hrandom k) as Hk.
      replace 2 with (IZR 200 / 100) at 1 by lra.
      replace 17 with (IZR 1700 / 100) by lra.
      apply Number_toFixed_2_between; [lia | split; nra].
  - replace 2.5 with (IZR 250 / 100) by lra.
    replace 37.5 with (IZR 3750 / 100) by lra.
    apply Number_toFixed_2_between; [lia | split; nra].
  - replace 1007.5 with (IZR 100750 / 100) by lra.
    replace 1020.5 with (IZR 102050 / 100) by lra.
    apply Number_toFixed_2_between; [lia | split; nra].
Qed.
Lemma prediction_table_range (w : world) (s : Station.row) (day hour : nat)
    (h : heap) :
  (forall k, 0 <= random w k < 1) -> (day <= 4)%nat ->
  Forall prediction_in_table_range (predictions h) ->
  Forall prediction_in_table_range
    (predictions
       (snd (prediction w s (profile_for (Station.name s)) day hour h))).
Proof.
  intros Hrandom Hday Hh.
  destruct (prediction_fields w s (profile_for (Station.name s)) day hour h)
    as (row & d' & -> & _ & _ & Ht & (rh & [kh ->] & Hhum) & Hprec
        & (rc & [kc ->] & Hconf)).
  cbn [predictions]. apply Forall_app. split; [exact Hh |].
  constructor; [| constructor].
  destruct (profile_for_bounds (Station.name s))
    as (Hb1 & Hb2 & Hr0 & Hh1 & Hh2 & Hw1 & Hw2).
  set (p := profile_for (Station.name s)) in *.
  pose proof (hourFactor_bounds hour) as Hf.
  pose proof (humidityBase_bounds p hour ltac:(lra)) as Hhb.
  pose proof (Hrandom kh) as Hkh. pose proof (Hrandom kc) as Hkc.
  assert (Hd : 0 <= INR day <= 4).
  { split; [apply pos_INR |]. apply le_INR in Hday.
    replace (INR 4) with 4 in Hday by (simpl; lra). exact Hday. }
  unfold prediction_in_table_range.
  rewrite Ht, Hhum, Hconf.
  rewrite !clamp_inactive by lra.
  split; [| split; [| split]].
  - replace 21 with (IZR 2100 / 100) by lra.
    replace 43 with (IZR 4300 / 100) by lra.
    apply Number_toFixed_2_between; [lia | split; nra].
  - replace 31 with (IZR 3100 / 100) by lra.
    replace 89 with (IZR 8900 / 100) by lra.
    apply Number_toFixed_2_between; [lia | split; nra].
  - destruct Hprec as [-> | (r & [k ->] & ->)].
    + left. apply (Number_toFixed_2_int 0). lia.
    + right. pose proof (Hrandom k) as Hk.
      replace 1 with (IZR 100 / 100) at 1 by lra.
      replace 9 with (IZR 900 / 100) by lra.
      apply Number_toFixed_2_between; [lia | split; nra].
  - replace 81 with (IZR 8100 / 100) by lra.
    replace 97 with (IZR 9700 / 100) by lra.
    apply Number_toFixed_2_between; [lia | split; nra].
Qed.

(** A property that the rounds of the loops keep, for the days and hours the
    loops visit and the profile the station's name selects, holds after a
    run. *)
Lemma generate_table_inv (I : heap -> Prop) (w : world)
    (stationsData : list Station.row) :
  (forall s day hour h, (day <= 7)%nat -> (hour < 24)%nat -> I h ->
     I (snd (observation w s (profile_for (Station.name s)) day hour h))) ->
  (forall s day hour h, (day <= 4)%nat -> In hour every_6_hours -> I h ->
     I (snd (prediction w s (profile_for (Station.name s)) day hour h))) ->
  (forall s h, I h ->
     I (snd (station_alerts w s (profile_for (Station.name s)) h))) ->
  forall h, I h -> I (snd (generate w stationsData h)).
Proof.
  intros Ho Hp Ha. unfold generate. apply for_each_inv.
  intros s h _ Hh. rewrite process_station_unfold. apply Ha.
  unfold forecast, history.
  apply for_each_inv.
  { intros day h1 Hday H1. apply for_each_inv; [| exact H1].
    intros hour h2 Hhour H2. apply in_seq in Hday. apply Hp; [lia | | ]; assumption. }
  apply for_each_inv; [| exact Hh].
  intros day h1 Hday H1. apply for_each_inv; [| exact H1].
  intros hour h2 Hhour H2. apply countdown_In in Hday. apply in_seq in Hhour.
  apply Ho; [lia | lia | exact H2].
Qed.

(** X8: when every [Math.random()] lies in [0, 1), the observations of a run
    over stations of any names have temperature in [20, 42], humidity in
    [30, 90], precipitation 0 or in [2, 17], wind speed in [2.5, 37.5] and
    pressure in [1007.5, 1020.5]: with the profiles of the table neither the
    humidity clamp nor the [max(.., 0)] of the wind speed ever takes effect,
    and every value fits its [DECIMAL] column. *)
Theorem X8_observation_ranges (w : world) (stationsData : list Station.row)
    (Hrandom : forall k, 0 <= random w k < 1) :
  Forall (fun r =>
            20 <= Observation.temperature r <= 42 /\
            30 <= Observation.humidity r <= 90 /\
            (Observation.precipitation r = 0 \/
             2 <= Observation.precipitation r <= 17) /\
            2.5 <= Observation.wind_speed r <= 37.5 /\
            1007.5 <= Observation.pressure r <= 1020.5)
         (weatherData (snd (generate w stationsData empty_heap))).
Proof.
  apply (generate_table_inv
           (fun h => Forall observation_in_table_range (weatherData h))).
  - intros s day hour h Hday _ Hh. now apply observation_table_range.
  - intros s day hour h _ _ Hh.
    now destruct (prediction_frame w s (profile_for (Station.name s)) day hour h)
      as [-> _].
  - intros s h Hh.
    now destruct (station_alerts_frame w s (profile_for (Station.name s)) h)
      as [-> _].
  - constructor.
Qed.

Lemma X8_observation_ranges_witness :
  (forall k, 0 <= random (steady 0.5) k < 1)
  /\ Forall (fun r =>
               20 <= Observation.temperature r <= 42 /\
               30 <= Observation.humidity r <= 90 /\
               (Observation.precipitation r = 0 \/
                2 <= Observation.precipitation r <= 17) /\
               2.5 <= Observation.wind_speed r <= 37.5 /\
               1007.5 <= Observation.pressure r <= 1020.5)
            (weatherData (snd (generate (steady 0.5) five_rows empty_heap))).
Proof.
  assert (H : forall k, 0 <= random (steady 0.5) k < 1).
  { intros k. unfold steady. cbn [random]. lra. }
  split; [exact H | exact (X8_observation_ranges (steady 0.5) five_rows H)].
Defined.

(** X9: under the same condition the predictions of a run have predicted
    temperature in [21, 43], predicted humidity in [31, 89], predicted
    precipitation 0 or in [1, 9] and confidence in [81, 97]: on the five
    forecast days the confidence clamp to [75, 98] never takes effect. *)
Theorem X9_prediction_ranges (w : world) (stationsData : list Station.row)
    (Hrandom : forall k, 0 <= random w k < 1) :
  Forall (fun r =>
            21 <= Prediction.predicted_temp r <= 43 /\
            31 <= Prediction.predicted_humidity r <= 89 /\
            (Prediction.predicted_precipitation r = 0 \/
             1 <= Prediction.predicted_precipitation r <= 9) /\
            81 <= Prediction.confidence r <= 97)
         (predictions (snd (generate w stationsData empty_heap))).
Proof.
  apply (generate_table_inv
           (fun h => Forall prediction_in_table_range (predictions h))).
  - intros s day hour h _ _ Hh.
    now destruct (observation_frame w s (profile_for (Station.name s)) day hour h)
      as [-> _].
  - intros s day hour h Hday _ Hh. now apply prediction_table_range.
  - intros s h Hh.
    now destruct (station_alerts_frame w s (profile_for (Station.name s)) h)
      as [_ ->].
  - constructor.
Qed.

Lemma X9_prediction_ranges_witness :
  (forall k, 0 <= random (steady 0.5) k < 1)
  /\ Forall (fun r =>
               21 <= Prediction.predicted_temp r <= 43 /\
               31 <= Prediction.predicted_humidity r <= 89 /\
               (Prediction.predicted_precipitation r = 0 \/
                1 <= Prediction.predicted_precipitation r <= 9) /\
               81 <= Prediction.confidence r <= 97)
            (predictions (snd (generate (steady 0.5) five_rows empty_heap))).
Proof.
  assert (H : forall k, 0 <= random (steady 0.5) k < 1).
  { intros k. unfold steady. cbn [random]. lra. }
  split; [exact H | exact (X9_prediction_ranges (steady 0.5) five_rows H)].
Defined.
(** *** The store under the bulk deletes *)

Lemma filter_all {A} (f : A -> bool) (l : list A) :
  Forall (fun x => f x = true) l -> filter f l = l.
Proof.
  induction 1 as [| x l Hx _ IH]; [reflexivity |].
  simpl. now rewrite Hx, IH.
Qed.

Lemma filter_none {A} (f : A -> bool) (l : list A) :
  Forall (fun x => f x = false) l -> filter f l = [].
Proof.
  induction 1 as [| x l Hx _ IH]; [reflexivity |].
  simpl. now rewrite Hx.
Qed.

(** A station is either kept by the delete or among the deleted. *)
Lemma station_kept_or_gone (v : uuid) (l : list Station.row) (i : uuid) :
  In i (map Station.id l) ->
  In i (map Station.id (filter (fun s => kept v (Station.id s)) l))
  \/ existsb (fun s => String.eqb (Station.id s) i)
             (filter (fun s => negb (kept v (Station.id s))) l) = true.
Proof.
  intros Hi. apply in_map_iff in Hi. destruct Hi as (s & <- & Hs).
  destruct (kept v (Station.id s)) eqn:Hk.
  - left. apply in_map. apply filter_In. now split.
  - right. apply existsb_exists. exists s. split.
    + apply filter_In. split; [exact Hs | now rewrite Hk].
    + apply String.eqb_refl.
Qed.

Lemma cascade_references_live {A} (station_id : A -> uuid) (v : uuid)
    (stations : list Station.row) (l : list (stored A)) :
  Forall (fun c => In (station_id (fields c)) (map Station.id stations)) l ->
  Forall (fun c => In (station_id (fields c))
                      (map Station.id
                           (filter (fun s => kept v (Station.id s)) stations)))
         (cascade station_id
                  (filter (fun s => negb (kept v (Station.id s))) stations) l).
Proof.
  intros Hl. apply Forall_forall. intros c Hc.
  apply filter_In in Hc. destruct Hc as [Hc Hnot].
  rewrite Forall_forall in Hl.
  destruct (station_kept_or_gone v stations _ (Hl c Hc)) as [Hk | Hg];
    [exact Hk |].
  unfold references in Hnot. rewrite Hg in Hnot. discriminate Hnot.
Qed.

Lemma filter_Forall {A} (P : A -> Prop) (f : A -> bool) (l : list A) :
  Forall P l -> Forall P (filter f l).
Proof.
  intros Hl. apply Forall_forall. intros x Hx. apply filter_In in Hx.
  rewrite Forall_forall in Hl. now apply Hl.
Qed.

(** X10: a bulk delete keeps the foreign keys of the store: when every
    observation, prediction and alert references a station of the store
    before [delete().neq('id', v)] on any of the four tables, it does so
    afterwards (the delete on [weather_stations] takes the rows of the
    deleted stations with it); and so it is after the four deletes of the
    seed function. *)
Theorem X10_deletes_keep_foreign_keys (t : table) (v : uuid) (db : database)
    (Hfk : foreign_keys_hold db) :
  foreign_keys_hold (run_delete t v db) /\ foreign_keys_hold (run_purge db).
Proof.
  assert (Hstep : forall t v db,
            foreign_keys_hold db -> foreign_keys_hold (run_delete t v db)).
  { clear. intros t v db (Hd & Hp & Ha).
    unfold foreign_keys_hold, references_live in *.
    destruct t; cbn [run_delete tbl_stations tbl_data tbl_predictions tbl_alerts];
      repeat split;
      try assumption; try (now apply filter_Forall);
      now apply cascade_references_live. }
  split; [now apply Hstep |].
  unfold run_purge, purge. cbn [fold_left fst snd].
  now repeat apply Hstep.
Qed.

Lemma X10_deletes_keep_foreign_keys_witness :
  foreign_keys_hold one_alert_store
  /\ foreign_keys_hold (run_delete weather_stations nil_uuid one_alert_store)
  /\ foreign_keys_hold (run_purge one_alert_store).
Proof.
  assert (H : foreign_keys_hold one_alert_store).
  { unfold foreign_keys_hold, references_live, one_alert_store.
    cbn [tbl_data tbl_predictions tbl_alerts tbl_stations map fields
         Alert.station_id].
    repeat split; repeat constructor. }
  split; [exact H |].
  exact (X10_deletes_keep_foreign_keys weather_stations nil_uuid one_alert_store H).
Defined.

Lemma run_purge_tables (db : database) :
  run_purge db
  = let gone := filter (fun s => negb (kept nil_uuid (Station.id s)))
                       (tbl_stations db) in
    {| tbl_stations :=
         filter (fun s => kept nil_uuid (Station.id s)) (tbl_stations db);
       tbl_data :=
         cascade Observation.station_id gone
           (filter (fun r => kept nil_uuid (row_id r)) (tbl_data db));
       tbl_predictions :=
         cascade Prediction.station_id gone
           (filter (fun r => kept nil_uuid (row_id r)) (tbl_predictions db));
       tbl_alerts :=
         cascade Alert.station_id gone
           (filter (fun r => kept nil_uuid (row_id r)) (tbl_alerts db)) |}.
Proof. reflexivity. Qed.

Lemma filter_filter_same {A} (f : A -> bool) (l : list A) :
  filter f (filter f l) = filter f l.
Proof.
  apply filter_all. apply Forall_forall. intros x Hx.
  now apply filter_In in Hx.
Qed.

Lemma filter_negb_after {A} (f : A -> bool) (l : list A) :
  filter (fun x => negb (f x)) (filter f l) = [].
Proof.
  apply filter_none. apply Forall_forall. intros x Hx.
  apply filter_In in Hx. destruct Hx as [_ ->]. reflexivity.
Qed.

Lemma cascade_nil {A} (station_id : A -> uuid) (l : list (stored A)) :
  cascade station_id [] l = l.
Proof.
  unfold cascade. apply filter_all. apply Forall_forall. intros c _.
  reflexivity.
Qed.

Lemma filter_cascade_comm {A} (station_id : A -> uuid) (gone : list Station.row)
    (f : stored A -> bool) (l : list (stored A)) :
  filter f (cascade station_id gone l) = cascade station_id gone (filter f l).
Proof.
  unfold cascade. induction l as [| x l IH]; [reflexivity |].
  simpl. destruct (f x) eqn:Hf, (negb (references station_id gone x)) eqn:Hr;
    simpl; rewrite ?Hf, ?Hr, IH; reflexivity.
Qed.

(** X11: the four deletes only remove rows (each table afterwards is part of
    the table before), and carrying them out a second time changes nothing
    more. *)
Theorem X11_purge_idempotent (db : database) :
  run_purge (run_purge db) = run_purge db
  /\ incl (tbl_stations (run_purge db)) (tbl_stations db)
  /\ incl (tbl_data (run_purge db)) (tbl_data db)
  /\ incl (tbl_predictions (run_purge db)) (tbl_predictions db)
  /\ incl (tbl_alerts (run_purge db)) (tbl_alerts db).
Proof.
  split.
  - rewrite (run_purge_tables (run_purge db)). rewrite (run_purge_tables db).
    cbv zeta. cbn [tbl_stations tbl_data tbl_predictions tbl_alerts].
    rewrite filter_negb_after, (filter_filter_same (fun s => kept nil_uuid (Station.id s))).
    rewrite !cascade_nil, !filter_cascade_comm.
    now rewrite !(filter_filter_same (fun r => kept nil_uuid (row_id r))).
  - rewrite run_purge_tables. cbv zeta.
    cbn [tbl_stations tbl_data tbl_predictions tbl_alerts].
    repeat split; intros x Hx; unfold cascade in Hx;
      repeat (apply filter_In in Hx; destruct Hx as [Hx _]); exact Hx.
Qed.
(** *** The daily cycle *)

(** X21: the hour factor of the generator is lowest at hour 0, where it is
    -1, rises strictly until noon, where it is 1, and falls strictly from
    noon to hour 23; the humidity base runs the opposite way inside the
    profile's band, reaching [humidity.max] at hour 0 and [humidity.min] at
    noon. *)
Theorem X21_daily_cycle (p : profile) (hour hour' : nat) :
  hourFactor 0 = - 1
  /\ hourFactor 12 = 1
  /\ - 1 <= hourFactor hour <= 1
  /\ ((hour < hour' <= 12)%nat -> hourFactor hour < hourFactor hour')
  /\ ((12 <= hour < hour' /\ hour' <= 24)%nat ->
      hourFactor hour' < hourFactor hour)
  /\ humidityBase p 0 = max (humidity p)
  /\ humidityBase p 12 = min (humidity p)
  /\ (min (humidity p) <= max (humidity p) ->
      min (humidity p) <= humidityBase p hour <= max (humidity p)).
Proof.
  pose proof PI_RGT_0 as Hpi.
  split; [exact hourFactor_0 |]. split; [exact hourFactor_12 |].
  split; [apply hourFactor_bounds |].
  split; [| split; [| split; [| split]]].
  - intros [Hlt Hle]. unfold hourFactor.
    apply lt_INR in Hlt. apply le_INR in Hle.
    replace (INR 12) with 12 in Hle by (simpl; lra).
    pose proof (pos_INR hour) as H0.
    apply sin_increasing_1; nra.
  - intros ([Hge Hlt] & Hle). unfold hourFactor.
    apply lt_INR in Hlt. apply le_INR in Hle. apply le_INR in Hge.
    replace (INR 12) with 12 in Hge by (simpl; lra).
    replace (INR 24) with 24 in Hle by (simpl; lra).
    apply sin_decreasing_1; nra.
  - unfold humidityBase. rewrite hourFactor_0. lra.
  - unfold humidityBase. rewrite hourFactor_12. lra.
  - apply humidityBase_bounds.
Qed.

End SeedExtra.

(** ** Further facts about the dashboard's fetch functions *)

Module DashboardExtra.

Import Dashboard DashboardProps.

(** X12: whatever the reply, [loadStations] ends with [loading] false and
    leaves [seeding] and the current reading alone.  After a successful
    fetch of a non-empty list the stations are that list and the selected
    station is its first one, hence one of the stations listed; after a
    successful fetch of no station the list is empty and the selection stays
    what it was. *)
Theorem X12_loadStations_outcomes (r : reply (list Station)) (s : state) :
  loading (fst (loadStations r s)) = false
  /\ seeding (fst (loadStations r s)) = seeding s
  /\ currentWeather (fst (loadStations r s)) = currentWeather s
  /\ (forall first rest,
        error r = None -> data r = Some (first :: rest) ->
        stations (fst (loadStations r s)) = first :: rest /\
        selectedStation (fst (loadStations r s)) = id first /\
        In (selectedStation (fst (loadStations r s)))
           (map id (stations (fst (loadStations r s)))) /\
        snd (loadStations r s) = [])
  /\ (error r = None -> data r = None \/ data r = Some [] ->
      stations (fst (loadStations r s)) = [] /\
      selectedStation (fst (loadStations r s)) = selectedStation s /\
      snd (loadStations r s) = []).
Proof.
  unfold loadStations.
  destruct (error r) as [e |]; [| destruct (data r) as [[| first rest] |]];
    cbn [fst snd loading seeding currentWeather stations selectedStation
         setLoading setStations setSelectedStation map];
    (split; [reflexivity |]); (split; [reflexivity |]); (split; [reflexivity |]);
    split.
  all: try (intros first' rest' H1 H2; discriminate).
  all: try (intros H1 [H2 | H2]; discriminate).
  - intros _ _. repeat split.
  - intros first' rest' _ [= -> ->]. repeat split. now left.
  - intros _ _. repeat split.
Qed.

(** X13: [seedData] ends with [seeding] false whatever happens.  When the
    invocation fails the stations, the selection, the reading and [loading]
    are what they were, and the failure is logged and shown as a toast.
    When it succeeds the success toast comes first and the stations are
    loaded anew; if that load fails the user sees the success toast followed
    by the failure toast, and the old stations stay. *)
Theorem X13_seedData_outcomes (invoked : option string)
    (r : reply (list Station)) (s : state) :
  seeding (fst (seedData invoked r s)) = false
  /\ (forall e, invoked = Some e ->
        stations (fst (seedData invoked r s)) = stations s /\
        selectedStation (fst (seedData invoked r s)) = selectedStation s /\
        currentWeather (fst (seedData invoked r s)) = currentWeather s /\
        loading (fst (seedData invoked r s)) = loading s /\
        snd (seedData invoked r s)
        = [console_error "Error seeding data:";
           toast_error "Failed to seed weather data"])
  /\ (invoked = None ->
      snd (seedData invoked r s)
      = toast_success "Weather data seeded successfully!"
        :: snd (loadStations r s)
      /\ stations (fst (seedData invoked r s))
         = stations (fst (loadStations r s))
      /\ selectedStation (fst (seedData invoked r s))
         = selectedStation (fst (loadStations r s))
      /\ loading (fst (seedData invoked r s)) = false)
  /\ (forall e, invoked = None -> error r = Some e ->
        snd (seedData invoked r s)
        = [toast_success "Weather data seeded successfully!";
           console_error "Error loading stations:";
           toast_error "Failed to load weather stations"]
        /\ stations (fst (seedData invoked r s)) = stations s).
Proof.
  unfold seedData.
  destruct invoked as [e0 |].
  - cbn [fst snd seeding setSeeding stations selectedStation currentWeather loading].
    repeat split; try discriminate; intros; discriminate.
  - unfold loadStations.
    destruct (error r) as [e |]; [| destruct (data r) as [[| first rest] |]];
      cbn [fst snd seeding setSeeding setLoading setStations setSelectedStation
           stations selectedStation currentWeather loading];
      repeat split; try discriminate; intros; discriminate.
Qed.

End DashboardExtra.

(** ** Facts about the alerts panel *)

Module AlertsPanelFacts.

Import AlertsPanel PanelProps.

Lemma update_map_ids (new : WeatherAlert) (l : list WeatherAlert) :
  map id (map (fun alert => if String.eqb (id alert) (id new) then new else alert) l)
  = map id l.
Proof.
  induction l as [| a l IH]; [reflexivity |].
  cbn [map]. rewrite IH. f_equal.
  destruct (String.eqb (id a) (id new)) eqn:E; [| reflexivity].
  apply String.eqb_eq in E. now symmetry.
Qed.

Lemma update_map_absent (new : WeatherAlert) (l : list WeatherAlert) :
  ~ In (id new) (map id l) ->
  map (fun alert => if String.eqb (id alert) (id new) then new else alert) l = l.
Proof.
  induction l as [| a l IH]; intros Hnot; [reflexivity |].
  cbn [map] in *.
  destruct (String.eqb (id a) (id new)) eqn:E.
  - apply String.eqb_eq in E. exfalso. apply Hnot. now left.
  - f_equal. apply IH. intros Hin. apply Hnot. now right.
Qed.

(** X14: an [UPDATE] notification shows no toast and keeps the number, the
    order and the ids of the alerts listed; the alerts with the id of the
    updated row are replaced by it, also when it is no longer active, and
    the others left as they are; when no listed alert has that id nothing
    changes; and receiving the same update twice is the same as once. *)
Theorem X14_update_notification (new : WeatherAlert) (s : state) :
  snd (on_postgres_changes (UPDATE new) s) = []
  /\ map id (alerts (fst (on_postgres_changes (UPDATE new) s)))
     = map id (alerts s)
  /\ List.length (alerts (fst (on_postgres_changes (UPDATE new) s)))
     = List.length (alerts s)
  /\ (forall i a d, nth_error (alerts s) i = Some a ->
        nth i (alerts (fst (on_postgres_changes (UPDATE new) s))) d
        = if String.eqb (id a) (id new) then new else a)
  /\ (~ In (id new) (map id (alerts s)) ->
      fst (on_postgres_changes (UPDATE new) s) = s)
  /\ fst (on_postgres_changes (UPDATE new)
            (fst (on_postgres_changes (UPDATE new) s)))
     = fst (on_postgres_changes (UPDATE new) s).
Proof.
  cbn [on_postgres_changes fst snd setAlerts alerts].
  split; [reflexivity |]. split; [apply update_map_ids |].
  split; [apply length_map |]. split; [| split].
  - intros i a d Hi.
    set (f := fun alert => if String.eqb (id alert) (id new) then new else alert).
    rewrite (nth_indep _ d (f a))
      by (rewrite length_map; apply nth_error_Some; now rewrite Hi).
    rewrite map_nth. unfold f.
    now rewrite (nth_error_nth _ _ a Hi).
  - intros Hnot. destruct s as [l ld]. unfold setAlerts.
    cbn [alerts loading] in *. now rewrite update_map_absent.
  - unfold setAlerts. cbn [alerts loading]. f_equal.
    rewrite map_map. apply map_ext. intros a.
    destruct (String.eqb (id a) (id new)) eqn:E; [| now rewrite E].
    now rewrite String.eqb_refl.
Qed.

(** X15: an [INSERT] notification puts the new alert first, whether or not
    it is active and however many alerts are listed already, and shows its
    message in a toast, with its severity and for five seconds, exactly when
    it is active; a [DELETE] notification changes nothing.  An update that
    follows the insert of the alert it updates gives the list that the
    insert of the updated alert gives after the update. *)
Theorem X15_insert_notification (a b : WeatherAlert) (s : state)
    (Hid : id a = id b) :
  alerts (fst (on_postgres_changes (INSERT a) s)) = a :: alerts s
  /\ (snd (on_postgres_changes (INSERT a) s)
      = if is_active a
        then [toast_error (message a)
                (Some ("Severity: " ++ severity a)%string) (Some 5000%Z)]
        else [])
  /\ on_postgres_changes DELETE s = (s, [])
  /\ fst (on_postgres_changes (UPDATE b) (fst (on_postgres_changes (INSERT a) s)))
     = fst (on_postgres_changes (INSERT b) (fst (on_postgres_changes (UPDATE b) s))).
Proof.
  cbn [on_postgres_changes fst snd setAlerts alerts loading map].
  repeat split.
  apply String.eqb_eq in Hid. now rewrite Hid.
Qed.
Lemma X15_insert_notification_witness :
  id rain_alert = id rain_alert_off
  /\ fst (on_postgres_changes (UPDATE rain_alert_off)
            (fst (on_postgres_changes (INSERT rain_alert) empty_panel)))
     = fst (on_postgres_changes (INSERT rain_alert_off)
              (fst (on_postgres_changes (UPDATE rain_alert_off) empty_panel))).
Proof.
  split; [reflexivity |].
  exact (proj2 (proj2 (proj2
           (X15_insert_notification rain_alert rain_alert_off empty_panel
              eq_refl)))).
Defined.

(** X16: whatever the reply, [loadAlerts] ends with [loading] false.  A
    failed fetch is logged and shown as a toast, and the alerts listed stay;
    a successful one replaces them by the rows returned, or by none when the
    reply carries no data, and shows nothing. *)
Theorem X16_loadAlerts_outcomes (r : Dashboard.reply (list WeatherAlert))
    (s : state) :
  loading (fst (loadAlerts r s)) = false
  /\ (forall e, Dashboard.error r = Some e ->
        alerts (fst (loadAlerts r s)) = alerts s /\
        snd (loadAlerts r s)
        = [console_error "Error loading alerts:";
           toast_error "Failed to load weather alerts" None None])
  /\ (Dashboard.error r = None ->
      alerts (fst (loadAlerts r s))
      = match Dashboard.data r with Some d => d | None => [] end
      /\ snd (loadAlerts r s) = []).
Proof.
  unfold loadAlerts.
  destruct (Dashboard.error r) as [e |];
    cbn [fst snd loading alerts setLoading setAlerts].
  - split; [reflexivity |]. split; [intros e' _; now split | discriminate].
  - split; [reflexivity |]. split; [discriminate | intros _; now split].
Qed.

(** X17: the icon and the colour of an alert always go together: two
    severities get the same icon exactly when they get the same colour; the
    four severities of the schema get four different colours; and every
    other text, whatever its case, is shown like "low". *)
Theorem X17_severity_rendering :
  (forall s1 s2,
     getSeverityIcon s1 = getSeverityIcon s2
     <-> getSeverityColor s1 = getSeverityColor s2)
  /\ NoDup (map getSeverityColor severities)
  /\ (forall s, ~ In s severities ->
        getSeverityIcon s = getSeverityIcon "low" /\
        getSeverityColor s = getSeverityColor "low").
Proof.
  split; [| split].
  - intros s1 s2. unfold getSeverityIcon, getSeverityColor.
    destruct (String.eqb s1 "extreme"), (String.eqb s1 "high"),
      (String.eqb s1 "medium"), (String.eqb s2 "extreme"),
      (String.eqb s2 "high"), (String.eqb s2 "medium");
      split; intros H; first [reflexivity | discriminate H].
  - unfold severities. cbv [map getSeverityColor String.eqb Ascii.eqb Bool.eqb].
    repeat (apply NoDup_cons;
            [cbn [In]; intros Hin;
             repeat (destruct Hin as [Hin | Hin]; [discriminate Hin |]);
             exact Hin |]).
    apply NoDup_nil.
  - intros s Hs. unfold severities in Hs. cbn [In] in Hs.
    unfold getSeverityIcon, getSeverityColor.
    destruct (String.eqb s "extreme") eqn:E1;
      [apply String.eqb_eq in E1; exfalso; apply Hs; subst; tauto |].
    destruct (String.eqb s "high") eqn:E2;
      [apply String.eqb_eq in E2; exfalso; apply Hs; subst; tauto |].
    destruct (String.eqb s "medium") eqn:E3;
      [apply String.eqb_eq in E3; exfalso; apply Hs; subst; tauto |].
    split; reflexivity.
Qed.

End AlertsPanelFacts.

(** ** Facts about the charts *)

Module WeatherChartsFacts.

Import WeatherCharts ChartProps.

Lemma map_idx_length {A B} (f : A -> nat -> B) (i : nat) (l : list A) :
  List.length (map_idx f i l) = List.length l.
Proof.
  revert i. induction l as [| x l IH]; intros i; [reflexivity |].
  simpl. now rewrite IH.
Qed.

Lemma map_idx_nth_error {A B} (f : A -> nat -> B) (i k : nat) (l : list A) :
  nth_error (map_idx f i l) k
  = option_map (fun x => f x (i + k)%nat) (nth_error l k).
Proof.
  revert i k. induction l as [| x l IH]; intros i k.
  - now destruct k.
  - destruct k as [| k]; simpl.
    + now rewrite Nat.add_0_r.
    + rewrite IH. now replace (S i + k)%nat with (i + S k)%nat by lia.
Qed.

Lemma map_idx_Forall {A B} (P : B -> Prop) (f : A -> nat -> B) (i : nat)
    (l : list A) :
  (forall x k, P (f x k)) -> Forall P (map_idx f i l).
Proof.
  intros Hf. revert i. induction l as [| x l IH]; intros i; simpl;
    constructor; auto.
Qed.

(** A sum of terms between [lo] and [hi]. *)
Lemma fold_left_sum_bounds {A} (f : A -> R) (lo hi : R) (l : list A) (a : R) :
  Forall (fun x => lo <= f x <= hi) l ->
  a + INR (List.length l) * lo
  <= fold_left (fun acc x => acc + f x) l a
  <= a + INR (List.length l) * hi.
Proof.
  intros Hl. revert a. induction Hl as [| x l Hx _ IH]; intros a.
  - simpl. lra.
  - cbn [fold_left]. specialize (IH (a + f x)).
    change (List.length (x :: l)) with (S (List.length l)).
    rewrite S_INR. lra.
Qed.

Lemma average_bounds {A} (f : A -> R) (lo hi : R) (l : list A) :
  l <> [] ->
  Forall (fun x => lo <= f x <= hi) l ->
  lo <= fold_left (fun acc x => acc + f x) l 0 / INR (List.length l) <= hi.
Proof.
  intros Hne Hl.
  pose proof (fold_left_sum_bounds f lo hi l 0 Hl) as Hsum.
  assert (Hn : 0 < INR (List.length l)).
  { destruct l; [contradiction |]. apply lt_0_INR. simpl. lia. }
  split.
  - apply Rmult_le_reg_r with (INR (List.length l)); [exact Hn |].
    unfold Rdiv. rewrite Rmult_assoc, Rinv_l by lra. lra.
  - apply Rmult_le_reg_r with (INR (List.length l)); [exact Hn |].
    unfold Rdiv. rewrite Rmult_assoc, Rinv_l by lra. lra.
Qed.
(** X18: a failed fetch leaves every chart as it is: each of the three
    loaders then keeps [chartData], writes one line to the console and ends
    the loading state; for the analytics view an error of either of its two
    queries counts. *)
Theorem X18_chart_fetch_failures (format : string -> string -> string)
    (rp : Dashboard.reply (list prediction_item))
    (rh : Dashboard.reply (list data_item)) (s : state) :
  (Dashboard.error rp <> None ->
   loadForecastData format rp s
   = (setLoading false s, [console_error "Error loading forecast data:"]))
  /\ (Dashboard.error rh <> None ->
      loadHistoricalData format rh s
      = (setLoading false s, [console_error "Error loading historical data:"]))
  /\ (Dashboard.error rh <> None \/ Dashboard.error rp <> None ->
      loadAnalyticsData format rh rp s
      = (setLoading false s, [console_error "Error loading analytics data:"]))
  /\ loading (fst (loadForecastData format rp s)) = false
  /\ loading (fst (loadHistoricalData format rh s)) = false
  /\ loading (fst (loadAnalyticsData format rh rp s)) = false.
Proof.
  unfold loadForecastData, loadHistoricalData, loadAnalyticsData.
  destruct (Dashboard.error rp), (Dashboard.error rh);
    cbn [fst loading setLoading];
    repeat split; try reflexivity; intros H;
    try (destruct H as [H | H]); try reflexivity; now contradiction H.
Qed.

(** X19: a successful forecast fetch charts the rows in the order of the
    reply; a successful historical fetch charts them in the reverse order,
    point [i] being made from row [n - 1 - i] of the [n] returned, so that a
    reply ordered newest first is charted oldest first; a reply without data
    gives an empty chart. *)
Theorem X19_chart_order (format : string -> string -> string)
    (rp : Dashboard.reply (list prediction_item))
    (rh : Dashboard.reply (list data_item)) (s : state)
    (Hp : Dashboard.error rp = None) (Hh : Dashboard.error rh = None) :
  chartData (fst (loadForecastData format rp s))
  = map (forecast_point_of format)
        (match Dashboard.data rp with Some rows => rows | None => [] end)
  /\ chartData (fst (loadHistoricalData format rh s))
     = map (historical_point_of format)
           (rev (match Dashboard.data rh with Some rows => rows | None => [] end))
  /\ (forall rows i d,
        Dashboard.data rh = Some rows -> (i < List.length rows)%nat ->
        nth i (chartData (fst (loadHistoricalData format rh s)))
            (historical_point_of format d)
        = historical_point_of format (nth (List.length rows - S i) rows d))
  /\ (forall rows (older : data_item -> data_item -> Prop),
        Dashboard.data rh = Some rows ->
        (forall i j d, (i < j < List.length rows)%nat ->
           older (nth j rows d) (nth i rows d)) ->
        forall i j d, (i < j < List.length rows)%nat ->
          older (nth i (rev rows) d) (nth j (rev rows) d))
  /\ snd (loadForecastData format rp s) = []
  /\ snd (loadHistoricalData format rh s) = [].
Proof.
  assert (Hhist : chartData (fst (loadHistoricalData format rh s))
     = map (historical_point_of format)
           (rev (match Dashboard.data rh with Some rows => rows | None => [] end))).
  { unfold loadHistoricalData. rewrite Hh.
    destruct (Dashboard.data rh); reflexivity. }
  split; [| split; [exact Hhist | split; [| split; [| split]]]].
  - unfold loadForecastData. rewrite Hp.
    destruct (Dashboard.data rp); reflexivity.
  - intros rows i d Hrows Hi. rewrite Hhist, Hrows.
    rewrite map_nth. f_equal. now apply rev_nth.
  - intros rows older _ Hsorted i j d Hij.
    rewrite !rev_nth by lia. apply Hsorted. lia.
  - unfold loadForecastData. now rewrite Hp.
  - unfold loadHistoricalData. now rewrite Hh.
Qed.

Lemma X19_chart_order_witness :
  Dashboard.error (answered two_predictions) = None
  /\ Dashboard.error (answered two_readings) = None
  /\ chartData (fst (loadHistoricalData iso_label (answered two_readings)
                       blank_chart))
     = map (historical_point_of iso_label)
           (rev (match Dashboard.data (answered two_readings) with
                 | Some rows => rows
                 | None => []
                 end)).
Proof.
  split; [reflexivity |]. split; [reflexivity |].
  exact (proj1 (proj2 (X19_chart_order iso_label (answered two_predictions)
                         (answered two_readings) blank_chart
                         eq_refl eq_refl))).
Defined.
(** X20: a successful analytics fetch of [n] observations and some
    predictions charts [n] points: point [idx] pairs the [idx]-th oldest of
    the observations returned with prediction [idx] of the reply, taking the
    prediction's temperature and confidence when there is one and no
    temperature and the average confidence when there is none.  Without any
    prediction every accuracy is 0.  When there are predictions and their
    confidences lie in [lo, hi], so does every accuracy charted and, for a
    non-empty chart, the average shown above it. *)
Theorem X20_analytics_pairing (format : string -> string -> string)
    (rh : Dashboard.reply (list data_item))
    (rp : Dashboard.reply (list prediction_item)) (s : state)
    (historical : list data_item) (predictions : list prediction_item)
    (Hh : Dashboard.error rh = None) (Hp : Dashboard.error rp = None)
    (Hdh : Dashboard.data rh = Some historical)
    (Hdp : Dashboard.data rp = Some predictions) :
  List.length (chartData (fst (loadAnalyticsData format rh rp s)))
  = List.length historical
  /\ (forall idx item,
        nth_error (rev historical) idx = Some item ->
        nth_error (chartData (fst (loadAnalyticsData format rh rp s))) idx
        = Some (analytics_point
                  (format (timestamp item) "MMM dd"%string) (temperature item)
                  (option_map predicted_temp (nth_error predictions idx))
                  (match nth_error predictions idx with
                   | Some pred => num (confidence pred)
                   | None => avgAccuracy (Some predictions)
                   end)))
  /\ (predictions = [] ->
      Forall (fun pt => exists time actual,
                          pt = analytics_point time actual None (num 0))
             (chartData (fst (loadAnalyticsData format rh rp s))))
  /\ (forall lo hi,
        predictions <> [] ->
        Forall (fun pred => lo <= confidence pred <= hi) predictions ->
        Forall (fun pt => exists time actual predicted x,
                            pt = analytics_point time actual predicted (num x)
                            /\ lo <= x <= hi)
               (chartData (fst (loadAnalyticsData format rh rp s)))
        /\ (historical <> [] ->
            exists y,
              average_model_accuracy
                (chartData (fst (loadAnalyticsData format rh rp s))) = num y
              /\ lo <= y <= hi)).
Proof.
  assert (Hchart : chartData (fst (loadAnalyticsData format rh rp s))
    = map_idx
        (fun item idx =>
           analytics_point (format (timestamp item) "MMM dd"%string) (temperature item)
             (match nth_error predictions idx with
              | Some pred => Some (predicted_temp pred)
              | None => None
              end)
             (match nth_error predictions idx with
              | Some pred => num (confidence pred)
              | None => avgAccuracy (Some predictions)
              end))
        0 (rev historical)).
  { unfold loadAnalyticsData. rewrite Hh, Hp, Hdh, Hdp. reflexivity. }
  rewrite Hchart. split; [| split; [| split]].
  - now rewrite map_idx_length, length_rev.
  - intros idx item Hitem. rewrite map_idx_nth_error, Hitem. cbn [option_map Nat.add].
    now destruct (nth_error predictions idx).
  - intros ->. apply map_idx_Forall. intros item idx.
    replace (nth_error (@nil prediction_item) idx) with (@None prediction_item)
      by now destruct idx.
    do 2 eexists. f_equal. cbn [avgAccuracy fold_left List.length Nat.eqb].
    f_equal. simpl. lra.
  - intros lo hi Hne Hconf.
    assert (Havg : exists a, avgAccuracy (Some predictions) = num a /\ lo <= a <= hi).
    { cbn [avgAccuracy].
      destruct predictions as [| pr prs]; [contradiction |].
      replace (List.length (pr :: prs) =? 0)%nat with false by reflexivity.
      eexists. split; [reflexivity |].
      apply average_bounds; [discriminate | exact Hconf]. }
    destruct Havg as (a & Ha & Hab).
    assert (Hpts : Forall (fun pt => exists time actual predicted x,
                            pt = analytics_point time actual predicted (num x)
                            /\ lo <= x <= hi)
                    (map_idx
                       (fun item idx =>
                          analytics_point (format (timestamp item) "MMM dd"%string)
                            (temperature item)
                            (match nth_error predictions idx with
                             | Some pred => Some (predicted_temp pred)
                             | None => None
                             end)
                            (match nth_error predictions idx with
                             | Some pred => num (confidence pred)
                             | None => avgAccuracy (Some predictions)
                             end))
                       0 (rev historical))).
    { apply map_idx_Forall. intros item idx.
      destruct (nth_error predictions idx) as [pred |] eqn:E.
      - do 4 eexists. split; [reflexivity |].
        rewrite Forall_forall in Hconf. apply Hconf.
        now apply nth_error_In in E.
      - rewrite Ha. do 4 eexists. split; [reflexivity | exact Hab]. }
    split; [exact Hpts |].
    intros Hhne.
    set (cd := map_idx _ 0 (rev historical)) in *.
    assert (Hcd : cd <> []).
    { intros Hnil. apply (f_equal (@List.length point)) in Hnil.
      unfold cd in Hnil. rewrite map_idx_length, length_rev in Hnil.
      destruct historical; [contradiction | discriminate Hnil]. }
    unfold average_model_accuracy.
    destruct cd as [| pt pts] eqn:Ecd; [contradiction |].
    eexists. split; [reflexivity |].
    apply average_bounds; [discriminate |].
    eapply Forall_impl; [| exact Hpts].
    intros pt' (time & actual & predicted & x & -> & Hx). exact Hx.
Qed.

Lemma X20_analytics_pairing_witness :
  Dashboard.error (answered two_readings) = None
  /\ Dashboard.error (answered two_predictions) = None
  /\ Dashboard.data (answered two_readings) = Some two_readings
  /\ Dashboard.data (answered two_predictions) = Some two_predictions
  /\ List.length
       (chartData (fst (loadAnalyticsData iso_label (answered two_readings)
                          (answered two_predictions) blank_chart)))
     = List.length two_readings.
Proof.
  repeat (split; [reflexivity |]).
  exact (proj1 (X20_analytics_pairing iso_label (answered two_readings)
                  (answered two_predictions) blank_chart
                  two_readings two_predictions
                  eq_refl eq_refl eq_refl eq_refl)).
Defined.

End WeatherChartsFacts.

(** ** Facts about the first revision of the seed function *)

Module SeedV1Facts.

Import Js Seed Props MoreProps JsFacts SeedFacts SeedExtra.

Lemma observation_fields_v1 (w : world) (s : Station.row) (baseTemp : R)
    (day hour : nat) (h : heap) :
  exists row d',
    snd (SeedV1.observation w s baseTemp day hour h)
    = {| weatherData := weatherData h ++ [row];
         predictions := predictions h; alerts := alerts h;
         draws := d'; ticks := S (ticks h) |}
    /\ (exists r, drawn w r /\
          Observation.temperature row
          = Number_toFixed 2
              (baseTemp + sin (INR hour / 24 * PI * 2) * 5 + (r - 0.5) * 3))
    /\ (exists r, drawn w r /\
          Observation.humidity row = Number_toFixed 2 (40 + r * 40))
    /\ (Observation.precipitation row = Number_toFixed 2 0 \/
        exists r, drawn w r /\
          Observation.precipitation row = Number_toFixed 2 (r * 10))
    /\ (exists r, drawn w r /\
          Observation.wind_speed row = Number_toFixed 2 (r * 30))
    /\ (exists r, drawn w r /\
          Observation.pressure row = Number_toFixed 2 (1000 + r * 30)).
Proof.
  unfold SeedV1.observation, bind, Date_now, Math_random, push_weatherData,
    ret, drawn.
  simpl.
  destruct (Rlt_dec (random w (S (S (draws h)))) 0.15);
    simpl; do 2 eexists; (split; [reflexivity |]); simpl;
    repeat split; eauto 8.
Qed.

Lemma prediction_fields_v1 (w : world) (s : Station.row) (baseTemp : R)
    (day hour : nat) (h : heap) :
  exists row d',
    snd (SeedV1.prediction w s baseTemp day hour h)
    = {| weatherData := weatherData h;
         predictions := predictions h ++ [row]; alerts := alerts h;
         draws := d'; ticks := S (ticks h) |}
    /\ (exists r, drawn w r /\
          Prediction.predicted_temp row
          = Number_toFixed 2
              (baseTemp + (r - 0.5) * 2 + sin (INR hour / 24 * PI * 2) * 5))
    /\ (exists r, drawn w r /\
          Prediction.predicted_humidity row = Number_toFixed 2 (45 + r * 30))
    /\ (exists r, drawn w r /\
          Prediction.predicted_precipitation row = Number_toFixed 2 (r * 5))
    /\ (exists r, drawn w r /\
          Prediction.confidence row = Number_toFixed 2 (82 + r * 15)).
Proof.
  unfold SeedV1.prediction, bind, Date_now, Math_random, push_predictions,
    ret, drawn.
  simpl. do 2 eexists. (split; [reflexivity |]). simpl.
  repeat split; eauto 8.
Qed.

Lemma station_alerts_v1 (w : world) (s : Station.row) (baseTemp : R)
    (h : heap) :
  exists new,
    snd (SeedV1.station_alerts w s baseTemp h)
    = {| weatherData := weatherData h; predictions := predictions h;
         alerts := alerts h ++ new; draws := S (draws h); ticks := ticks h |}
    /\ (15 <= baseTemp < 30 -> Forall SeedV1.alert_as_generated new)
    /\ ((exists a, In a new /\ Alert.alert_type a = "Heat Warning"%string)
        <-> baseTemp > 28)
    /\ ((exists a, In a new /\ Alert.alert_type a = "Wind Advisory"%string)
        <-> random w (draws h) > 0.7).
Proof.
  unfold SeedV1.station_alerts. cbv zeta.
  rewrite !snd_bind, !when_push_alerts.
  cbn [Math_random fst snd alerts weatherData predictions draws ticks].
  eexists. split; [apply f_equal3; try reflexivity; now rewrite <- app_assoc |].
  unfold SeedV1.alert_as_generated, SeedV1.lt.
  destruct (gt baseTemp 28) eqn:E28; destruct (Rlt_dec baseTemp 5) as [H5 | H5];
    destruct (gt (random w (draws h)) 0.7) eqn:Ewind;
    rewrite ?gt_true, ?gt_false in *; cbn [orb app].
  all: split;
    [intros Hb;
     repeat (apply Forall_cons;
             [cbn [Alert.is_active Alert.alert_type Alert.severity];
              split; [reflexivity |];
              first [ right; split; reflexivity
                    | left; split; [reflexivity |];
                      rewrite (gt_eval_false baseTemp 32) by lra;
                      destruct (Rlt_dec baseTemp 0); [lra | reflexivity]
                    | lra ] |]);
     apply Forall_nil |].
  all: split.
  all: split;
    first [ intros _; assumption
          | intros _;
            first
              [ solve [eexists; split; [cbn [In]; left; reflexivity | reflexivity]]
              | solve [eexists; split;
                       [cbn [In]; right; left; reflexivity | reflexivity]] ]
          | intros Hc; contradiction
          | intros (a & Ha & Ht); cbn [In] in Ha;
            repeat (destruct Ha as [<- | Ha]); try discriminate Ht;
            try destruct Ha; try lra ].
Qed.
(** A property that a draw and the rounds of the three parts keep, for base
    temperatures from 15 to 30, holds after a run. *)
Lemma generate_v1_inv (I : heap -> Prop) (w : world)
    (stationsData : list Station.row) :
  (forall k, 0 <= random w k < 1) ->
  (forall h, I h -> I (snd (Math_random w h))) ->
  (forall s b day hour h, 15 <= b < 30 -> I h ->
     I (snd (SeedV1.observation w s b day hour h))) ->
  (forall s b day hour h, 15 <= b < 30 -> I h ->
     I (snd (SeedV1.prediction w s b day hour h))) ->
  (forall s b h, 15 <= b < 30 -> I h ->
     I (snd (SeedV1.station_alerts w s b h))) ->
  forall h, I h -> I (snd (SeedV1.generate w stationsData h)).
Proof.
  intros Hrandom Hr Ho Hp Ha. unfold SeedV1.generate. apply for_each_inv.
  intros s h _ Hh. unfold SeedV1.process_station.
  rewrite snd_bind. cbv zeta. rewrite !snd_bind.
  set (b := 15 + fst (Math_random w h) * 15).
  assert (Hb : 15 <= b < 30).
  { unfold b. cbn [Math_random fst]. specialize (Hrandom (draws h)). lra. }
  apply Ha; [exact Hb |].
  apply for_each_inv.
  { intros day h1 _ H1. apply for_each_inv; [| exact H1].
    intros hour h2 _ H2. now apply Hp. }
  apply for_each_inv; [| now apply Hr].
  intros day h1 _ H1. apply for_each_inv; [| exact H1].
  intros hour h2 _ H2. now apply Ho.
Qed.

Lemma Number_toFixed_2_range (a b : Z) (lo hi x : R) :
  lo = IZR a / 100 -> hi = IZR b / 100 -> (0 <= a)%Z -> lo <= x <= hi ->
  lo <= Number_toFixed 2 x <= hi.
Proof. intros -> -> Ha Hx. now apply Number_toFixed_2_between. Qed.

Lemma sin5_bounds (x : R) : - 5 <= sin x * 5 <= 5.
Proof. pose proof (SIN_bound x). lra. Qed.

(** X23: in the first revision, when every [Math.random()] lies in [0, 1),
    the base temperature of a station lies in [15, 30), so the only alerts a
    run raises are active "Heat Warning"s of severity high and "Wind
    Advisory"s of severity medium: the "Cold Warning" and the severity
    extreme that the code provides for are never reached. *)
Theorem X23_v1_alerts (w : world) (stationsData : list Station.row)
    (Hrandom : forall k, 0 <= random w k < 1) :
  Forall (fun a =>
            Alert.is_active a = true /\
            ((Alert.alert_type a = "Heat Warning"%string /\
              Alert.severity a = high) \/
             (Alert.alert_type a = "Wind Advisory"%string /\
              Alert.severity a = medium)))
         (alerts (snd (SeedV1.generate w stationsData empty_heap))).
Proof.
  apply (generate_v1_inv
           (fun h => Forall SeedV1.alert_as_generated (alerts h)));
    [exact Hrandom | | | | | constructor].
  - intros h Hh. exact Hh.
  - intros s b day hour h _ Hh.
    now destruct (observation_fields_v1 w s b day hour h) as (row & d' & -> & _).
  - intros s b day hour h _ Hh.
    now destruct (prediction_fields_v1 w s b day hour h) as (row & d' & -> & _).
  - intros s b h Hb Hh.
    destruct (station_alerts_v1 w s b h) as (new & -> & Hnew & _).
    cbn [alerts]. apply Forall_app. split; [exact Hh | now apply Hnew].
Qed.

Lemma X23_v1_alerts_witness :
  (forall k, 0 <= random (steady 0.9) k < 1)
  /\ Forall (fun a =>
               Alert.is_active a = true /\
               ((Alert.alert_type a = "Heat Warning"%string /\
                 Alert.severity a = high) \/
                (Alert.alert_type a = "Wind Advisory"%string /\
                 Alert.severity a = medium)))
            (alerts (snd (SeedV1.generate (steady 0.9) five_rows empty_heap))).
Proof.
  assert (H : forall k, 0 <= random (steady 0.9) k < 1).
  { intros k. unfold steady. cbn [random]. lra. }
  split; [exact H | exact (X23_v1_alerts (steady 0.9) five_rows H)].
Defined.

(** X24: in the first revision, under the same condition, the observations
    of a run have temperature in [8.5, 36.5], humidity in [40, 80],
    precipitation in [0, 10], wind speed in [0, 30] and pressure in
    [1000, 1030], and the predictions have predicted temperature in [9, 36],
    predicted humidity in [45, 75], predicted precipitation in [0, 5] and
    confidence in [82, 97]. *)
Theorem X24_v1_ranges (w : world) (stationsData : list Station.row)
    (Hrandom : forall k, 0 <= random w k < 1) :
  Forall (fun r =>
            8.5 <= Observation.temperature r <= 36.5 /\
            40 <= Observation.humidity r <= 80 /\
            0 <= Observation.precipitation r <= 10 /\
            0 <= Observation.wind_speed r <= 30 /\
            1000 <= Observation.pressure r <= 1030)
         (weatherData (snd (SeedV1.generate w stationsData empty_heap)))
  /\ Forall (fun r =>
               9 <= Prediction.predicted_temp r <= 36 /\
               45 <= Prediction.predicted_humidity r <= 75 /\
               0 <= Prediction.predicted_precipitation r <= 5 /\
               82 <= Prediction.confidence r <= 97)
            (predictions (snd (SeedV1.generate w stationsData empty_heap))).
Proof.
  apply (generate_v1_inv
           (fun h => Forall SeedV1.observation_in_range (weatherData h) /\
                     Forall SeedV1.prediction_in_range (predictions h)));
    [exact Hrandom | | | | | split; constructor].
  - intros h Hh. exact Hh.
  - intros s b day hour h Hb [Ho Hp].
    destruct (observation_fields_v1 w s b day hour h)
      as (row & d' & -> & (rt & [kt ->] & Ht) & (rh & [kh ->] & Hhum) & Hprec
          & (rw & [kw ->] & Hwind) & (rp & [kp ->] & Hpres)).
    cbn [weatherData predictions]. split; [| exact Hp].
    apply Forall_app. split; [exact Ho |]. constructor; [| constructor].
    pose proof (sin5_bounds (INR hour / 24 * PI * 2)) as Hs.
    pose proof (Hrandom kt). pose proof (Hrandom kh).
    pose proof (Hrandom kw). pose proof (Hrandom kp).
    unfold SeedV1.observation_in_range. rewrite Ht, Hhum, Hwind, Hpres.
    split; [| split; [| split; [| split]]].
    + apply (Number_toFixed_2_range 850 3650); [lra | lra | lia | split; lra].
    + apply (Number_toFixed_2_range 4000 8000); [lra | lra | lia | split; lra].
    + destruct Hprec as [-> | (r & [k ->] & ->)];
        apply (Number_toFixed_2_range 0 1000); try lra; try lia;
        try (pose proof (Hrandom k)); split; lra.
    + apply (Number_toFixed_2_range 0 3000); [lra | lra | lia | split; lra].
    + apply (Number_toFixed_2_range 100000 103000); [lra | lra | lia | split; lra].
  - intros s b day hour h Hb [Ho Hp].
    destruct (prediction_fields_v1 w s b day hour h)
      as (row & d' & -> & (rt & [kt ->] & Ht) & (rh & [kh ->] & Hhum)
          & (rp & [kp ->] & Hprec) & (rc & [kc ->] & Hconf)).
    cbn [weatherData predictions]. split; [exact Ho |].
    apply Forall_app. split; [exact Hp |]. constructor; [| constructor].
    pose proof (sin5_bounds (INR hour / 24 * PI * 2)) as Hs.
    pose proof (Hrandom kt). pose proof (Hrandom kh).
    pose proof (Hrandom kp). pose proof (Hrandom kc).
    unfold SeedV1.prediction_in_range. rewrite Ht, Hhum, Hprec, Hconf.
    split; [| split; [| split]].
    + apply (Number_toFixed_2_range 900 3600); [lra | lra | lia | split; lra].
    + apply (Number_toFixed_2_range 4500 7500); [lra | lra | lia | split; lra].
    + apply (Number_toFixed_2_range 0 500); [lra | lra | lia | split; lra].
    + apply (Number_toFixed_2_range 8200 9700); [lra | lra | lia | split; lra].
  - intros s b h Hb [Ho Hp].
    destruct (station_alerts_v1 w s b h) as (new & -> & _).
    cbn [weatherData predictions]. now split.
Qed.

Lemma X24_v1_ranges_witness :
  (forall k, 0 <= random (steady 0.9) k < 1)
  /\ Forall (fun r => 82 <= Prediction.confidence r <= 97)
            (predictions (snd (SeedV1.generate (steady 0.9) five_rows empty_heap))).
Proof.
  assert (H : forall k, 0 <= random (steady 0.9) k < 1).
  { intros k. unfold steady. cbn [random]. lra. }
  split; [exact H |].
  eapply Forall_impl; [| exact (proj2 (X24_v1_ranges (steady 0.9) five_rows H))].
  intros r (_ & _ & _ & Hc). exact Hc.
Defined.

End SeedV1Facts.
